(** * Prompt assembly of the Obyte audit driver ([questions.py])

    A shallow embedding of the module [questions.py]: the question store
    loader [get_questions], the subject catalog [questions_generator], and
    the three prompt renderers [question_format], [validation_format] and
    [question_generator], followed by the properties proved about them.

    Representation.  A Python [str] is a [string] holding the UTF-8 bytes of
    its text, so concatenation, equality and substring search are the
    byte-wise ones.  The module's global bindings are an explicit record
    threaded through every call, and a call ends by returning a value or by
    raising an exception. *)

From Stdlib Require Import Strings.String Strings.Ascii Lists.List.
From Stdlib Require Import Arith.PeanoNat ZArith.ZArith Bool.Bool Lia.
Import ListNotations.

Open Scope list_scope.
Open Scope string_scope.

(** ** Strings *)

(** The double quote character, as a one-character string. *)
Definition dq : string := String (ascii_of_nat 34) EmptyString.

(** The line feed character. *)
Definition LF : ascii := ascii_of_nat 10.

(** [join_nl ls] is Python's ["\n".join(ls)]: a triple-quoted literal that
    spans several source lines is the join of those lines. *)
Fixpoint join_nl (ls : list string) : string :=
  match ls with
  | [] => ""
  | [l] => l
  | l :: rest => l ++ String LF (join_nl rest)
  end.

(** [startswith p s] is Python's [s.startswith(p)]. *)
Fixpoint startswith (p s : string) : bool :=
  match p, s with
  | EmptyString, _ => true
  | String a p', String b s' => Ascii.eqb a b && startswith p' s'
  | String _ _, EmptyString => false
  end.

(** [str_in needle hay] is Python's [needle in hay]. *)
Fixpoint str_in (needle hay : string) : bool :=
  startswith needle hay ||
  match hay with
  | EmptyString => false
  | String _ hay' => str_in needle hay'
  end.

(** [find_all needle hay] lists the offsets at which [needle] starts in
    [hay], in increasing order (overlapping occurrences included). *)
Fixpoint find_all_from (pos : nat) (needle hay : string) : list nat :=
  (if startswith needle hay then [pos] else []) ++
  match hay with
  | EmptyString => []
  | String _ hay' => find_all_from (S pos) needle hay'
  end.

Definition find_all (needle hay : string) : list nat :=
  find_all_from 0 needle hay.

(** ** Python values and outcomes *)

(** The objects [json.load] can build.  A float keeps the text of its
    literal; floating-point arithmetic is not used by this module. *)
#[warnings="-register-all"]
Inductive pyval : Type :=
| PNone
| PBool (b : bool)
| PInt (z : Z)
| PFloat (literal : string)
| PStr (s : string)
| PList (items : list pyval)
| PDict (items : list (string * pyval)).

Inductive exn : Type :=
| FileNotFoundError
| PermissionError
| UnicodeDecodeError
| JSONDecodeError
| SyntaxError
| RecursionError
| ValueError.

(** How a call ends.  [Unmodelled] marks Python behaviour this embedding does
    not describe (formatting an object that is not a [str], resolving a name
    in the builtins namespace); every theorem below states a [Returned] or a
    [Raised] outcome, so nothing is proved about such a run. *)
Inductive outcome (A : Type) : Type :=
| Returned (a : A)
| Raised (e : exn)
| Unmodelled.

Arguments Returned {A} a.
Arguments Raised {A} e.
Arguments Unmodelled {A}.

Definition obind {A B : Type} (m : outcome A) (k : A -> outcome B) : outcome B :=
  match m with
  | Returned a => k a
  | Raised e => Raised e
  | Unmodelled => Unmodelled
  end.

Definition omap {A B : Type} (f : A -> B) (m : outcome A) : outcome B :=
  obind m (fun a => Returned (f a)).

(** [try: body / except: handler] with a bare [except], which catches every
    exception. *)
Definition try_except {A : Type} (body handler : outcome A) : outcome A :=
  match body with
  | Raised _ => handler
  | other => other
  end.

(** ** The JSON decoder behind [json.load]

    [json.load(f)] is [json.loads(f.read())] with the default decoder of the
    standard library.  Its grammar is embedded here so that the loader can be
    run on the text of a file: RFC 8259 values, the three extra literals
    [NaN], [Infinity] and [-Infinity], strict strings (no raw control
    character), one value and nothing but blanks after it.

    Two things of the interpreter are not in this grammar.  Its limits:
    [json.load] raises [RecursionError] on a text nested deeper than the
    interpreter's stack allows and [ValueError] on an integer literal of more
    than 4300 digits, where [loads] below returns the value.  And the value
    of a float: [loads] keeps the literal ([PFloat]) instead of the double it
    rounds to.  So a [Raised] outcome of [loads] is a refusal of
    [json.load], while a [Returned] outcome is the outcome of [json.load]
    only on texts below those limits; the texts of lists of strings, which
    have one level of nesting and no number, are such texts.  What the loader
    does with either outcome of [json.load] is stated for every decoder
    ([get_questions_with]). *)
Module Json.

Inductive scan (A : Type) : Type :=
| Scanned (a : A) (rest : string)
| Malformed
| Exhausted.

Arguments Scanned {A} a rest.
Arguments Malformed {A}.
Arguments Exhausted {A}.

Definition smap {A B : Type} (f : A -> B) (m : scan A) : scan B :=
  match m with
  | Scanned a rest => Scanned (f a) rest
  | Malformed => Malformed
  | Exhausted => Exhausted
  end.

Definition dquote : ascii := ascii_of_nat 34.
Definition backslash : ascii := ascii_of_nat 92.

Definition is_ws (c : ascii) : bool :=
  let n := nat_of_ascii c in
  ((n =? 32) || (n =? 9) || (n =? 10) || (n =? 13))%nat.

Fixpoint skip_ws (s : string) : string :=
  match s with
  | String c r => if is_ws c then skip_ws r else s
  | EmptyString => s
  end.

Definition is_digit (c : ascii) : bool :=
  let n := nat_of_ascii c in ((48 <=? n) && (n <=? 57))%nat.

Definition hex_val (c : ascii) : option N :=
  let n := N_of_ascii c in
  if ((48 <=? n) && (n <=? 57))%N then Some (n - 48)%N
  else if ((65 <=? n) && (n <=? 70))%N then Some (n - 55)%N
  else if ((97 <=? n) && (n <=? 102))%N then Some (n - 87)%N
  else None.

Definition hex4 (a b c d : ascii) : option N :=
  match hex_val a, hex_val b, hex_val c, hex_val d with
  | Some x, Some y, Some z, Some w => Some (((x * 16 + y) * 16 + z) * 16 + w)%N
  | _, _, _, _ => None
  end.

Definition byte (n : N) : string := String (ascii_of_N n) EmptyString.

(** The UTF-8 bytes of code point [n]; a lone surrogate gets the three-byte
    form, as Python keeps it in the decoded [str]. *)
Definition utf8 (n : N) : string :=
  (if n <? 128 then byte n
   else if n <? 2048 then byte (192 + n / 64) ++ byte (128 + n mod 64)
   else if n <? 65536 then
     byte (224 + n / 4096) ++ byte (128 + (n / 64) mod 64) ++ byte (128 + n mod 64)
   else
     byte (240 + n / 262144) ++ byte (128 + (n / 4096) mod 64)
       ++ byte (128 + (n / 64) mod 64) ++ byte (128 + n mod 64))%N.

Definition is_high_surrogate (n : N) : bool := ((55296 <=? n) && (n <=? 56319))%N.
Definition is_low_surrogate (n : N) : bool := ((56320 <=? n) && (n <=? 57343))%N.

Definition combine_surrogates (hi lo : N) : N :=
  (65536 + (hi - 55296) * 1024 + (lo - 56320))%N.

(** The character a one-letter escape stands for. *)
Definition simple_escape (e : ascii) : option ascii :=
  let n := nat_of_ascii e in
  if (n =? 34)%nat then Some dquote
  else if (n =? 92)%nat then Some backslash
  else if (n =? 47)%nat then Some (ascii_of_nat 47)
  else if (n =? 98)%nat then Some (ascii_of_nat 8)
  else if (n =? 102)%nat then Some (ascii_of_nat 12)
  else if (n =? 110)%nat then Some (ascii_of_nat 10)
  else if (n =? 114)%nat then Some (ascii_of_nat 13)
  else if (n =? 116)%nat then Some (ascii_of_nat 9)
  else None.

Definition prepend (p : string) (m : scan string) : scan string :=
  smap (fun t => p ++ t) m.

(** [scanstring s] reads a string body; [s] starts just after the opening
    quote, and the result's rest starts just after the closing one. *)
Fixpoint scanstring (s : string) : scan string :=
  match s with
  | EmptyString => Malformed
  | String c r =>
    if Ascii.eqb c dquote then Scanned "" r
    else if Ascii.eqb c backslash then
      match r with
      | EmptyString => Malformed
      | String e r1 =>
        if Ascii.eqb e "u" then
          match r1 with
          | String h1 (String h2 (String h3 (String h4 r2))) =>
            match hex4 h1 h2 h3 h4 with
            | None => Malformed
            | Some hi =>
              match r2 with
              | String b (String u (String k1 (String k2 (String k3 (String k4 r3))))) =>
                match hex4 k1 k2 k3 k4 with
                | Some lo =>
                  if is_high_surrogate hi && Ascii.eqb b backslash
                     && Ascii.eqb u "u" && is_low_surrogate lo
                  then prepend (utf8 (combine_surrogates hi lo)) (scanstring r3)
                  else prepend (utf8 hi) (scanstring r2)
                | None => prepend (utf8 hi) (scanstring r2)
                end
              | _ => prepend (utf8 hi) (scanstring r2)
              end
            end
          | _ => Malformed
          end
        else
          match simple_escape e with
          | Some x => prepend (String x "") (scanstring r1)
          | None => Malformed
          end
      end
    else if (nat_of_ascii c <? 32)%nat then Malformed
    else prepend (String c "") (scanstring r)
  end.

Fixpoint take_digits (s : string) : string * string :=
  match s with
  | String c r =>
    if is_digit c then let (ds, rest) := take_digits r in (String c ds, rest)
    else ("", s)
  | EmptyString => ("", s)
  end.

Fixpoint Z_of_digits_from (acc : Z) (ds : string) : Z :=
  match ds with
  | EmptyString => acc
  | String c r => Z_of_digits_from (10 * acc + Z.of_nat (nat_of_ascii c - 48))%Z r
  end.

Definition Z_of_digits (ds : string) : Z := Z_of_digits_from 0%Z ds.

(** The fraction [.ddd] at the head of [s], if any, and what follows it. *)
Definition take_fraction (s : string) : string * string :=
  match s with
  | String c r =>
    if Ascii.eqb c "." then
      match take_digits r with
      | (EmptyString, _) => ("", s)
      | (ds, rest) => (String c ds, rest)
      end
    else ("", s)
  | EmptyString => ("", s)
  end.

(** The exponent [e+ddd] at the head of [s], if any, and what follows it. *)
Definition take_exponent (s : string) : string * string :=
  match s with
  | String c r =>
    if Ascii.eqb c "e" || Ascii.eqb c "E" then
      let (sign, r1) :=
        match r with
        | String g r' =>
          if Ascii.eqb g "+" || Ascii.eqb g "-" then (String g "", r') else ("", r)
        | EmptyString => ("", r)
        end in
      match take_digits r1 with
      | (EmptyString, _) => ("", s)
      | (ds, rest) => (String c (sign ++ ds), rest)
      end
    else ("", s)
  | EmptyString => ("", s)
  end.

(** The value of a number literal: an [int] when it has neither fraction nor
    exponent, a [float] otherwise. *)
Definition number_value (neg : bool) (int_part frac exp : string) : pyval :=
  match frac, exp with
  | EmptyString, EmptyString =>
    PInt (if neg then - Z_of_digits int_part else Z_of_digits int_part)%Z
  | _, _ => PFloat ((if neg then "-" else "") ++ int_part ++ frac ++ exp)
  end.

(** The digits of a number, after its sign: a lone zero or a nonzero digit
    followed by digits, then an optional fraction and an optional exponent. *)
Definition scan_unsigned (neg : bool) (s : string) : scan pyval :=
  match s with
  | EmptyString => Malformed
  | String d r =>
    if is_digit d then
      let (int_part, r1) :=
        if Ascii.eqb d "0" then (String d "", r)
        else let (ds, rest) := take_digits r in (String d ds, rest) in
      let (frac, r2) := take_fraction r1 in
      let (exp, r3) := take_exponent r2 in
      Scanned (number_value neg int_part frac exp) r3
    else Malformed
  end.

(** A number, with its optional minus sign. *)
Definition scan_number (s : string) : scan pyval :=
  match s with
  | String c r => if Ascii.eqb c "-" then scan_unsigned true r else scan_unsigned false s
  | EmptyString => Malformed
  end.

(** [strip_prefix p s] is the rest of [s] after [p], if [s] starts with [p]. *)
Fixpoint strip_prefix (p s : string) : option string :=
  match p, s with
  | EmptyString, _ => Some s
  | String a p', String b s' => if Ascii.eqb a b then strip_prefix p' s' else None
  | String _ _, EmptyString => None
  end.

(** [dict(pairs)]: a repeated key keeps its first place and its last value. *)
Fixpoint dict_set (k : string) (v : pyval) (d : list (string * pyval))
  : list (string * pyval) :=
  match d with
  | [] => [(k, v)]
  | (k', v') :: r => if String.eqb k k' then (k', v) :: r else (k', v') :: dict_set k v r
  end.

Definition dict_of_pairs (ps : list (string * pyval)) : list (string * pyval) :=
  fold_left (fun d kv => dict_set (fst kv) (snd kv) d) ps [].

(** The items of an array, [s] standing at the first one; [n] bounds the
    number of items. *)
Fixpoint array_items (value : string -> scan pyval) (n : nat) (s : string)
  : scan (list pyval) :=
  match n with
  | O => Exhausted
  | S n' =>
    match value s with
    | Scanned v r =>
      match skip_ws r with
      | String c r' =>
        if Ascii.eqb c "]" then Scanned [v] r'
        else if Ascii.eqb c "," then smap (cons v) (array_items value n' (skip_ws r'))
        else Malformed
      | EmptyString => Malformed
      end
    | Malformed => Malformed
    | Exhausted => Exhausted
    end
  end.

(** The pairs of an object, [s] standing just after the opening quote of the
    first key; [n] bounds the number of pairs. *)
Fixpoint object_pairs (value : string -> scan pyval) (n : nat) (s : string)
  : scan (list (string * pyval)) :=
  match n with
  | O => Exhausted
  | S n' =>
    match scanstring s with
    | Scanned key r =>
      match skip_ws r with
      | String c r1 =>
        if Ascii.eqb c ":" then
          match value (skip_ws r1) with
          | Scanned v r2 =>
            match skip_ws r2 with
            | String d r3 =>
              if Ascii.eqb d "}" then Scanned [(key, v)] r3
              else if Ascii.eqb d "," then
                match skip_ws r3 with
                | String q r4 =>
                  if Ascii.eqb q dquote
                  then smap (cons (key, v)) (object_pairs value n' r4)
                  else Malformed
                | EmptyString => Malformed
                end
              else Malformed
            | EmptyString => Malformed
            end
          | Malformed => Malformed
          | Exhausted => Exhausted
          end
        else Malformed
      | EmptyString => Malformed
      end
    | Malformed => Malformed
    | Exhausted => Exhausted
    end
  end.

(** The literals and numbers, tried in the decoder's order. *)
Definition scan_atom (s : string) : scan pyval :=
  match strip_prefix "null" s with
  | Some r => Scanned PNone r
  | None =>
  match strip_prefix "true" s with
  | Some r => Scanned (PBool true) r
  | None =>
  match strip_prefix "false" s with
  | Some r => Scanned (PBool false) r
  | None =>
  match scan_number s with
  | Scanned v r => Scanned v r
  | _ =>
  match strip_prefix "NaN" s with
  | Some r => Scanned (PFloat "NaN") r
  | None =>
  match strip_prefix "Infinity" s with
  | Some r => Scanned (PFloat "Infinity") r
  | None =>
  match strip_prefix "-Infinity" s with
  | Some r => Scanned (PFloat "-Infinity") r
  | None => Malformed
  end end end end end end end.

(** One value at the head of [s]; [fuel] bounds the nesting depth. *)
Fixpoint scan_once (fuel : nat) (s : string) : scan pyval :=
  match fuel with
  | O => Exhausted
  | S f =>
    match s with
    | EmptyString => Malformed
    | String c r =>
      if Ascii.eqb c dquote then smap PStr (scanstring r)
      else if Ascii.eqb c "{" then
        match skip_ws r with
        | String c2 r2 =>
          if Ascii.eqb c2 "}" then Scanned (PDict []) r2
          else if Ascii.eqb c2 dquote
          then smap (fun ps => PDict (dict_of_pairs ps)) (object_pairs (scan_once f) f r2)
          else Malformed
        | EmptyString => Malformed
        end
      else if Ascii.eqb c "[" then
        match skip_ws r with
        | String c2 r2 =>
          if Ascii.eqb c2 "]" then Scanned (PList []) r2
          else smap PList (array_items (scan_once f) f (skip_ws r))
        | EmptyString => Malformed
        end
      else scan_atom s
    end
  end.

(** The byte order mark U+FEFF, which [json.loads] refuses at the start. *)
Definition BOM : string := utf8 65279.

(** [json.loads(s)]: leading blanks, one value, trailing blanks, the end.
    The fuel is the length of the text, which no nesting can exceed. *)
Definition loads (s : string) : outcome pyval :=
  if startswith BOM s then Raised JSONDecodeError
  else
    match scan_once (S (String.length s)) (skip_ws s) with
    | Scanned v r =>
      match skip_ws r with
      | EmptyString => Returned v
      | String _ _ => Raised JSONDecodeError
      end
    | Malformed => Raised JSONDecodeError
    | Exhausted => Unmodelled
    end.

End Json.

(** ** The module body *)

(** [BASE_URL] (questions.py, line 3). *)
Definition BASE_URL : string := "https://deepwiki.com/byteball/ocore".

(** ** The question store loader *)

(** What [open(path, "r")] followed by a read of the whole file yields: the
    file may be missing, may not be readable by the process, may hold bytes
    that are no text in the process's encoding, or holds a text. *)
Inductive file_state : Type :=
| Missing
| Unreadable
| Undecodable
| Text (content : string).

Definition file_system : Type := string -> file_state.

Definition read_text (fs : file_system) (path : string) : outcome string :=
  match fs path with
  | Missing => Raised FileNotFoundError
  | Unreadable => Raised PermissionError
  | Undecodable => Raised UnicodeDecodeError
  | Text content => Returned content
  end.

(** [json.load(f)] on the file opened at [path]. *)
Definition json_load (fs : file_system) (path : string) : outcome pyval :=
  obind (read_text fs path) Json.loads.

(** [get_questions] (questions.py, lines 6-12). *)
Definition get_questions (fs : file_system) : outcome pyval :=
  try_except (json_load fs "all_questions.json") (Returned (PList [])).

(** The same body with the decoder as a parameter: [load] stands for what
    [json.load] does with the text of the file, be it the grammar of
    [Json.loads] or the decoder of an interpreter with its limits. *)
Definition json_load_with (load : string -> outcome pyval)
    (fs : file_system) (path : string) : outcome pyval :=
  obind (read_text fs path) load.

Definition get_questions_with (load : string -> outcome pyval)
    (fs : file_system) : outcome pyval :=
  try_except (json_load_with load fs "all_questions.json") (Returned (PList [])).

(** [questions = get_questions()] (questions.py, line 15): the collection
    the module holds once it is imported. *)
Definition questions (fs : file_system) : outcome pyval := get_questions fs.

(** ** The subject catalog (questions.py, lines 17-95) *)
Definition questions_generator : list string := [
  "byteball/ocore/aa_addresses.js";
  "byteball/ocore/aa_composer.js";
  "byteball/ocore/aa_validation.js";
  "byteball/ocore/arbiter_contract.js";
  "byteball/ocore/arbiters.js";
  "byteball/ocore/archiving. js";
  "byteball/ocore/balances.js";
  "byteball/ocore/bots.js";
  "byteball/ocore/breadcrumbs.js";
  "byteball/ocore/catchup.js";
  "byteball/ocore/chash. js";
  "byteball/ocore/chat_storage.js";
  "byteball/ocore/check_daemon.js";
  "byteball/ocore/composer.js";
  "byteball/ocore/conf. js";
  "byteball/ocore/constants.js";
  "byteball/ocore/data_feeds.js";
  "byteball/ocore/db.js";
  "byteball/ocore/definition.js";
  "byteball/ocore/desktop_app.js";
  "byteball/ocore/device.js";
  "byteball/ocore/divisible_asset.js";
  "byteball/ocore/enforce_singleton.js";
  "byteball/ocore/event_bus. js";
  "byteball/ocore/graph.js";
  "byteball/ocore/headers_commission.js";
  "byteball/ocore/indivisible_asset.js";
  "byteball/ocore/initial_votes.js";
  "byteball/ocore/inputs.js";
  "byteball/ocore/joint_storage. js";
  "byteball/ocore/kvstore.js";
  "byteball/ocore/light.js";
  "byteball/ocore/light_wallet.js";
  "byteball/ocore/mail.js";
  "byteball/ocore/main_chain.js";
  "byteball/ocore/mc_outputs.js";
  "byteball/ocore/merkle.js";
  "byteball/ocore/migrate_to_kv.js";
  "byteball/ocore/mutex.js";
  "byteball/ocore/my_witnesses.js";
  "byteball/ocore/mysql_pool. js";
  "byteball/ocore/network.js";
  "byteball/ocore/object_hash.js";
  "byteball/ocore/object_length.js";
  "byteball/ocore/paid_witnessing.js";
  "byteball/ocore/parent_composer.js";
  "byteball/ocore/private_payment.js";
  "byteball/ocore/private_profile. js";
  "byteball/ocore/profiler.js";
  "byteball/ocore/proof_chain.js";
  "byteball/ocore/prosaic_contract.js";
  "byteball/ocore/signature.js";
  "byteball/ocore/signed_message.js";
  "byteball/ocore/sqlite_migrations. js";
  "byteball/ocore/sqlite_pool.js";
  "byteball/ocore/storage.js";
  "byteball/ocore/string_utils.js";
  "byteball/ocore/uri. js";
  "byteball/ocore/validation.js";
  "byteball/ocore/validation_utils.js";
  "byteball/ocore/wallet.js";
  "byteball/ocore/wallet_defined_by_addresses.js";
  "byteball/ocore/wallet_defined_by_keys.js";
  "byteball/ocore/wallet_general.js";
  "byteball/ocore/witness_proof.js";
  "byteball/ocore/writer.js";
  "byteball/ocore/formula/common.js";
  "byteball/ocore/formula/evaluation. js";
  "byteball/ocore/formula/validation.js";
  "byteball/ocore/formula/parse_ojson.js";
  "byteball/ocore/formula/index. js";
  "byteball/ocore/tools/check_stability.js";
  "byteball/ocore/tools/replace_ops.js";
  "byteball/ocore/tools/supply.js";
  "byteball/ocore/tools/update_stability.js";
  "byteball/ocore/tools/validate_aa_definitions.js";
  "byteball/ocore/tools/viewkv.js"
].

(** ** Module state *)

(** The data bound at module level once [questions.py] has been imported. *)
Module Globals.
Record t : Type := mk {
  BASE_URL : string;
  questions : pyval;
  questions_generator : pyval
}.
End Globals.

(** Running the module body: the three assignments of lines 3, 15 and 17. *)
Definition import_module (fs : file_system) : outcome Globals.t :=
  obind (questions fs) (fun qs =>
  Returned (Globals.mk BASE_URL qs (PList (map PStr questions_generator)))).

(** A computation inside the imported module: it may read and rebind the
    globals, and ends by returning or raising. *)
Definition py (A : Type) : Type := Globals.t -> outcome A * Globals.t.

Definition ret {A : Type} (a : A) : py A := fun g => (Returned a, g).

Definition bind {A B : Type} (m : py A) (k : A -> py B) : py B :=
  fun g =>
    match m g with
    | (Returned a, g') => k a g'
    | (Raised e, g') => (Raised e, g')
    | (Unmodelled, g') => (Unmodelled, g')
    end.

Notation "x <- m ;; k" := (bind m (fun x => k))
  (at level 61, m at next level, right associativity).

(** Evaluating an expression that only reads the globals. *)
Definition reading {A : Type} (f : Globals.t -> outcome A) : py A :=
  fun g => (f g, g).

(** ** Formatted string literals *)

(** A formatted string literal is compiled into literal text and replacement
    fields.  The three templates of this module use one form of field only,
    a bare name; conversions, format specifications and richer expressions
    are outside the embedding. *)
Inductive fpart : Type :=
| Literal (text : string)
| Replacement (name : string).

Definition is_name_char (c : ascii) : bool :=
  let n := nat_of_ascii c in
  (((97 <=? n) && (n <=? 122)) || ((65 <=? n) && (n <=? 90))
   || ((48 <=? n) && (n <=? 57)) || (n =? 95))%nat.

Definition lit_cons (c : ascii) (parts : list fpart) : list fpart :=
  match parts with
  | Literal text :: rest => Literal (String c text) :: rest
  | _ => Literal (String c "") :: parts
  end.

(** [parse_fstring_from field t]: [field] is [None] in literal text and
    [Some name] inside a replacement field whose name read so far is [name].
    A doubled brace is one literal brace; a single closing brace, an empty
    field and an unclosed field are syntax errors. *)
Fixpoint parse_fstring_from (field : option string) (t : string)
  : outcome (list fpart) :=
  match field, t with
  | None, EmptyString => Returned []
  | None, String c r =>
    if Ascii.eqb c "{" then
      match r with
      | String c2 r2 =>
        if Ascii.eqb c2 "{" then omap (lit_cons c) (parse_fstring_from None r2)
        else parse_fstring_from (Some "") r
      | EmptyString => Raised SyntaxError
      end
    else if Ascii.eqb c "}" then
      match r with
      | String c2 r2 =>
        if Ascii.eqb c2 "}" then omap (lit_cons c) (parse_fstring_from None r2)
        else Raised SyntaxError
      | EmptyString => Raised SyntaxError
      end
    else omap (lit_cons c) (parse_fstring_from None r)
  | Some name, EmptyString => Raised SyntaxError
  | Some name, String c r =>
    if Ascii.eqb c "}" then
      match name with
      | EmptyString => Raised SyntaxError
      | String _ _ => omap (cons (Replacement name)) (parse_fstring_from None r)
      end
    else if is_name_char c then parse_fstring_from (Some (name ++ String c "")) r
    else Unmodelled
  end.

Definition parse_fstring (t : string) : outcome (list fpart) :=
  parse_fstring_from None t.

(** Local variables of a call, innermost binding first. *)
Definition frame : Type := list (string * pyval).

Fixpoint lookup_local (locals : frame) (name : string) : option pyval :=
  match locals with
  | [] => None
  | (n, v) :: rest => if String.eqb n name then Some v else lookup_local rest name
  end.

Definition lookup_global (g : Globals.t) (name : string) : option pyval :=
  if String.eqb name "BASE_URL" then Some (PStr (Globals.BASE_URL g))
  else if String.eqb name "questions" then Some (Globals.questions g)
  else if String.eqb name "questions_generator" then Some (Globals.questions_generator g)
  else None.

(** Name resolution inside a function body: the local frame, then the
    module's globals. *)
Definition lookup (locals : frame) (g : Globals.t) (name : string) : option pyval :=
  match lookup_local locals name with
  | Some v => Some v
  | None => lookup_global g name
  end.

(** [format(v, "")] of a [str] is the string itself. *)
Definition format_value (v : option pyval) : outcome string :=
  match v with
  | Some (PStr s) => Returned s
  | _ => Unmodelled
  end.

(** The parts are evaluated from left to right and concatenated. *)
Fixpoint format_parts (locals : frame) (g : Globals.t) (parts : list fpart)
  : outcome string :=
  match parts with
  | [] => Returned ""
  | Literal text :: rest => omap (append text) (format_parts locals g rest)
  | Replacement name :: rest =>
    obind (format_value (lookup locals g name)) (fun s =>
    omap (append s) (format_parts locals g rest))
  end.

(** The value of the formatted string literal [template]. *)
Definition fstring (template : string) (locals : frame) : py string :=
  reading (fun g => obind (parse_fstring template) (format_parts locals g)).

(** ** The three renderers *)
(** The f-string literal of [question_format] (questions.py, lines 108-655), one source line per item. *)
Definition question_format_template : string := join_nl [
  "";
  "You are an **Elite Distributed Ledger Security Auditor** specializing in ";
  "DAG-based consensus systems, JavaScript VM sandboxing, cryptographic ";
  "protocols, and decentralized network architectures.  Your task is to analyze ";
  "the **Obyte (Byteball) Protocol** codebase—a DAG-based distributed ledger ";
  "featuring witness-based consensus, Autonomous Agents (AA smart contracts), ";
  "deterministic unit validation, P2P network synchronization, multi-signature ";
  "wallets, and oracle integration—through the lens of this single security ";
  "question: ";
  "";
  "**Security Question (scope for this run):** {question}";
  "";
  "**OBYTE PROTOCOL CONTEXT:**";
  "";
  "**Architecture**:  Obyte uses a Directed Acyclic Graph (DAG) where each ";
  "transaction unit references multiple parent units.  Consensus is achieved ";
  "through a witness list (12 trusted nodes per unit) that posts regular ";
  "heartbeat transactions.  The main chain (MC) is determined by witness ";
  "voting, and units become stable when witnessed by majority (7+ of 12) ";
  "witnesses at higher levels.  Autonomous Agents (AAs) execute deterministic ";
  "JavaScript-like formulas with sandboxed state access.  The protocol ";
  "features native and custom assets (divisible/indivisible), multi-sig ";
  "addresses, private payments, oracles, and light client support via ";
  "witness proofs.";
  "";
  "**Key Components**: ";
  "";
  "* **DAG & Validation Layer**: `validation.js` (116KB - unit structure, ";
  "  signatures, balance checks), `storage.js` (98KB - database operations), ";
  "  `object_hash.js` (deterministic hashing), `graph. js` (DAG traversal), ";
  "  `inputs.js` (double-spend prevention)";
  "";
  "* **Consensus Layer**: `main_chain.js` (77KB - MC index determination, ";
  "  stability points), `witness_proof.js` (light client proofs), ";
  "  `initial_votes.js`, `my_witnesses.js` (witness list management)";
  "";
  "* **Network Layer**:  `network.js` (156KB - P2P protocol, unit ";
  "  broadcasting), `catchup.js` (sync protocol), `light. js` (34KB - light ";
  "  client), `device.js` (38KB - device pairing)";
  "";
  "* **AA Execution Engine**: `formula/evaluation.js` (106KB - formula ";
  "  execution sandbox), `formula/validation.js` (46KB - syntax validation), ";
  "  `aa_composer.js` (71KB - AA transaction builder), `aa_validation.js` ";
  "  (28KB - AA unit validation)";
  "";
  "* **Transaction Layer**: `composer.js` (38KB - tx composition), ";
  "  `parent_composer.js` (30KB - parent selection), `wallet. js` (122KB - ";
  "  wallet operations), `writer.js` (34KB - unit writing)";
  "";
  "* **Asset Layer**: `divisible_asset.js`, `indivisible_asset.js` (asset ";
  "  transfers, issuance), `definition. js` (53KB - address definitions, ";
  "  multi-sig)";
  "";
  "* **Signature & Auth**:  `signature.js` (ECDSA verification), ";
  "  `definition. js` (recursive definition evaluation)";
  "";
  "* **Oracle & Data**: `data_feeds.js` (oracle data handling), ";
  "  `arbiter_contract.js` (arbiter logic)";
  "";
  "* **Database**: `sqlite_pool.js`, `mysql_pool.js`, `joint_storage.js`, ";
  "  `kvstore.js` (AA state storage)";
  "";
  "**Files in Scope**:  All 77 JavaScript files in the `byteball/ocore` ";
  "repository (core files, formula directory, tools directory). **Test files** ";
  "under `./test/` are **out of scope** for vulnerability analysis but may be ";
  "referenced for understanding expected behavior.";
  "";
  "**CRITICAL INVARIANTS (derived from protocol specification and code):**";
  "";
  "1. **Main Chain Monotonicity**: MCI (Main Chain Index) assignments must be ";
  "   strictly increasing along any path in the DAG; no unit can have MCI ≤ ";
  "   any descendant's MCI.  Non-deterministic MC selection causes permanent ";
  "   chain splits.";
  "";
  "2. **Witness Compatibility**: Every unit must share ≥1 witness with all ";
  "   ancestor units.  Incompatible witness lists cause permanent network ";
  "   partition for all descendants.";
  "";
  "3. **Stability Irreversibility**: Once a unit reaches stable MCI (witnessed ";
  "   by 7+ of 12 witnesses), its content, position, and last ball are ";
  "   immutable. Reverting stable units breaks historical integrity.";
  "";
  "4. **Last Ball Consistency**: The last ball chain (hash chain of stable ";
  "   units) must be unbroken. Forking or skipping last balls corrupts the ";
  "   immutable history layer.";
  "";
  "5. **Balance Conservation**: For every asset in a unit, ";
  "   `Σ(input_amounts) ≥ Σ(output_amounts) + fees`. No inflation/deflation ";
  "   except authorized asset issuance.  Integer overflow/underflow breaks this. ";
  "";
  "6. **Double-Spend Prevention**: Each output (unit_hash, message_index, ";
  "   output_index) can be spent at most once. Database must enforce unique ";
  "   constraint; race conditions or validation gaps allow double-spends.";
  "";
  "7. **Input Validity**: All inputs must reference existing unspent outputs ";
  "   owned by unit authors. Spending non-existent or already-spent outputs ";
  "   violates balance integrity.";
  "";
  "8. **Asset Cap Enforcement**:  Divisible asset issuance cannot exceed ";
  "   `max_cap`. Total circulating supply must be tracked correctly; overflow ";
  "   or missing checks mint unlimited tokens.";
  "";
  "9. **Indivisible Serial Uniqueness**: Each indivisible asset serial must be ";
  "   issued exactly once. Duplicate serials break NFT uniqueness guarantees.";
  "";
  "10. **AA Deterministic Execution**:  Autonomous Agent formula evaluation must ";
  "    produce identical results on all nodes for same input state. Non-";
  "    determinism (random, timestamps, external I/O) causes state divergence ";
  "    and chain splits.";
  "";
  "11. **AA State Consistency**: AA state variable updates must be atomic.  ";
  "    Race conditions or partial commits cause nodes to hold different state, ";
  "    leading to validation disagreements.";
  "";
  "12. **Bounce Correctness**: Failed AA executions must refund inputs minus ";
  "    bounce fees via bounce response. Incorrect refund amounts or recipients ";
  "    cause fund loss.";
  "";
  "13. **Formula Sandbox Isolation**: AA formula execution must not access ";
  "    filesystem, network, or host JavaScript APIs. Sandbox escapes allow ";
  "    arbitrary code execution on validator nodes.";
  "";
  "14. **Signature Binding**: Each author's signature must cover the exact ";
  "    unit hash (including all messages, parents, witnesses). Signature ";
  "    malleability or hash manipulation allows unauthorized spending.";
  "";
  "15. **Definition Evaluation Integrity**: Address definitions (multi-sig, ";
  "    weighted, or/and logic) must evaluate correctly. Logic errors allow ";
  "    unauthorized spending or signature bypass.";
  "";
  "16. **Parent Validity**: All parent units must exist, be valid, and form a ";
  "    DAG (no cycles). Invalid parents or cycles break DAG structure and ";
  "    consensus.";
  "";
  "17. **Witness Level Correctness**: Witness Level (WL) must be the minimum ";
  "    level of witness-authored ancestors. Incorrect WL breaks MC ";
  "    determination. ";
  "";
  "18. **Fee Sufficiency**: Unit fees must cover header + payload costs. ";
  "    Under-paid units accepted into DAG allow spam attacks.";
  "";
  "19. **Catchup Completeness**: Syncing nodes must retrieve all units on MC ";
  "    up to last stable point without gaps. Missing units cause validation ";
  "    failures and permanent desync.";
  "";
  "20. **Database Referential Integrity**: Foreign keys (unit → parents, ";
  "    messages → units, inputs → outputs) must be enforced. Orphaned records ";
  "    corrupt DAG structure.";
  "";
  "21. **Transaction Atomicity**: Multi-step operations (storing unit + ";
  "    updating balances + spending outputs) must be atomic. Partial commits ";
  "    cause inconsistent state.";
  "";
  "22. **Timestamp Validity**: Unit timestamps must be reasonable (not far-";
  "    future or far-past relative to parent timestamps and MC). Invalid ";
  "    timestamps disrupt ordering and MC selection.";
  "";
  "23. **Light Client Proof Integrity**:  Witness proofs must be unforgeable.  ";
  "    Fake proofs trick light clients into accepting invalid history.";
  "";
  "24. **Network Unit Propagation**: Valid units must propagate to all peers. ";
  "    Selective censorship of witness units causes network partitions.";
  "";
  "**YOUR INVESTIGATION MISSION:**";
  "";
  "Accept the premise of the security question and explore **all** relevant ";
  "code paths, data structures, state transitions, and cross-file ";
  "interactions related to it. Do not settle for surface observations—trace ";
  "execution flows through validation → storage → network → consensus layers. ";
  "";
  "Your goal is to find **one** concrete, exploitable vulnerability tied to ";
  "the question that an unprivileged user, malicious peer, MEV searcher, ";
  "malicious AA, or compromised oracle could exploit. Focus on: ";
  "";
  "* Business-logic flaws (incorrect validation, missing checks)";
  "* Mathematical errors (overflow, underflow, precision loss, rounding)";
  "* Race conditions (concurrent unit submission, database access)";
  "* Non-deterministic behavior (timestamp comparisons, floating-point math)";
  "* Signature bypasses (malleability, hash collisions)";
  "* DAG structure corruption (invalid parents, cycles, witness incompatibility)";
  "* State divergence (AA execution differences across nodes)";
  "* Database integrity violations (orphaned records, constraint bypasses)";
  "* Network attacks (DoS, unit flooding, catchup poisoning)";
  "";
  "**ATTACK SURFACE EXPLORATION:**";
  "";
  "1. **Unit Validation Edge Cases** (`validation.js`, `inputs.js`):";
  "   - Units with maximum parents (15) or witnesses (12)";
  "   - Zero outputs or zero-value payments";
  "   - Negative balances or integer overflow in input/output sums";
  "   - Conflicting messages in same unit (e.g., double asset definition)";
  "   - Timestamps far in past/future";
  "   - Invalid signature encoding or s-value malleability";
  "   - Input referencing non-existent or already-spent output";
  "   - Author addresses not matching signature public keys";
  "";
  "2. **Main Chain Consensus** (`main_chain.js`, `witness_proof.js`):";
  "   - Non-deterministic comparison operations";
  "   - Floating-point arithmetic in MC index calculations";
  "   - Concurrent updates to last stable MCI from multiple threads";
  "   - Witness level miscalculation for complex parent structures";
  "   - Last ball forking when two units at same MCI reference previous last ball";
  "   - Stability point disagreement due to witness unit censorship";
  "";
  "3. **AA Execution Sandbox** (`formula/evaluation.js`, `aa_composer.js`):";
  "   - Prototype pollution (`Object.prototype.x = malicious`)";
  "   - Constructor injection (`{{}}. constructor.constructor('malicious code')()`)";
  "   - `eval()` or `Function()` usage in formula evaluation";
  "   - Access to Node. js globals (`require`, `process`, `fs`, `__dirname`)";
  "   - Non-deterministic functions (`Math.random()`, `Date.now()`)";
  "   - Infinite loops or exponential complexity (no gas limits)";
  "   - State variable read/write race conditions during concurrent triggers";
  "   - Reentrancy via secondary triggers calling back into primary AA";
  "   - Bounce response amount miscalculation (rounding errors)";
  "   - Integer overflow in formula arithmetic (`BigInt` handling)";
  "";
  "4. **Asset Operations** (`divisible_asset.js`, `indivisible_asset.js`):";
  "   - Issuing asset multiple times to exceed `max_cap`";
  "   - Duplicate serial numbers for indivisible assets";
  "   - Transfer restrictions bypass (`cosigned_by_definer` missing)";
  "   - Decimal precision loss in divisible asset calculations";
  "   - Negative asset amounts or overflow in balance updates";
  "";
  "5. **Network & Sync** (`network.js`, `catchup.js`, `light.js`):";
  "   - Unit flooding DoS (100k+ units/second overwhelming validation queue)";
  "   - Malicious parent selection causing validation bottlenecks";
  "   - Catchup protocol sending incorrect or skipped units";
  "   - Light client accepting forged witness proofs";
  "   - Peer censorship of witness units causing partition";
  "   - WebSocket message injection or malformed JSON payloads";
  "";
  "6. **Transaction Composition** (`composer.js`, `parent_composer.js`, `wallet.js`):";
  "   - Input selection choosing already-spent outputs";
  "   - Fee calculation underestimating unit size";
  "   - Change output rounding errors causing value loss";
  "   - Parent selection bias delaying confirmation";
  "   - Multi-asset transaction with missing asset in input/output sums";
  "";
  "7. **Database Operations** (`storage.js`, `joint_storage.js`, `sqlite_pool.js`, `mysql_pool.js`):";
  "   - SQL injection via unit messages or address strings";
  "   - Race condition in concurrent unit storage (duplicate inserts)";
  "   - Database deadlock during complex transactions";
  "   - Foreign key constraint violations orphaning records";
  "   - Index corruption causing incorrect validation lookups";
  "   - Transaction rollback leaving partial state";
  "";
  "8. **Signature & Authorization** (`signature.js`, `definition.js`):";
  "   - ECDSA s-value malleability";
  "   - Multi-sig definition evaluation bypass";
  "   - Definition change attack";
  "   - Address collision";
  "   - Signature verification using wrong hash";
  "";
  "9. **Oracle & Data Feeds** (`data_feeds.js`):";
  "   - Oracle signature verification bypass";
  "   - Timestamp spoofing in data feed messages";
  "   - AA trusting single oracle without redundancy";
  "   - Data feed censorship preventing AA execution";
  "";
  "10. **Graph Operations** (`graph.js`, `object_hash.js`):";
  "    - Parent cycle detection failure";
  "    - Hash collision or preimage attack on unit hashes";
  "    - Best parent selection non-determinism";
  "    - DAG traversal infinite loop on malformed graph";
  "";
  "**OBYTE-SPECIFIC ATTACK VECTORS:**";
  "";
  "- **Chain Split via Non-Deterministic MC**:  Can floating-point math, timestamp ties, or hash collisions cause different nodes to select different main chains? ";
  "- **Double-Spend via Race Condition**: Can two units spending same output both be accepted if submitted simultaneously to different nodes?";
  "- **AA Sandbox Escape**: Can attacker craft formula using prototype pollution, constructor injection, or eval to execute arbitrary Node.js code?";
  "- **Witness Incompatibility Partition**: Can attacker post unit with witness list incompatible with all parents, causing permanent split?";
  "- **Balance Overflow/Underflow**: Can integer overflow in asset balance calculations mint unlimited tokens?";
  "- **Last Ball Fork**: Can two units at same MCI both become last ball? ";
  "- **Light Client Proof Forgery**: Can attacker generate fake witness proof? ";
  "- **Unit Flooding DoS**: Can attacker submit massive number of valid units exceeding node processing capacity? ";
  "- **AA State Divergence**: Can concurrent AA triggers cause different nodes to reach different state? ";
  "- **Cascading Trigger Reentrancy**: Can AA trigger itself via secondary response before state is committed?";
  "- **Definition Change Theft**: Can attacker submit `definition_chg` message replacing victim's address definition?";
  "- **Asset Cap Bypass**: Can attacker issue divisible asset multiple times to exceed `max_cap`?";
  "- **Indivisible Serial Collision**: Can same serial number be issued twice? ";
  "- **Signature Malleability**: Can attacker flip ECDSA s-value to create different valid signature? ";
  "- **SQL Injection**: Can attacker inject SQL via unit messages or addresses?";
  "- **Catchup Poisoning**: Can malicious peer send incorrect units during sync? ";
  "";
  "**TRUST MODEL:**";
  "";
  "**Trusted Roles**:  Witnesses (12 per unit), oracle data feed providers, ";
  "hub operators (for light clients). Do **not** assume these actors behave ";
  "maliciously unless the question explicitly explores compromised witness ";
  "or oracle scenarios.";
  "";
  "**Untrusted Actors**: Any user submitting units, AA developers, malicious ";
  "peers, MEV searchers, adversarial AAs attempting to exploit other AAs.  ";
  "Focus your analysis on bugs exploitable by untrusted actors without ";
  "requiring witness collusion, oracle compromise, or governance ";
  "misconfiguration.";
  "";
  "**KNOWN ISSUES / EXCLUSIONS:**";
  "";
  "- Cryptographic primitives (SHA256, ECDSA) are assumed secure";
  "- Witness collusion or 7+ of 12 witnesses acting maliciously";
  "- Oracle data accuracy (oracles are trusted to provide correct data)";
  "- Network-level attacks (DDoS, BGP hijacking, DNS poisoning)";
  "- Node.js runtime bugs (V8 engine bugs, libuv issues) unrelated to Obyte code";
  "- Social engineering, phishing, or key theft";
  "- Gas optimization, code style, missing comments";
  "- Precision loss <0.01% in fee calculations";
  "- Test file issues (tests are out of scope)";
  "";
  "**VALID IMPACT CATEGORIES (Immunefi Obyte Bug Bounty):**";
  "";
  "**Critical Severity**:";
  "- Network not being able to confirm new transactions (total shutdown >24 hours)";
  "- Unintended permanent chain split requiring hard fork";
  "- Direct loss of funds (theft of bytes or custom assets)";
  "- Permanent freezing of funds (fix requires hardfork)";
  "";
  "**High Severity**:";
  "- Permanent freezing of funds requiring hard fork to resolve";
  "";
  "**Medium Severity**:";
  "- Temporary freezing of network transactions (≥1 day delay)";
  "- Temporary freezing of network transactions (≥1 hour delay)";
  "- Unintended AA behavior with no concrete funds at direct risk";
  "";
  "**Low/QA (out of scope)**:";
  "- Minor precision loss (<0.01%)";
  "- Gas inefficiencies";
  "- Event emission or logging issues";
  "- Non-critical edge cases with no financial impact";
  "- UI/UX issues";
  "";
  "**OUTPUT REQUIREMENTS:**";
  "";
  "If you discover a valid vulnerability related to the security question, ";
  "produce a **full report** following the format below.  Your report must include: ";
  "- Exact file paths and function names";
  "- Code quotations (actual snippets from the 77 in-scope files)";
  "- Step-by-step exploitation path with realistic parameters";
  "- Clear explanation of which invariant is broken";
  "- Impact quantification (fund loss amount, network downtime duration)";
  "- Likelihood assessment (attacker profile, preconditions, complexity)";
  "- Concrete recommendation with code fix";
  "- Proof of Concept (JavaScript/Node.js test demonstrating the exploit)";
  "";
  "If **no** valid vulnerability emerges after thorough investigation, state exactly: ";
  "`#NoVulnerability found for this question. `";
  "";
  "**Do not fabricate or exaggerate issues. ** Only concrete, exploitable bugs with clear attack paths and realistic impact count.";
  "";
  "**Do not** report: ";
  "- Known issues from previous audits or documentation";
  "- Out-of-scope problems (test files, Node.js bugs, crypto primitive breaks)";
  "- Theoretical vulnerabilities without clear attack path and PoC";
  "- Issues requiring trusted roles to behave maliciously";
  "- Minor optimizations, style issues, or low-severity findings";
  "";
  "**Focus on one high-quality finding** rather than multiple weak claims.";
  "";
  "**VALIDATION CHECKLIST (Before Reporting):**";
  "- [ ] Vulnerability lies within one of the 77 in-scope files (not test/)";
  "- [ ] Exploitable by unprivileged attacker (no witness/oracle collusion required)";
  "- [ ] Attack path is realistic with correct data types and feasible parameters";
  "- [ ] Impact meets Critical, High, or Medium severity per Immunefi scope";
  "- [ ] PoC can be implemented as Node.js test or unit submission script";
  "- [ ] Issue breaks at least one documented invariant";
  "- [ ] Not a known exclusion";
  "- [ ] Clear financial harm, network disruption, or state divergence demonstrated";
  "";
  "---";
  "";
  "**AUDIT REPORT FORMAT** (if vulnerability found):";
  "";
  "## Title";
  "[Clear, specific vulnerability name tied to the question]";
  "";
  "## Summary";
  "[Concise 2-3 sentence description of the issue and its location]";
  "";
  "## Impact";
  "**Severity**: [Critical / High / Medium]";
  "**Category**: [Network Shutdown / Chain Split / Direct Fund Loss / Permanent Fund Freeze / Temporary Transaction Delay / Unintended AA Behavior]";
  "";
  "## Finding Description";
  "";
  "**Location**: `byteball/ocore/[filename]. js` (specific function name, line numbers if possible)";
  "";
  "**Intended Logic**: [What the code should do per comments/protocol spec]";
  "";
  "**Actual Logic**: [What the code does in the vulnerable scenario]";
  "";
  "**Code Evidence**:";
  "```javascript";
  "// Quote relevant code snippet from the file showing the bug";
  "// Include surrounding context (5-10 lines) for clarity";
  "```";
  "";
  "**Exploitation Path**:";
  "1. **Preconditions**: [Initial state]";
  "2. **Step 1**: [Specific action with parameters and code path triggered]";
  "3. **Step 2**: [Subsequent state change - database and node observations]";
  "4. **Step 3**: [Follow-up action exploiting the state]";
  "5. **Step 4**: [Unauthorized outcome and invariant broken]";
  "";
  "**Security Property Broken**: [Which of the 24 invariants is violated]";
  "";
  "**Root Cause Analysis**:  [Deep dive into why the bug exists]";
  "";
  "## Impact Explanation";
  "";
  "**Affected Assets**: [bytes, custom assets, AA state, user balances]";
  "";
  "**Damage Severity**:";
  "- **Quantitative**: [Specific amounts and scale]";
  "- **Qualitative**: [Nature of damage]";
  "";
  "**User Impact**:";
  "- **Who**: [Affected parties]";
  "- **Conditions**: [When exploitable]";
  "- **Recovery**: [Recovery options]";
  "";
  "**Systemic Risk**: [Cascading effects and automation potential]";
  "";
  "## Likelihood Explanation";
  "";
  "**Attacker Profile**:";
  "- **Identity**: [Type of attacker]";
  "- **Resources Required**: [What attacker needs]";
  "- **Technical Skill**: [Skill level required]";
  "";
  "**Preconditions**:";
  "- **Network State**: [Required network conditions]";
  "- **Attacker State**: [Required attacker position]";
  "- **Timing**: [Timing requirements]";
  "";
  "**Execution Complexity**:";
  "- **Transaction Count**: [Number of transactions needed]";
  "- **Coordination**: [Coordination requirements]";
  "- **Detection Risk**: [How detectable is the attack]";
  "";
  "**Frequency**:";
  "- **Repeatability**: [How often can it be repeated]";
  "- **Scale**: [Attack scope]";
  "";
  "**Overall Assessment**:  [High/Medium/Low likelihood assessment]";
  "";
  "## Recommendation";
  "";
  "**Immediate Mitigation**: [Short-term fix]";
  "";
  "**Permanent Fix**: [Long-term solution]";
  "";
  "**Code Changes**:";
  "```javascript";
  "// File: byteball/ocore/[filename].js";
  "// Function: [functionName]";
  "";
  "// BEFORE (vulnerable code):";
  "function vulnerableFunction(param) {{";
  "     existing vulnerable logic";
  "    }}";
  "";
  "// AFTER (fixed code):";
  "function vulnerableFunction(param) {{";
  "    // fixed logic with validation";
  "}}";
  "```";
  "";
  "  **Additional Measures**:";
  "- [New test cases]";
  "- [Database schema changes]";
  "- [Monitoring/alerting]";
  "";
  "**Validation**:";
  "- [ ] Fix prevents exploitation";
  "                   - [ ] No new vulnerabilities introduced";
  "                                                - [ ] Backward compatible";
  "                                                               - [ ] Performance impact acceptable";
  "";
  "                                                                                        ## Proof of Concept";
  "";
  "                                                                                        **Test Environment Setup**:";
  "```bash";
  "git clone https://github.com/byteball/ocore.git";
  "cd ocore";
  "npm install";
  "```";
  "";
  "  **Exploit Script** (`exploit_poc.js`):";
  "```javascript";
  "   /*";
  "   * Proof of Concept for [Vulnerability Name]";
  "                          * Demonstrates:  [what the PoC shows]";
  "                                           * Expected Result: [what happens when vulnerability is present]";
  "                                                              */";
  "";
  "                                                              const network = require('./network. js');";
  "const composer = require('./composer.js');";
  "const validation = require('./validation.js');";
  "const storage = require('./storage.js');";
  "";
  "async function runExploit() {{";
  "// Implementation showing the exploit";
  "}}";
  "";
  "runExploit().then(success => {{";
  "    process.exit(success ? 0 : 1);";
  "}});";
  "```";
  "";
  "  **Expected Output** (when vulnerability exists):";
  "```";
  "[Output showing successful exploit]";
  "```";
  "";
  "**Expected Output** (after fix applied):";
  "```";
  "[Output showing exploit prevention]";
  "```";
  "";
  "**PoC Validation**:";
  "- [ ] PoC runs against unmodified ocore codebase";
  "                                        - [ ] Demonstrates clear violation of invariant";
  "                                                                              - [ ] Shows measurable impact";
  "                                                                                                     - [ ] Fails gracefully after fix applied";
  "";
  "                                                                                                                                      ---";
  "";
  "**If NO vulnerability found, output ONLY:**";
  "`#NoVulnerability found for this question.`";
  "";
  "---";
  "";
  "**FINAL REMINDERS:**";
  "";
  "- Trace entire execution flows from user action → validation → storage → consensus → network propagation";
  "                                                                                             - Test DAG structure edge cases";
  "                                                                                                                       - Validate AA sandbox rigorously";
  "                                                                                                                                             - Check race conditions thoroughly";
  "                                                                                                                                                                     - Verify integer arithmetic";
  "                                                                                                                                                                                      - Examine signature validation";
  "                                                                                                                                                                                                          - Test network attack vectors";
  "                                                                                                                                                                                                                                - Inspect database operations";
  "                                                                                                                                                                                                                                                   - Be absolutely certain before reporting";
  "                                                                                                                                                                                                                                                                                  - If any doubt remains, default to reporting no vulnerability";
  "";
  "Now investigate the security question thoroughly and produce your finding.";
  ""
].
(** The f-string literal of [validation_format] (questions.py, lines 669-1366), one source line per item. *)
Definition validation_format_template : string := join_nl [
  "";
  "You are an **Elite Distributed Ledger Security Judge** with deep expertise in DAG-based consensus systems, JavaScript VM sandboxing, Obyte (Byteball) Protocol architecture, and Immunefi bug bounty validation.  Your ONLY task is **ruthless technical validation** of security claims against the Obyte codebase.";
  "";
  "Note:  Witnesses (12 per unit) and oracle providers are trusted roles. ";
  "";
  "**SECURITY CLAIM TO VALIDATE:**";
  "{report}";
  "";
  "================================================================================";
  "## **OBYTE PROTOCOL VALIDATION FRAMEWORK**";
  "";
  "### **PHASE 1: IMMEDIATE DISQUALIFICATION CHECKS**";
  "Reject immediately (`#NoVulnerability`) if **ANY** apply:";
  "";
  "#### **A.  Scope Violations**";
  "- ❌ Affects files **not** in the 77 in-scope files from `byteball/ocore` repository";
  "- ❌ Targets any file under `./test/` directory (tests are out of scope)";
  "- ❌ Claims about documentation, comments, code style, or logging (not security issues)";
  "- ❌ Focuses on out-of-scope components:  UI, wallets, SDKs, deployment scripts, or external dependencies";
  "";
  "**In-Scope Files (77 total):**";
  "- **Core Protocol**:  `validation.js`, `storage.js`, `main_chain.js`, `network.js`, `wallet.js`, `composer.js`, `writer.js`, `graph.js`, `object_hash.js`, `signature.js`, `definition.js`, `inputs.js`, `parent_composer.js`, `joint_storage.js`, `catchup.js`, `light. js`, `device.js`, `witness_proof.js`, `data_feeds.js`, `arbiter_contract.js`, `divisible_asset.js`, `indivisible_asset.js`, and others";
  "- **AA Engine**: `formula/evaluation.js`, `formula/validation.js`, `aa_composer.js`, `aa_validation.js`, `aa_addresses.js`";
  "- **Database**: `sqlite_pool.js`, `mysql_pool.js`, `sqlite_migrations.js`, `kvstore.js`";
  "- **Tools**: `tools/check_stability.js`, `tools/validate_aa_definitions.js`, etc. ";
  "";
  "**Verify**:  Check that every file path cited in the report matches exactly one of the 77 in-scope files. ";
  "";
  "#### **B. Threat Model Violations**";
  "- ❌ Requires 7+ of 12 witnesses to collude or act maliciously (witnesses are trusted)";
  "- ❌ Assumes compromised oracle data feed providers (oracles are trusted to provide correct data)";
  "- ❌ Needs hub operators to manipulate light client messages (hubs are trusted for light clients)";
  "- ❌ Requires attacker to compromise Node.js runtime, V8 engine, or operating system";
  "- ❌ Assumes cryptographic primitives (SHA256, ECDSA) are broken without quantum computers";
  "- ❌ Depends on network-level attacks:  DDoS, BGP hijacking, DNS poisoning, or packet manipulation";
  "- ❌ Relies on social engineering, phishing, key theft, or user operational security failures";
  "";
  "**Trusted Roles**:  Witnesses post regular heartbeat units and vote on main chain; oracles provide signed data feeds; hub operators relay messages for light clients.   Do **not** assume these actors behave maliciously.";
  "";
  "**Untrusted Actors**: Any user submitting units, AA developers deploying smart contracts, malicious peers in P2P network, MEV bots, adversarial AAs attempting to exploit other AAs. ";
  "";
  "#### **C. Known Issues / Accepted Risks**";
  "- ❌ Cryptographic hash collisions or preimage attacks on SHA256 (assumed secure)";
  "- ❌ ECDSA signature forgery without private key (assumed secure)";
  "- ❌ Witness collusion (7+ of 12 witnesses required; trusted role)";
  "- ❌ Oracle data accuracy issues (oracles trusted to provide correct prices/data)";
  "- ❌ Network partition attacks (DDoS, routing attacks) outside protocol logic";
  "- ❌ Node.js runtime bugs (V8, libuv) unrelated to Obyte-specific code";
  "- ❌ Precision loss <0.01% in fee calculations (acceptable rounding)";
  "";
  "#### **D. Non-Security Issues**";
  "- ❌ Gas optimizations, performance improvements, or micro-optimizations";
  "- ❌ Code style, naming conventions, or refactoring suggestions";
  "- ❌ Missing events, logs, error messages, or better user experience";
  "- ❌ NatSpec comments, documentation improvements, or README updates";
  "- ❌ " ++ dq ++ "Best practices" ++ dq ++ " recommendations with no concrete exploit scenario";
  "- ❌ Input validation preventing honest user mistakes (e.g., reject zero address) unless it allows theft";
  "- ❌ Minor precision errors with negligible financial impact (<0.01%)";
  "";
  "#### **E. Invalid Exploit Scenarios**";
  "- ❌ Requires impossible inputs:  negative integers (JavaScript doesn't have unsigned types but validation should check), addresses longer than valid format, timestamps beyond realistic bounds";
  "- ❌ Cannot be triggered through any realistic unit submission or AA trigger";
  "- ❌ Depends on calling internal functions not exposed through any public API";
  "- ❌ Relies on race conditions that are prevented by database transactions or mutex locks";
  "- ❌ Needs multiple ordered units with no economic incentive or unrealistic coordination";
  "- ❌ Requires attacker to already possess the funds they seek to steal (self-draining is not an exploit)";
  "- ❌ Depends on miner/validator controlling block timestamp beyond reasonable bounds (±15 minutes)";
  "";
  "### **PHASE 2: OBYTE-SPECIFIC DEEP CODE VALIDATION**";
  "";
  "#### **Step 1: TRACE COMPLETE EXECUTION PATH THROUGH DAG ARCHITECTURE**";
  "";
  "**Obyte Flow Patterns:**";
  "";
  "1. **Unit Submission Flow**:";
  "   User creates unit → `composer.js` constructs unit → `parent_composer.js` selects parents → `object_hash.js` computes hash → `signature.js` signs → `network.js` broadcasts → `validation.js` validates → `storage.js` stores → `main_chain.js` updates MC → `witness_proof.js` generates proofs";
  "";
  "2. **AA Trigger Flow**:";
  "   User sends trigger unit → `aa_composer.js` detects AA address → `formula/validation.js` validates formula syntax → `formula/evaluation.js` executes formula → AA response unit created → Secondary triggers cascade → State variables updated in `kvstore.js`";
  "";
  "3. **Asset Transfer Flow**:";
  "   Unit with payment message → `inputs.js` validates input references → `divisible_asset.js` or `indivisible_asset.js` processes transfer → Balance checks in `validation.js` → Outputs recorded in `storage.js`";
  "";
  "4. **Consensus Flow**:";
  "   New units arrive → `graph.js` builds DAG structure → `witness_proof.js` tracks witness units → `main_chain.js` determines MC index and stability → Last ball updated → Stable units become immutable";
  "";
  "For each claim, reconstruct the entire execution path: ";
  "";
  "1. **Identify Entry Point**:  Which user-facing function is called?  (`network.handleJoint()`, `composer.composeJoint()`, `wallet.sendPayment()`, etc.)";
  "2. **Follow Internal Calls**: Trace through all function calls, including: ";
  "   - Validation checks in `validation.js:validate()`";
  "   - Database queries in `storage.js`";
  "   - MC updates in `main_chain.js`";
  "   - AA execution in `formula/evaluation.js`";
  "3. **State Before Exploit**: Document initial state (unit graph, balances, AA state, witness list, MC index)";
  "4. **State Transitions**:  Enumerate all changes (new units, spent outputs, AA state updates, MC advancement)";
  "5. **Check Protections**: Verify if mutex locks (`mutex.js`), database transactions, or validation gates prevent the exploit";
  "6. **Final State**: Show how the exploit results in unauthorized state (double-spend, inflated balance, broken consensus)";
  "";
  "#### **Step 2: VALIDATE EVERY CLAIM WITH CODE EVIDENCE**";
  "";
  "For **each assertion** in the report, demand:";
  "";
  "**✅ Required Evidence:**";
  "- Exact file path and line numbers (e.g., `validation.js:450-475`) within the 77 in-scope files";
  "- Direct JavaScript code quotes showing the vulnerable logic";
  "- Call traces with actual parameter values demonstrating how execution reaches the vulnerable line";
  "- Calculations showing how balances, MC indices, or AA state change incorrectly";
  "- Database schema references showing constraint violations or missing checks";
  "";
  "**🚩 RED FLAGS (indicate INVALID):**";
  "";
  "1. **" ++ dq ++ "Missing Validation" ++ dq ++ " Claims**:";
  "   - ❌ Invalid unless report shows input bypasses *all* validation layers: ";
  "     - `validation.js:validate()` checks";
  "     - `inputs.js:validateInputs()` checks";
  "     - `aa_validation.js` checks for AA triggers";
  "     - Database constraint checks";
  "   - ✅ Valid if a specific input type genuinely has no validation path";
  "";
  "2. **" ++ dq ++ "Double-Spend" ++ dq ++ " Claims**:";
  "   - ❌ Invalid unless report demonstrates: ";
  "     - Two units spending same output both pass validation";
  "     - Database unique constraint on `(unit, message_index, output_index)` is missing or bypassable";
  "     - Race condition window exists between validation and storage commit";
  "   - ✅ Valid if concurrent submission to different nodes can result in both units being accepted into DAG";
  "";
  "3. **" ++ dq ++ "Integer Overflow/Underflow" ++ dq ++ " Claims**: ";
  "   - ❌ Invalid unless JavaScript number handling allows exploitation:";
  "     - JavaScript uses floating-point numbers (no native int64)";
  "     - Obyte uses libraries for big integers where needed";
  "     - Report must show actual overflow causing incorrect balance calculation";
  "   - ✅ Valid if arithmetic operations produce incorrect results with attacker-controlled inputs";
  "";
  "4. **" ++ dq ++ "AA Sandbox Escape" ++ dq ++ " Claims**:";
  "   - ❌ Invalid unless report demonstrates: ";
  "     - Actual prototype pollution:  `Object.prototype.malicious = ... `";
  "     - Constructor injection: `{{}}. constructor.constructor('code')()`";
  "     - Access to Node.js globals: `require()`, `process`, `fs`, `__dirname`";
  "     - Eval usage: `eval()`, `Function()` constructor";
  "   - ✅ Valid if AA formula can execute arbitrary Node.js code on validator nodes";
  "";
  "5. **" ++ dq ++ "Non-Deterministic Execution" ++ dq ++ " Claims**:";
  "   - ❌ Invalid unless report shows usage in consensus-critical code: ";
  "     - `Math.random()` in MC selection";
  "     - `Date.now()` in validation logic";
  "     - Floating-point comparisons causing different results on different CPUs";
  "     - Timestamp tie-breaking with undefined behavior";
  "   - ✅ Valid if different nodes reach different MC or validation decisions for same input";
  "";
  "6. **" ++ dq ++ "Main Chain Split" ++ dq ++ " Claims**:";
  "   - ❌ Invalid unless report demonstrates: ";
  "     - Specific non-deterministic logic in `main_chain.js:updateMainChainIndex()`";
  "     - Witness level calculation differences";
  "     - Last ball assignment differences";
  "     - Stability point disagreement";
  "   - ✅ Valid if nodes permanently diverge on MC structure requiring hard fork";
  "";
  "7. **" ++ dq ++ "Witness Incompatibility" ++ dq ++ " Claims**:";
  "   - ❌ Invalid if validation rejects incompatible witness lists";
  "   - ✅ Valid if unit with incompatible witnesses (sharing <1 witness with parents) is accepted, causing permanent partition";
  "";
  "8. **" ++ dq ++ "SQL Injection" ++ dq ++ " Claims**:";
  "   - ❌ Invalid if all queries use parameterized statements or proper escaping";
  "   - ✅ Valid if unit messages or addresses can inject SQL, corrupting database";
  "";
  "9. **" ++ dq ++ "Race Condition" ++ dq ++ " Claims**:";
  "   - ❌ Invalid if mutex locks or database transactions prevent concurrent access";
  "   - ✅ Valid if concurrent operations can result in inconsistent state (e.g., double-spend, duplicate serials)";
  "";
  "10. **" ++ dq ++ "Asset Cap Bypass" ++ dq ++ " Claims**:";
  "    - ❌ Invalid if `divisible_asset.js` enforces `max_cap` on all issuance operations";
  "    - ✅ Valid if attacker can issue asset multiple times exceeding cap";
  "";
  "#### **Step 3: CROSS-REFERENCE WITH TEST SUITE**";
  "";
  "Obyte's test suite includes unit and integration tests in `test/` directory (out of scope but informative).  Ask: ";
  "";
  "1. **Existing Coverage**: Do current tests handle the scenario?  Check tests like: ";
  "   - `test/validation.test.js` - unit validation edge cases";
  "   - `test/aa. test.js` - AA execution determinism";
  "   - `test/formula. test.js` - formula sandbox isolation";
  "   - `test/merkle.test.js` - DAG structure integrity";
  "   - `test/string_utils.test.js` - input sanitization";
  "";
  "2. **Test Gaps**: Is there an obvious gap that would allow the exploit? If scenario is untested, suggest adding test but do **not** assume vulnerability.";
  "";
  "3. **Invariant Tests**: Would existing invariant checks catch the bug? Tests verify:";
  "   - Balance conservation across all units";
  "   - MC monotonicity (no MCI decreases along paths)";
  "   - Witness compatibility in all units";
  "   - Deterministic AA execution";
  "   - Double-spend prevention";
  "";
  "4. **PoC Feasibility**: Can the report's PoC be implemented as a Node.js test using existing Obyte modules without modifying core code?";
  "";
  "**Test Case Realism Check**:  PoCs must use realistic unit structures, valid parent references, proper signatures, and respect protocol constraints (max 15 parents, 12 witnesses, valid timestamps).";
  "";
  "### **PHASE 3: IMPACT & EXPLOITABILITY VALIDATION**";
  "";
  "#### **Impact Must Be CONCRETE and ALIGN WITH IMMUNEFI SCOPE**";
  "";
  "**✅ Valid CRITICAL Severity Impacts (per Immunefi Obyte scope):**";
  "";
  "1. **Network Shutdown (Critical)**:";
  "   - Network unable to confirm new transactions for >24 hours";
  "   - All nodes halt or reject valid units";
  "   - Consensus deadlock preventing MC advancement";
  "   - Database corruption blocking unit storage";
  "   - Example: " ++ dq ++ "Validation logic rejects all units with specific witness list, halting network" ++ dq;
  "";
  "2. **Permanent Chain Split Requiring Hard Fork (Critical)**:";
  "   - Network partitions into incompatible branches";
  "   - Different nodes reach different MC or stability points";
  "   - Witness incompatibility causing permanent divergence";
  "   - Non-deterministic validation causing state disagreement";
  "   - Example: " ++ dq ++ "Floating-point comparison in MC selection causes nodes to choose different chains" ++ dq;
  "";
  "3. **Direct Loss of Funds (Critical)**:";
  "   - Theft of bytes (native currency) from user addresses";
  "   - Theft of custom assets (divisible/indivisible) from users";
  "   - Unauthorized spending of outputs owned by others";
  "   - Double-spend allowing attacker to spend same output multiple times";
  "   - Example: " ++ dq ++ "Race condition allows attacker to spend output in two units, stealing 10,000 bytes" ++ dq;
  "";
  "4. **Permanent Freezing of Funds Requiring Hard Fork (Critical)**:";
  "   - Funds locked with no transaction able to unlock them";
  "   - Address definition change bricking address (no valid signatures possible)";
  "   - AA state corruption preventing withdrawals";
  "   - Invalid unit structure making outputs unspendable";
  "   - Example: " ++ dq ++ "Definition change to impossible-to-satisfy condition locks 100,000 bytes forever" ++ dq;
  "";
  "**✅ Valid HIGH Severity Impacts:**";
  "";
  "5. **Permanent Freezing of Funds (High)**:";
  "   - Same as Critical #4 above (Immunefi lists this in both Critical and High)";
  "";
  "**✅ Valid MEDIUM Severity Impacts:**";
  "";
  "6. **Temporary Transaction Delay ≥1 Day (Medium)**:";
  "   - Units not confirmed within 24 hours due to processing delay";
  "   - DoS attack flooding network with valid units";
  "   - Expensive validation operations slowing acceptance";
  "   - Database query bottlenecks during catchup";
  "   - Example: " ++ dq ++ "Attacker submits 100,000 units/second, overwhelming validation queue for 30 hours" ++ dq;
  "";
  "7. **Temporary Transaction Delay ≥1 Hour (Medium)**:";
  "   - Units not confirmed within 1 hour due to processing delay";
  "   - Malicious units with maximum complexity causing slowdown";
  "   - Example: " ++ dq ++ "Units with 15 parents each cause validation to take 5 minutes per unit, delaying confirmations" ++ dq;
  "";
  "8. **Unintended AA Behavior Without Direct Fund Risk (Medium)**:";
  "   - AA formula produces incorrect results but no funds lost";
  "   - Non-deterministic AA execution without consensus break";
  "   - Incorrect oracle data interpretation in AAs";
  "   - Example: " ++ dq ++ "AA state variable reads return stale data due to race condition, affecting logic but not causing theft" ++ dq;
  "";
  "**❌ Invalid " ++ dq ++ "Impacts" ++ dq ++ ":**";
  "";
  "- User withdraws their own funds (normal protocol operation)";
  "- Attacker loses their own funds through self-draining (not an exploit)";
  "- Theoretical cryptographic weaknesses without practical exploit";
  "- General network risk (e.g., " ++ dq ++ "if all witnesses go offline" ++ dq ++ ")";
  "- " ++ dq ++ "Could be problematic if..." ++ dq ++ " statements without concrete exploit path";
  "- DoS affecting <1 hour with no fund theft";
  "- Minor fee overpayment or underpayment (<0.1% of unit value)";
  "- Precision loss <0.01% across reasonable transaction volumes";
  "";
  "#### **Likelihood Reality Check**";
  "";
  "Assess exploit feasibility: ";
  "";
  "1. **Attacker Profile**:";
  "   - Any user with Obyte address?  ✅ Likely";
  "   - Malicious peer in P2P network? ✅ Likely";
  "   - MEV bot front-running transactions? ✅ Possible";
  "   - AA developer deploying malicious AA? ✅ Possible";
  "   - Compromised oracle provider? ❌ Unlikely (trusted role)";
  "   - 7+ of 12 witnesses colluding? ❌ Impossible (trusted role)";
  "";
  "2. **Preconditions**:";
  "   - Normal network operation? ✅ High likelihood";
  "   - High transaction volume? ✅ Possible during peak usage";
  "   - Specific unit structure (e.g., maximum parents)? ✅ Attacker-controlled";
  "   - Specific AA state (e.g., uninitialized variable)? ✅ Attacker can deploy AA";
  "   - Specific timing (e.g., during catchup)? ✅ Attacker can time submission";
  "   - Network partition or witness censorship? ❌ Low likelihood";
  "";
  "3. **Execution Complexity**:";
  "   - Single unit submission? ✅ Simple";
  "   - Multiple coordinated units? ✅ Moderate (attacker controls)";
  "   - Concurrent submission to multiple nodes? ✅ Moderate (requires network position)";
  "   - Complex AA formula with edge cases? ✅ Attacker can deploy";
  "   - Requires front-running or precise timing? ⚠️ Higher complexity";
  "   - Requires cryptographic manipulation? ❌ Impractical";
  "";
  "4. **Economic Cost**:";
  "   - Unit fees (headers + payload)? ✅ Minimal (few dollars)";
  "   - Collateral lockup (e.g., for AA state)? ✅ Attacker-determined";
  "   - Gas costs for multiple transactions? ✅ Moderate";
  "   - Potential profit vs. cost?  ✅ Must be positive for valid exploit";
  "";
  "5. **Combined Probability**:";
  "   - Multiply probabilities of all conditions";
  "   - If resulting likelihood <0.1% with no economic incentive → Invalid";
  "   - If exploit is profitable and feasible → Valid";
  "";
  "### **PHASE 4: PROOF OF CONCEPT VALIDATION**";
  "";
  "**A Valid PoC MUST:**";
  "";
  "1. **Be Implementable in Node.js/JavaScript**:";
  "   - Uses existing Obyte modules (`composer`, `network`, `validation`, etc.)";
  "   - Compiles and runs without syntax errors";
  "   - Does not require modifying core protocol files";
  "";
  "2. **Use Realistic, Achievable Inputs**:";
  "   - Valid unit structures (proper JSON format, required fields)";
  "   - Realistic balances (not 2^256-1 bytes)";
  "   - Valid parent references (existing unit hashes)";
  "   - Proper witness lists (12 valid addresses)";
  "   - Correct signatures (matching authors)";
  "   - Reasonable timestamps (within ±15 minutes of parent timestamps)";
  "";
  "3. **Show BEFORE → ACTION → AFTER**:";
  "   - **Before**: Display initial state (database records, balances, MC index, AA state)";
  "   - **Action**: Execute exploit transaction(s) with exact parameters";
  "   - **After**: Show resulting state violating invariant (double-spend, inflated balance, diverged MC)";
  "";
  "4. **NOT Require Bypassing Security Checks**:";
  "   - Do not comment out validation logic";
  "   - Do not call internal functions directly";
  "   - Do not modify database schema or constraints";
  "   - Do not skip signature verification";
  "";
  "5. **Actually Compile and Run**:";
  "   - Provide complete runnable script";
  "   - Include setup instructions (database initialization, test data)";
  "   - Show console output or logs proving the bug";
  "   - Include assertions that fail when exploit succeeds";
  "";
  "**PoC Red Flags (INVALID):**";
  "";
  "- ❌ " ++ dq ++ "Attacker sets witness list to empty array" ++ dq ++ " (validation rejects)";
  "- ❌ " ++ dq ++ "Call internal function `_updateMainChainIndex()` directly" ++ dq ++ " (not exposed)";
  "- ❌ " ++ dq ++ "Submit unit with negative balance" ++ dq ++ " (validation rejects)";
  "- ❌ " ++ dq ++ "Requires modifying `validation.js` to skip checks" ++ dq ++ " (not allowed)";
  "- ❌ " ++ dq ++ "Unit with timestamp in year 2050" ++ dq ++ " (unrealistic)";
  "- ❌ Fails to run due to missing dependencies or syntax errors";
  "- ❌ " ++ dq ++ "Assume attacker has access to witness private keys" ++ dq ++ " (trusted role)";
  "";
  "### **PHASE 5: DIFFERENTIAL ANALYSIS**";
  "";
  "Compare reported behavior with protocol design and similar systems:";
  "";
  "1. **Is This Standard DAG Behavior?**:";
  "   - Units reference multiple parents → Expected";
  "   - Witness-based consensus with stability threshold → By design";
  "   - Last ball chain forming immutable history → Intentional";
  "   - MC index strictly increasing along paths → Core invariant";
  "   - Do not treat design features as bugs";
  "";
  "2. **Is The Behavior Intentional?**:";
  "   - Cross-check Obyte documentation (whitepaper, wiki, developer docs)";
  "   - Review protocol specification for witness voting, MC selection, stability";
  "   - Check if behavior is explicitly documented as expected";
  "";
  "3. **Design vs. Bug Distinction**:";
  "   - Obyte deliberately uses DAG instead of linear blockchain";
  "   - Witness trust model is intentional (not a bug)";
  "   - AA determinism requirements are by design";
  "   - Balance conservation is fundamental invariant";
  "   - Only deviations from documented invariants are bugs";
  "";
  "4. **System-Level Protections**:";
  "   - Consider multi-layer defenses:";
  "     - Validation checks in `validation.js`";
  "     - Database constraints (unique, foreign keys)";
  "     - Mutex locks in `mutex.js`";
  "     - Transaction atomicity in `storage.js`";
  "   - A report ignoring these protections is likely invalid";
  "";
  "### **FINAL DECISION MATRIX**";
  "";
  "A claim is **VALID** only if **ALL** are true:";
  "";
  "- [ ] Vulnerability is in one of the 77 in-scope files from `byteball/ocore`";
  "- [ ] Not in `test/` directory or other excluded components";
  "- [ ] No witness collusion or oracle compromise required";
  "- [ ] No cryptographic primitive breaks assumed";
  "- [ ] Not an accepted risk or intentional design feature";
  "- [ ] Unprivileged attacker can execute via realistic unit submission or AA trigger";
  "- [ ] Complete execution path is explained with exact file names and line numbers";
  "- [ ] No hidden validation checks prevent the exploit";
  "- [ ] State change is unauthorized (theft, inflation, consensus break, fund freeze)";
  "- [ ] Impact meets Critical, High, or Medium severity per Immunefi Obyte scope: ";
  "  - **Critical**: Network shutdown >24h, permanent chain split, direct fund loss, permanent fund freeze";
  "  - **High**:  Permanent fund freeze";
  "  - **Medium**: Temporary delay ≥1 hour, unintended AA behavior";
  "- [ ] PoC is realistic, runnable Node.js code without modifying protocol files";
  "- [ ] Exploit violates a core invariant: ";
  "  - MC monotonicity";
  "  - Witness compatibility";
  "  - Stability irreversibility";
  "  - Last ball consistency";
  "  - Balance conservation";
  "  - Double-spend prevention";
  "  - AA deterministic execution";
  "  - Signature binding";
  "  - Definition evaluation integrity";
  "- [ ] Behavior is not documented as standard (e.g., witness voting, fee calculations)";
  "- [ ] Not previously identified in audits or known issues";
  "";
  "**If any checkbox is unchecked → Output:** `#NoVulnerability found for this question. `";
  "";
  "### **SPECIAL OBYTE VALIDATION RULES**";
  "";
  "#### **1. " ++ dq ++ "Main Chain Split" ++ dq ++ " Claims**";
  "- ✅ Valid ONLY if: ";
  "  - Non-deterministic logic in `main_chain.js` (floating-point, timestamp ties)";
  "  - Different nodes select different MC indices for same unit";
  "  - Witness level calculation differs across nodes";
  "  - Last ball assignment diverges";
  "  - Demonstrated with concrete unit structures causing split";
  "- ❌ Invalid if: ";
  "  - Split requires witness collusion";
  "  - Claim assumes different validation rules on different nodes";
  "  - Split is temporary and self-correcting";
  "";
  "#### **2. " ++ dq ++ "Double-Spend" ++ dq ++ " Claims**";
  "- ✅ Valid ONLY if:";
  "  - Two units spending same output both pass `validation.js:validate()`";
  "  - Database unique constraint on spent outputs is missing or bypassable";
  "  - Race condition between validation and storage allows concurrent spends";
  "  - Demonstrated with timing diagrams showing race window";
  "- ❌ Invalid if:";
  "  - Database transaction isolation prevents race";
  "  - One unit is rejected before commit";
  "  - Requires attacker to control multiple nodes (unrealistic)";
  "";
  "#### **3. " ++ dq ++ "AA Sandbox Escape" ++ dq ++ " Claims**";
  "- ✅ Valid ONLY if: ";
  "  - Attacker formula accesses Node.js globals: `require('fs')`, `process.exit()`, etc.";
  "  - Prototype pollution affects validator node:  `Object.prototype.admin = true`";
  "  - Constructor injection executes arbitrary code:  `{{}}.constructor.constructor('malicious')()`";
  "  - Eval usage allows code injection in `formula/evaluation.js`";
  "  - Demonstrated with actual malicious formula code";
  "- ❌ Invalid if:";
  "  - Formula evaluation is properly sandboxed (VM2, isolated-vm)";
  "  - Globals are undefined or inaccessible";
  "  - Prototype is frozen or protected";
  "";
  "#### **4. " ++ dq ++ "Balance Overflow" ++ dq ++ " Claims**";
  "- ✅ Valid ONLY if:";
  "  - JavaScript number precision loss causes incorrect balance";
  "  - Integer overflow in asset amount calculations";
  "  - Negative balances pass validation";
  "  - Attacker can mint unlimited assets";
  "  - Demonstrated with specific arithmetic causing overflow";
  "- ❌ Invalid if:";
  "  - Big integer libraries handle large numbers correctly";
  "  - Validation rejects negative or overflowing values";
  "  - Overflow would require impossible input values";
  "";
  "#### **5. " ++ dq ++ "Witness Incompatibility" ++ dq ++ " Claims**";
  "- ✅ Valid ONLY if:";
  "  - Unit with witness list sharing <1 witness with parents is accepted";
  "  - Causes permanent partition for all descendants";
  "  - Validation in `validation.js` misses incompatibility check";
  "  - Demonstrated with specific witness list configurations";
  "- ❌ Invalid if:";
  "  - Validation rejects incompatible witness lists";
  "  - Protocol enforces ≥1 shared witness requirement";
  "";
  "#### **6. " ++ dq ++ "Asset Cap Bypass" ++ dq ++ " Claims**";
  "- ✅ Valid ONLY if:";
  "  - Divisible asset issued multiple times exceeding `max_cap`";
  "  - `divisible_asset.js` fails to track total issued amount";
  "  - Attacker can mint unlimited tokens";
  "  - Demonstrated with multiple issuance transactions";
  "- ❌ Invalid if:";
  "  - Cap enforcement checks total supply before issuance";
  "  - Database constraints prevent over-issuance";
  "";
  "#### **7. " ++ dq ++ "Indivisible Serial Collision" ++ dq ++ " Claims**";
  "- ✅ Valid ONLY if:";
  "  - Same serial number issued twice for indivisible asset";
  "  - `indivisible_asset.js` lacks uniqueness check";
  "  - Database allows duplicate (asset, serial) entries";
  "  - Demonstrated with two units issuing same serial";
  "- ❌ Invalid if: ";
  "  - Database unique constraint prevents duplicates";
  "  - Validation rejects units with duplicate serials";
  "";
  "#### **8. " ++ dq ++ "SQL Injection" ++ dq ++ " Claims**";
  "- ✅ Valid ONLY if: ";
  "  - Unit message or address contains SQL injection payload";
  "  - Query in `storage.js`, `sqlite_pool.js`, or `mysql_pool.js` uses string concatenation";
  "  - Attacker can corrupt database or extract data";
  "  - Demonstrated with actual injection payload and query";
  "- ❌ Invalid if:";
  "  - All queries use parameterized statements";
  "  - Input sanitization prevents injection";
  "";
  "#### **9. " ++ dq ++ "Signature Malleability" ++ dq ++ " Claims**";
  "- ✅ Valid ONLY if: ";
  "  - Attacker modifies signature bytes (e.g., flip ECDSA s-value)";
  "  - Modified signature passes verification in `signature.js`";
  "  - Allows replay or unauthorized spending";
  "  - Demonstrated with two valid signatures for same message";
  "- ❌ Invalid if:";
  "  - Signature verification enforces canonical s-value";
  "  - Unit hash changes with signature, preventing replay";
  "";
  "#### **10. " ++ dq ++ "Definition Change Attack" ++ dq ++ " Claims**";
  "- ✅ Valid ONLY if:";
  "  - Attacker submits `definition_chg` message for victim's address";
  "  - New definition gives attacker control (no victim signatures required)";
  "  - `definition. js` fails to validate definition ownership";
  "  - Demonstrated with unauthorized definition change";
  "- ❌ Invalid if:";
  "  - Definition change requires signatures from old definition";
  "  - Validation rejects unauthorized definition changes";
  "";
  "### **OUTPUT REQUIREMENTS**";
  "";
  "**If VALID (extremely rare—be ruthlessly sure):**";
  "";
  "Produce a full audit report with these sections:";
  "";
  "#### **Title**";
  "Precise vulnerability name (e.g., " ++ dq ++ "Race Condition in validation.js Allows Double-Spend Attack" ++ dq ++ ")";
  "";
  "#### **Summary**";
  "Two to three sentences summarizing: ";
  "- What goes wrong";
  "- Where in the codebase (file and function)";
  "- Why it's critical (impact category)";
  "";
  "#### **Impact**";
  "**Severity**:  [Critical / High / Medium]";
  "**Category**: [Network Shutdown / Chain Split / Direct Fund Loss / Permanent Fund Freeze / Temporary Transaction Delay / Unintended AA Behavior]";
  "";
  "Describe: ";
  "- Concrete financial impact or network disruption";
  "- Affected parties (all users, specific addresses, AA users, nodes)";
  "- Quantify potential loss (amount of bytes/assets, downtime duration)";
  "";
  "#### **Finding Description**";
  "";
  "**Location**: `byteball/ocore/[filename]. js:[line_start]-[line_end]`, function `[functionName]()`";
  "";
  "**Intended Logic**: Expected behavior per protocol spec and invariants";
  "";
  "**Actual Logic**:  Describe the flawed logic with exact code quotes";
  "";
  "**Code Evidence**:";
  "```javascript";
  "// Quote relevant code from the vulnerable file";
  "// Include 5-10 lines of context";
  "// Show the specific line(s) with the bug";
  "```";
  "";
  "**Exploitation Path**:";
  "1. **Preconditions**: Initial state (e.g., " ++ dq ++ "Attacker has address with 100 bytes balance" ++ dq ++ ")";
  "2. **Step 1**: Specific action (e.g., " ++ dq ++ "Attacker submits unit U1 spending output O1" ++ dq ++ ")";
  "   - Unit structure (parents, witnesses, messages, signatures)";
  "   - Code path:  `composer.js:composeJoint()` → `validation.js:validate()` → `storage.js:saveJoint()`";
  "3. **Step 2**: State change (e.g., " ++ dq ++ "Output O1 marked as spent in database" ++ dq ++ ")";
  "   - Database state:  `outputs` table, `unit_authors` table";
  "   - Node observations: Node A accepts U1, Node B processing";
  "4. **Step 3**: Follow-up action (e.g., " ++ dq ++ "Attacker immediately submits unit U2 to different peer also spending O1" ++ dq ++ ")";
  "   - Timing: Submitted during validation of U1, before database commit";
  "5. **Step 4**: Unauthorized outcome (e.g., " ++ dq ++ "Both U1 and U2 accepted, O1 double-spent, attacker receives 200 bytes from 100-byte output" ++ dq ++ ")";
  "   - Invariant broken: Balance conservation violated, double-spend prevention failed";
  "";
  "**Security Property Broken**:  [Which of the 24 Obyte invariants is violated]";
  "- Example: " ++ dq ++ "Invariant #6:  Double-Spend Prevention - Each output can be spent at most once" ++ dq;
  "";
  "**Root Cause Analysis**:";
  "Deep dive into why the bug exists:";
  "- Missing database unique constraint on spent outputs";
  "- Race condition between validation and storage commit";
  "- Non-atomic read-check-write sequence";
  "- No mutex lock protecting concurrent access";
  "";
  "#### **Impact Explanation**";
  "";
  "**Affected Assets**: [bytes (native currency), custom divisible/indivisible assets, AA state, user balances]";
  "";
  "**Damage Severity**:";
  "- **Quantitative**: " ++ dq ++ "Attacker can double-spend arbitrary amounts limited only by their initial balance.  Network-wide impact:  all unconfirmed outputs vulnerable." ++ dq;
  "- **Qualitative**:  " ++ dq ++ "Complete loss of transaction integrity. Users cannot trust pending transactions." ++ dq;
  "";
  "**User Impact**:";
  "- **Who**: All users with unconfirmed transactions, recipients of double-spent outputs";
  "- **Conditions**: Exploitable during normal operation, worse under high network load";
  "- **Recovery**: Requires hard fork to invalidate double-spent units and restore correct balances";
  "";
  "**Systemic Risk**:";
  "- Enables further attacks: Can be automated with scripts";
  "- Cascading effects: Double-spent outputs in subsequent transactions propagate corruption";
  "- Detection difficulty: Requires forensic analysis of entire DAG";
  "";
  "#### **Likelihood Explanation**";
  "";
  "**Attacker Profile**:";
  "- **Identity**: Any user with Obyte address and ability to connect to multiple peers";
  "- **Resources Required**: Minimal capital (100 bytes for example), ability to submit units to 2+ nodes simultaneously";
  "- **Technical Skill**: Medium (requires understanding of unit structure and network protocol, ability to script concurrent submissions)";
  "";
  "**Preconditions**:";
  "- **Network State**: Normal operation or high transaction volume (increases success rate)";
  "- **Attacker State**: Needs unspent output of any amount";
  "- **Timing**: Requires submitting two units during narrow race window (estimated 50-200ms)";
  "";
  "**Execution Complexity**:";
  "- **Transaction Count**: Two units spending same output";
  "- **Coordination**:  Requires submitting to different peers simultaneously (achievable with multi-connection script)";
  "- **Detection Risk**: Low initially (appears as normal transaction conflict), high after forensic analysis";
  "";
  "**Frequency**:";
  "- **Repeatability**: Unlimited (attacker can repeat with any output they own)";
  "- **Scale**: Per-output (each owned output can be double-spent once)";
  "";
  "**Overall Assessment**:  High likelihood (race window exists, low technical barrier, profitable)";
  "";
  "#### **Recommendation**";
  "";
  "**Immediate Mitigation**:";
  "Add database-level unique constraint on spent outputs to prevent concurrent spends: ";
  "```sql";
  "-- In sqlite_migrations. js";
  "ALTER TABLE outputs ADD CONSTRAINT unique_spend UNIQUE (unit, message_index, output_index);";
  "```";
  "";
  "**Permanent Fix**:";
  "Implement mutex lock around validation-and-storage sequence: ";
  "";
  "```javascript";
  "// File: byteball/ocore/validation.js";
  "// Function: validate()";
  "";
  "const mutex = require('./mutex. js');";
  "";
  "async function validate(unit) {{..";
  "}}";
  "```";
  "";
  "  **Additional Measures**:";
  "- Add test case: `test/double_spend_race.test.js` verifying concurrent spends are rejected";
  "                                                                                  - Add monitoring: Alert when output is referenced in multiple pending units";
  "                                                                                                                                                        - Database migration: Apply unique constraint to existing database (check for historical double-spends first)";
  "";
  "**Validation**:";
  "- [ ] Fix prevents concurrent spends of same output";
  "                                             - [ ] No new vulnerabilities introduced (mutex deadlock, performance)";
  "- [ ] Backward compatible (existing valid units still process correctly)";
  "- [ ] Performance impact acceptable (mutex lock overhead <10ms per unit)";
  "";
  "#### **Proof of Concept**";
  "Note the proof of concept has to be a complete test using their test setup that must run so pls u must always a very";
  "good test function and dont go out of concept,";
  "---";
  "";
  "**If INVALID (default when any condition fails):**";
  "";
  "Output exactly:";
  "";
  "```";
  "#NoVulnerability found for this question. ";
  "```";
  "";
  "### **MENTAL CHECKLIST BEFORE FINAL DECISION**";
  "";
  "Ask yourself:";
  "";
  "1. ✅ Would this finding withstand scrutiny from Obyte core developers and Immunefi judges?";
  "2. ✅ Can I defend this with exact line numbers and code quotes from the 77 in-scope files?";
  "3. ✅ Is there any other explanation (intentional design, witness trust model, database protection) for the behavior?";
  "4. ✅ Did I check all validation layers (validation.js, storage.js, database constraints) for hidden checks?";
  "5. ✅ Am I confusing intentional DAG architecture (witness voting, multiple parents) with a bug?";
  "6. ✅ Did I verify this is not an accepted risk (witness collusion, oracle trust, crypto primitives)?";
  "7. ✅ Did I check protocol documentation and previous audits for similar findings marked as false positive?";
  "8. ✅ Can I actually implement the PoC in Node.js without modifying source files?";
  "9. ✅ Does the impact truly meet Critical/High/Medium per Immunefi Obyte scope?";
  "10. ✅ Would an Immunefi judge reading this say " ++ dq ++ "yes, clear valid Critical/High/Medium" ++ dq ++ "?";
  "";
  "**Remember**: False positives harm credibility more than missed findings.  Assume claims are invalid until overwhelming evidence proves otherwise.";
  "";
  "**Now perform STRICT validation of the claim above.**";
  "";
  "**Output ONLY:**";
  "- A full audit report (if genuinely valid after passing **all** checks above) following the specified format";
  "                                                                                                      - `#NoVulnerability found for this question.` (if **any** check fails)";
  "";
  "                                                                                                      **Be ruthlessly skeptical.  The bar for validity is EXTREMELY high.**";
  ""
].
(** The f-string literal of [question_generator] (questions.py, lines 1381-1778), one source line per item. *)
Definition question_generator_template : string := join_nl [
  "";
  "# **Generate 150+ Targeted Security Audit Questions for Obyte (Byteball) Protocol**";
  "";
  "## **Context**";
  "";
  "The target project is **Obyte (formerly Byteball)**, a Directed Acyclic Graph (DAG)-based distributed ledger protocol that uses a unique consensus mechanism without traditional blockchain mining. Unlike linear blockchains, Obyte employs a **DAG structure** where each new unit references multiple parent units, forming a graph of transactions.  The protocol features **witnesses** (trusted nodes that post regular heartbeat transactions), **main chain selection** (determining the canonical ordering of units), **Autonomous Agents (AAs)** (smart contracts executed in JavaScript-like formulas), **multi-signature addresses**, **private payments**, and **oracles/data feeds**. ";
  "";
  "Obyte's architecture includes critical components for unit validation, storage, network synchronization, DAG graph operations, witness proof generation, transaction composition, and formula evaluation for AAs. The protocol maintains consensus through witness voting and main chain advancement, while supporting complex features like indivisible/divisible assets, arbiter contracts, payment channels, and attestation services.";
  "";
  "## **Scope**";
  "";
  "**CRITICAL TARGET FILE**: Focus question generation EXCLUSIVELY on `{target_file}`";
  "";
  "Note: The questions must be generated from **`{target_file}`** only. If you cannot generate enough questions from this single file, provide as many quality questions as you can extract from the file's logic and interactions.  **DO NOT return empty results** - give whatever questions you can derive from the target file.";
  "";
  "If you cannot reach 150 questions from this file alone, generate as many high-quality questions as the file's complexity allows (minimum target:  50-100 questions for large critical files, 20-50 for smaller files).";
  "";
  "**Full Context - 77 In-Scope Files (for reference only):**";
  "";
  "### **Core Protocol Files (Root Directory) - 67 files**";
  "";
  "```python";
  "core_files = [";
  "    " ++ dq ++ "byteball/ocore/aa_addresses.js" ++ dq ++ ",           # AA address derivation";
  "    " ++ dq ++ "byteball/ocore/aa_composer.js" ++ dq ++ ",            # 71KB - AA transaction composition";
  "    " ++ dq ++ "byteball/ocore/aa_validation.js" ++ dq ++ ",          # 28KB - AA validation logic";
  "    " ++ dq ++ "byteball/ocore/arbiter_contract.js" ++ dq ++ ",       # Arbiter contract execution";
  "    " ++ dq ++ "byteball/ocore/arbiters.js" ++ dq ++ ",               # Arbiter management";
  "    " ++ dq ++ "byteball/ocore/archiving.js" ++ dq ++ ",              # Historical data archiving";
  "    " ++ dq ++ "byteball/ocore/balances.js" ++ dq ++ ",               # Balance calculations";
  "    " ++ dq ++ "byteball/ocore/bots.js" ++ dq ++ ",                   # Bot interfaces";
  "    " ++ dq ++ "byteball/ocore/breadcrumbs.js" ++ dq ++ ",            # Transaction breadcrumbs";
  "    " ++ dq ++ "byteball/ocore/catchup.js" ++ dq ++ ",                # Network sync catchup logic";
  "    " ++ dq ++ "byteball/ocore/chash.js" ++ dq ++ ",                  # Cryptographic hashing (chash160)";
  "    " ++ dq ++ "byteball/ocore/chat_storage.js" ++ dq ++ ",           # Chat message storage";
  "    " ++ dq ++ "byteball/ocore/check_daemon.js" ++ dq ++ ",           # Daemon health monitoring";
  "    " ++ dq ++ "byteball/ocore/composer.js" ++ dq ++ ",               # 38KB - Transaction composition";
  "    " ++ dq ++ "byteball/ocore/conf.js" ++ dq ++ ",                   # Configuration management";
  "    " ++ dq ++ "byteball/ocore/constants.js" ++ dq ++ ",              # Protocol constants";
  "    " ++ dq ++ "byteball/ocore/data_feeds.js" ++ dq ++ ",             # Oracle data feed handling";
  "    " ++ dq ++ "byteball/ocore/db.js" ++ dq ++ ",                     # Database interface abstraction";
  "    " ++ dq ++ "byteball/ocore/definition.js" ++ dq ++ ",             # 53KB - Address definition logic";
  "    " ++ dq ++ "byteball/ocore/desktop_app.js" ++ dq ++ ",            # Desktop app utilities";
  "    " ++ dq ++ "byteball/ocore/device.js" ++ dq ++ ",                 # 38KB - Device pairing & messaging";
  "    " ++ dq ++ "byteball/ocore/divisible_asset.js" ++ dq ++ ",        # Divisible asset operations";
  "    " ++ dq ++ "byteball/ocore/enforce_singleton.js" ++ dq ++ ",      # Singleton pattern enforcement";
  "    " ++ dq ++ "byteball/ocore/event_bus.js" ++ dq ++ ",              # Event bus architecture";
  "    " ++ dq ++ "byteball/ocore/graph.js" ++ dq ++ ",                  # DAG graph operations";
  "    " ++ dq ++ "byteball/ocore/headers_commission.js" ++ dq ++ ",     # Header commission calculations";
  "    " ++ dq ++ "byteball/ocore/indivisible_asset.js" ++ dq ++ ",      # 48KB - Indivisible asset logic";
  "    " ++ dq ++ "byteball/ocore/initial_votes.js" ++ dq ++ ",          # Initial witness voting";
  "    " ++ dq ++ "byteball/ocore/inputs.js" ++ dq ++ ",                 # Input validation & processing";
  "    " ++ dq ++ "byteball/ocore/joint_storage.js" ++ dq ++ ",          # Joint (unit) storage operations";
  "    " ++ dq ++ "byteball/ocore/kvstore.js" ++ dq ++ ",                # Key-value store interface";
  "    " ++ dq ++ "byteball/ocore/light. js" ++ dq ++ ",                  # 34KB - Light client functionality";
  "    " ++ dq ++ "byteball/ocore/light_wallet.js" ++ dq ++ ",           # Light wallet operations";
  "    " ++ dq ++ "byteball/ocore/mail.js" ++ dq ++ ",                   # Email notification system";
  "    " ++ dq ++ "byteball/ocore/main_chain.js" ++ dq ++ ",             # 77KB - CRITICAL - Main chain selection";
  "    " ++ dq ++ "byteball/ocore/mc_outputs.js" ++ dq ++ ",             # Main chain output tracking";
  "    " ++ dq ++ "byteball/ocore/merkle. js" ++ dq ++ ",                 # Merkle proof generation";
  "    " ++ dq ++ "byteball/ocore/migrate_to_kv.js" ++ dq ++ ",          # Database migration utilities";
  "    " ++ dq ++ "byteball/ocore/mutex.js" ++ dq ++ ",                  # Mutex lock implementation";
  "    " ++ dq ++ "byteball/ocore/my_witnesses.js" ++ dq ++ ",           # Local witness list management";
  "    " ++ dq ++ "byteball/ocore/mysql_pool.js" ++ dq ++ ",             # MySQL connection pooling";
  "    " ++ dq ++ "byteball/ocore/network.js" ++ dq ++ ",                # 156KB - CRITICAL - P2P network protocol";
  "    " ++ dq ++ "byteball/ocore/object_hash.js" ++ dq ++ ",            # Object hashing (unit hash calc)";
  "    " ++ dq ++ "byteball/ocore/object_length.js" ++ dq ++ ",          # Object size calculations";
  "    " ++ dq ++ "byteball/ocore/paid_witnessing.js" ++ dq ++ ",        # Witness reward distribution";
  "    " ++ dq ++ "byteball/ocore/parent_composer.js" ++ dq ++ ",        # 30KB - Parent unit selection";
  "    " ++ dq ++ "byteball/ocore/private_payment.js" ++ dq ++ ",        # Private payment handling";
  "    " ++ dq ++ "byteball/ocore/private_profile.js" ++ dq ++ ",        # Private profile management";
  "    " ++ dq ++ "byteball/ocore/profiler.js" ++ dq ++ ",               # Performance profiling";
  "    " ++ dq ++ "byteball/ocore/proof_chain.js" ++ dq ++ ",            # Proof chain construction";
  "    " ++ dq ++ "byteball/ocore/prosaic_contract.js" ++ dq ++ ",       # Prosaic contract execution";
  "    " ++ dq ++ "byteball/ocore/signature. js" ++ dq ++ ",              # Signature verification (ECDSA)";
  "    " ++ dq ++ "byteball/ocore/signed_message.js" ++ dq ++ ",         # Signed message validation";
  "    " ++ dq ++ "byteball/ocore/sqlite_migrations.js" ++ dq ++ ",      # 32KB - SQLite schema migrations";
  "    " ++ dq ++ "byteball/ocore/sqlite_pool.js" ++ dq ++ ",            # SQLite connection management";
  "    " ++ dq ++ "byteball/ocore/storage.js" ++ dq ++ ",                # 98KB - CRITICAL - Storage layer";
  "    " ++ dq ++ "byteball/ocore/string_utils.js" ++ dq ++ ",           # String utility functions";
  "    " ++ dq ++ "byteball/ocore/uri.js" ++ dq ++ ",                    # URI parsing (obyte: // scheme)";
  "    " ++ dq ++ "byteball/ocore/validation.js" ++ dq ++ ",             # 116KB - CRITICAL - Unit validation";
  "    " ++ dq ++ "byteball/ocore/validation_utils.js" ++ dq ++ ",       # Validation helper functions";
  "    " ++ dq ++ "byteball/ocore/wallet.js" ++ dq ++ ",                 # 122KB - CRITICAL - Wallet operations";
  "    " ++ dq ++ "byteball/ocore/wallet_defined_by_addresses.js" ++ dq ++ ",  # 27KB - Multi-sig wallet logic";
  "    " ++ dq ++ "byteball/ocore/wallet_defined_by_keys.js" ++ dq ++ ", # 35KB - Key-based wallet logic";
  "    " ++ dq ++ "byteball/ocore/wallet_general.js" ++ dq ++ ",         # General wallet utilities";
  "    " ++ dq ++ "byteball/ocore/witness_proof.js" ++ dq ++ ",          # Witness proof generation";
  "    " ++ dq ++ "byteball/ocore/writer.js" ++ dq ++ "                  # 34KB - Unit writing to DAG";
  "]";
  "```";
  "";
  "### **Formula Directory (AA Smart Contract Engine) - 5 files**";
  "";
  "```python";
  "formula_files = [";
  "    " ++ dq ++ "byteball/ocore/formula/common.js" ++ dq ++ ",         # Common formula utilities";
  "    " ++ dq ++ "byteball/ocore/formula/evaluation.js" ++ dq ++ ",     # 106KB - CRITICAL - AA formula evaluation";
  "    " ++ dq ++ "byteball/ocore/formula/validation.js" ++ dq ++ ",     # 46KB - Formula syntax validation";
  "    " ++ dq ++ "byteball/ocore/formula/parse_ojson.js" ++ dq ++ ",    # OJSON parser for AA definitions";
  "    " ++ dq ++ "byteball/ocore/formula/index.js" ++ dq ++ "           # Formula module entry point";
  "]";
  "```";
  "";
  "### **Tools Directory (Utility Scripts) - 6 files**";
  "";
  "```python";
  "tools_files = [";
  "    " ++ dq ++ "byteball/ocore/tools/check_stability.js" ++ dq ++ ",          # Stability verification";
  "    " ++ dq ++ "byteball/ocore/tools/replace_ops.js" ++ dq ++ ",              # Operation replacement";
  "    " ++ dq ++ "byteball/ocore/tools/supply. js" ++ dq ++ ",                   # Supply calculations";
  "    " ++ dq ++ "byteball/ocore/tools/update_stability.js" ++ dq ++ ",         # Stability updates";
  "    " ++ dq ++ "byteball/ocore/tools/validate_aa_definitions.js" ++ dq ++ ",  # AA definition validator";
  "    " ++ dq ++ "byteball/ocore/tools/viewkv.js" ++ dq ++ "                    # KV store viewer";
  "]";
  "```";
  "";
  "**Total:  77 files in full scope (but focus ONLY on `{target_file}` for this generation)**";
  "";
  "---";
  "";
  "## **Obyte Protocol Architecture & Layers**";
  "";
  "### **1. DAG & Unit Structure Layer** (`validation.js`, `storage.js`, `writer.js`, `graph.js`, `object_hash.js`)";
  "";
  "- **DAG Architecture**: Units (transactions) reference multiple parent units, forming a directed acyclic graph";
  "- **Unit Composition**: Each unit contains messages (payments, data, AA triggers, definitions), authors, parent units, witnesses, and signatures";
  "- **Unit Hashing**: Deterministic hashing using `object_hash.js` (JSON canonicalization + SHA256) to generate unit hash";
  "- **Storage**:  Units stored in SQLite/MySQL with relational tables (units, messages, inputs, outputs, witnesses)";
  "- **Graph Operations**: Parent selection, best parent identification, DAG traversal, stability point determination";
  "";
  "### **2. Consensus & Main Chain Layer** (`main_chain.js`, `witness_proof.js`, `initial_votes.js`, `my_witnesses.js`)";
  "";
  "- **Witness List**:  Each unit declares 12 witnesses (trusted nodes); compatibility requires ≥ 1 shared witness";
  "- **Witness Level (WL)**: Minimum level of witness-authored units referenced by a unit";
  "- **Main Chain (MC)**: Canonical chain of units determined by witness voting; each unit has an MC index (MCI)";
  "- **Stability Point**: Units become stable when witnessed by majority (7+ of 12) witnesses at higher levels";
  "- **Last Ball**: Hash chain of stable units forming immutable history";
  "- **Witness Proofs**: Compact proofs demonstrating unit stability for light clients";
  "";
  "### **3. Transaction & Composition Layer** (`composer.js`, `parent_composer.js`, `inputs.js`, `wallet.js`)";
  "";
  "- **Transaction Composition**:  Selecting inputs, calculating fees, change outputs, and parent units";
  "- **Input Selection**: Choosing unspent outputs from addresses with sufficient balance";
  "- **Fee Calculation**: Fees based on unit size (headers + payload bytes)";
  "- **Parent Selection**: Choosing recent tip units as parents; optimizing for quick confirmation";
  "- **Multi-sig Support**: Addresses defined by multiple signers with m-of-n threshold signatures";
  "- **Definition Changes**: Addresses can change their definition (e.g., upgrade to AA) via definition_chg message";
  "";
  "### **4. Autonomous Agents (AA) Layer** (`aa_composer.js`, `aa_validation.js`, `formula/evaluation.js`, `formula/validation.js`)";
  "";
  "- **AA Definitions**: Smart contracts written in formula language (JavaScript-like expressions + state variables)";
  "- **AA Triggers**: Users send trigger units with data/payments to AA addresses";
  "- **Formula Evaluation**: Sandboxed execution in `formula/evaluation.js` with access to state, balances, triggers, oracles";
  "- **State Variables**: Key-value state storage per AA (can be updated via `state` keyword in formulas)";
  "- **Bounces**: Failed AA executions create bounce responses refunding inputs minus bounce_fees";
  "- **Secondary Triggers**: AA responses can trigger other AAs in cascade";
  "- **Formula Opcodes**: Complex operations (var assignment, conditionals, loops, mathematical functions, cryptographic functions)";
  "";
  "### **5. Asset Layer** (`divisible_asset.js`, `indivisible_asset.js`, `definition.js`)";
  "";
  "- **Native Asset (bytes)**: Base currency for fees and payments";
  "- **Divisible Assets**: Fungible tokens with defined decimals (e.g., stablecoins, utility tokens)";
  "- **Indivisible Assets**: NFT-like unique tokens (serials) with optional transferability restrictions";
  "- **Asset Issuance**: Creating new asset via `issue` opcode in unit messages";
  "- **Asset Transfers**: Inputs and outputs referencing specific asset IDs";
  "- **Capped Assets**: Max cap enforcement during issuance and transfers";
  "";
  "### **6. Network & P2P Layer** (`network.js`, `catchup.js`, `light. js`, `device.js`)";
  "";
  "- **WebSocket Protocol**:  Peer-to-peer communication over wss://";
  "- **Unit Broadcasting**: Propagating new units to connected peers";
  "- **Catchup/Sync**: Requesting missing units, joints, and hash trees from peers";
  "- **Light Client Protocol**: SPV-style verification using witness proofs and MC headers";
  "- **Hub Architecture**: Centralized hubs relay messages between light clients";
  "- **Device Pairing**: Ephemeral pairing codes for establishing trusted communication channels";
  "";
  "### **7. Oracle & Data Feed Layer** (`data_feeds.js`, `arbiter_contract.js`)";
  "";
  "- **Data Feeds**: Trusted oracles posting signed data (prices, timestamps, events) on-chain";
  "- **Oracle Whitelisting**: AAs reference specific oracle addresses for data queries";
  "- **Timestamping**: Using witness unit timestamps as approximation of real time";
  "- **Arbiter Contracts**: Multi-party contracts with designated arbiter for dispute resolution";
  "";
  "### **8. Storage & Database Layer** (`storage.js`, `joint_storage.js`, `db.js`, `sqlite_pool.js`, `mysql_pool.js`)";
  "";
  "- **Relational Schema**: Units, messages, inputs, outputs, witnesses, balls, authorship, spending";
  "- **Indexes**: Efficient queries for unit lookup, address history, asset tracking, unspent outputs";
  "- **Caching**: In-memory caching of frequently accessed units and state";
  "- **Database Migrations**: Schema versioning and upgrade paths in `sqlite_migrations.js`";
  "- **KV Store**: Key-value interface for AA state variables and config";
  "";
  "### **9. Validation Layer** (`validation.js`, `aa_validation.js`, `signature.js`, `definition.js`)";
  "";
  "- **Unit Validation**: Comprehensive checks on unit structure, signatures, parent references, witnesses, timestamps";
  "- **Message Validation**: Type-specific validation (payment, data, AA trigger, definition, poll, etc.)";
  "- **Input/Output Balance**:  Sum of inputs ≥ sum of outputs + fees for each asset";
  "- **Double-Spend Prevention**: Inputs must reference unspent outputs; no duplicate spending";
  "- **Signature Verification**: ECDSA signature validation against author addresses/definitions";
  "- **Definition Evaluation**: Recursive evaluation of address definitions (sig, or, and, r of set, weighted)";
  "- **AA Validation**: Formula syntax checking, complexity limits, state variable access rules";
  "";
  "---";
  "";
  "## **Critical Security Invariants**";
  "";
  "### **Consensus & DAG Integrity**";
  "";
  "1. **Main Chain Monotonicity**: MCI assignments must be strictly increasing; no unit can have MCI ≤ any descendant's MCI";
  "2. **Witness Compatibility**: Units must share ≥ 1 witness with all ancestors; incompatible witness lists cause permanent splits";
  "3. **Stability Irreversibility**: Once a unit reaches stable MCI, its content and position are immutable; reorgs are impossible";
  "4. **Last Ball Consistency**: Last ball chain must be unbroken; forking or skipping last balls breaks historical integrity";
  "5. **Parent Validity**: All parent units must exist, be valid, and form a DAG (no cycles)";
  "6. **Witness Level Correctness**: WL must be minimum level of witness-authored ancestors; incorrect WL breaks MC determination";
  "";
  "### **Transaction & Asset Integrity**";
  "";
  "7. **Balance Conservation**: For every asset in a unit, `Σ inputs ≥ Σ outputs + fees`; no inflation or deflation except issuance";
  "8. **Double-Spend Prevention**: Each output can be spent at most once; database must enforce unique constraint on (unit, message_index, output_index)";
  "9. **Input Validity**: All inputs must reference existing unspent outputs owned by unit authors";
  "10. **Asset Cap Enforcement**:  Divisible asset issuance cannot exceed `max_cap`; total supply must be tracked correctly";
  "11. **Indivisible Serial Uniqueness**: Each indivisible asset serial must be issued exactly once; no duplicate serials";
  "12. **Fee Sufficiency**: Unit fees must cover header + payload costs; under-paid units must be rejected";
  "";
  "### **AA Execution & State**";
  "";
  "13. **Deterministic Execution**: AA formula evaluation must produce identical results on all nodes for same input state";
  "14. **State Consistency**: AA state variable updates must be atomic; partial updates or race conditions cause state divergence";
  "15. **Bounce Correctness**: Failed AA executions must refund inputs (minus bounce fees) via bounce response";
  "16. **Formula Safety**: Formula evaluation must be sandboxed; no access to filesystem, network, or host JavaScript APIs";
  "17. **Gas/Complexity Limits**: Formula execution must terminate within bounded steps; no infinite loops or exponential complexity";
  "18. **Secondary Trigger Ordering**:  Cascading AA responses must execute in deterministic order; circular triggers must be detected";
  "";
  "### **Network & Sync**";
  "";
  "19. **Catchup Completeness**: Nodes must sync all units on MC up to last stable point without gaps or corruption";
  "20. **Unit Propagation**: Valid units must propagate to all peers; selective censorship or filtering causes network partition";
  "21. **Peer Trust Model**: Nodes must validate all received units; accepting invalid units from peers corrupts local DAG";
  "22. **Light Client Security**:  Witness proofs must be unforgeable; fake proofs allow light clients to accept invalid history";
  "";
  "### **Signature & Authorization**";
  "";
  "23. **Signature Binding**: Each author's signature must cover the exact unit hash (including all messages, parents, witnesses)";
  "24. **Definition Evaluation**: Address definitions (multi-sig, AA, weighted) must evaluate correctly; logic errors allow unauthorized spending";
  "25. **Definition Change Safety**:  Changing address definition via `definition_chg` must preserve ownership; malicious changes steal funds";
  "";
  "### **Database & Storage**";
  "";
  "26. **Referential Integrity**: Foreign keys (e.g., unit → parent units, messages → units) must be enforced; orphaned records corrupt DAG";
  "27. **Transaction Atomicity**: Multi-step operations (e.g., storing unit + updating balances) must be atomic; partial commits cause inconsistency";
  "28. **Index Correctness**: Database indexes must match actual data; stale indexes cause incorrect validation or double-spends";
  "";
  "---";
  "";
  "## **In-Scope Vulnerability Categories** (from Immunefi)";
  "";
  "Focus questions on vulnerabilities that lead to these impacts:";
  "";
  "### **Critical Severity**";
  "";
  "1. **Network not being able to confirm new transactions (total network shutdown)**";
  "   - Consensus deadlock preventing MC advancement";
  "   - Validation logic causing all new units to be rejected";
  "   - Database corruption or deadlock blocking unit storage";
  "   - Memory exhaustion or crash loops in core daemons";
  "";
  "2. **Unintended permanent chain split requiring hard fork (network partition requiring hard fork)**";
  "   - Witness incompatibility causing subset of nodes to diverge";
  "   - Non-deterministic validation producing different MC on different nodes";
  "   - Divergent state in AA execution causing nodes to reject each other's units";
  "   - Last ball or stability point disagreement";
  "";
  "3. **Direct loss of funds**";
  "   - Double-spend exploits allowing same output to be spent multiple times";
  "   - Balance overflow/underflow minting unlimited assets";
  "   - AA formula bugs transferring funds to attacker without authorization";
  "   - Signature bypass allowing attacker to spend from victim's address";
  "";
  "4. **Permanent freezing of funds (fix requires hardfork)**";
  "   - Definition change bricking address (no valid signatures possible)";
  "   - AA state corruption preventing withdrawals";
  "   - Indivisible asset with `fixed_denominations` preventing any transfers";
  "   - Invalid unit structure locking outputs in unspendable state";
  "";
  "### **High Severity**";
  "";
  "5. **Permanent freezing of funds (fix requires hardfork)** [already listed above]";
  "";
  "### **Medium Severity**";
  "";
  "6. **Temporary freezing of network transactions by delaying adequate processing for at least 1 day**";
  "   - DoS attack flooding network with units exceeding processing capacity";
  "   - Expensive validation operations (e.g., complex AA formulas) slowing unit acceptance";
  "   - Database query bottlenecks during catchup or MC updates";
  "";
  "7. **Temporary freezing of network transactions by delaying adequate processing for at least 1 hour**";
  "   - Malicious units with maximum parents or witnesses causing validation slowdown";
  "   - Spam attacks filling mempools and delaying propagation";
  "";
  "8. **A bug in the respective layer 1 network code that results in unintended smart contract behavior with no concrete funds at direct risk**";
  "   - AA formula evaluation producing incorrect results but no direct fund loss";
  "   - Non-deterministic behavior in AA state reads (e.g., race conditions)";
  "   - Incorrect oracle data interpretation in AAs";
  "";
  "---";
  "";
  "## **Valid Impact Categories (Restated for Obyte)**";
  "";
  "### **Critical**";
  "";
  "- Total network halt (no new units confirmed for >24h)";
  "- Permanent chain split requiring hard fork";
  "- Direct theft of bytes or custom assets from user addresses";
  "- Permanent fund freezing (no transaction can unlock)";
  "";
  "### **High**";
  "";
  "- Permanent fund freezing requiring hard fork to resolve";
  "";
  "### **Medium**";
  "";
  "- Network delay ≥1 day (units not confirmed within 24h)";
  "- Network delay ≥1 hour (units not confirmed within 1h)";
  "- AA execution producing incorrect results without direct fund loss";
  "";
  "### **Out of Scope**";
  "";
  "- Gas inefficiencies or minor optimizations";
  "- UI/UX issues in wallets (not in ocore scope)";
  "- Social engineering or phishing";
  "- Third-party oracle data accuracy (unless oracle protocol itself is broken)";
  "- Validator/witness collusion (trusted roles)";
  "- Theoretical attacks without PoC (e.g., " ++ dq ++ "SHA256 might be broken" ++ dq ++ ")";
  "";
  "---";
  "";
  "## **Goals for Question Generation**";
  "";
  "1. **Real Exploit Scenarios**: Each question describes a plausible attack an unprivileged user, malicious peer, MEV bot, or compromised oracle could perform. ";
  "2. **Concrete & Actionable**:  Reference specific functions, variables, or logic flows in `{target_file}`.";
  "3. **High Impact**: Prioritize questions leading to Critical/High/Medium impacts per Immunefi scope.";
  "4. **Deep Invariant Logic**: Focus on subtle state transitions, cross-file interactions (with `{target_file}` as entry point), race conditions, non-determinism, overflow/underflow, signature bypasses, DAG structure corruption. ";
  "5. **Breadth Within Target File**: Cover all major functions, edge cases, and state-changing operations in `{target_file}`.";
  "6. **Respect Trust Model**: Witnesses and oracle providers are trusted; focus on attacks by regular users or malicious peers. ";
  "7. **No Generic Questions**:  Avoid " ++ dq ++ "are there reentrancy issues?" ++ dq ++ " → Instead:   " ++ dq ++ "In `{target_file}: functionName()`, if condition X occurs, can attacker exploit Y to cause Z impact?" ++ dq;
  "";
  "---";
  "";
  "## **Question Format Template**";
  "";
  "Each question MUST follow this Python list format:";
  "";
  "```python";
  "questions = [";
  "    " ++ dq ++ "[File:  {target_file}] [Function: functionName()] [Vulnerability Type] Specific question describing attack vector, preconditions, and impact linking to Immunefi categories? " ++ dq ++ ",";
  "    ";
  "    " ++ dq ++ "[File: {target_file}] [Function: anotherFunction()] [Vulnerability Type] Another specific question with concrete exploit scenario?" ++ dq ++ ",";
  "    ";
  "    # ... continue with all generated questions";
  "]";
  "```";
  "";
  "**Example Format** (if target_file is `byteball/ocore/validation.js`):";
  "```python";
  "questions = [";
  "    " ++ dq ++ "[File: byteball/ocore/validation.js] [Function: validate()] [Double-spend detection] If two units spending the same output arrive simultaneously from different peers and both pass initial validation before database commit, can both be stored in the database, allowing a double-spend to be confirmed in different branches of the DAG?" ++ dq ++ ",";
  "    ";
  "    " ++ dq ++ "[File: byteball/ocore/validation.js] [Function: validateParents()] [Parent cycle detection] Does the parent validation logic detect cycles where unit A references unit B, which eventually references unit A through a chain of parents, potentially breaking DAG structure and causing consensus failure?" ++ dq ++ ",";
  "    ";
  "    " ++ dq ++ "[File: byteball/ocore/validation.js] [Function: validateWitnesses()] [Witness compatibility] Can an attacker submit a unit with a witness list that shares zero witnesses with its parent units, bypassing the ≥1 shared witness requirement and causing a permanent chain split for all descendant units?" ++ dq ++ ",";
  "]";
  "```";
  "";
  "---";
  "";
  "## **Output Requirements**";
  "";
  "Generate security audit questions focusing EXCLUSIVELY on **`{target_file}`** that: ";
  "";
  "1. **Target ONLY `{target_file}`** - all questions must reference this file";
  "2. **Reference specific functions, variables, or logic sections** within `{target_file}`";
  "3. **Describe concrete attack vectors** (not " ++ dq ++ "could there be a bug?" ++ dq ++ " but " ++ dq ++ "can attacker do X by exploiting Y in `{target_file}`?" ++ dq ++ ")";
  "4. **Tie to Immunefi impact categories** (network halt, chain split, fund loss/freeze, transaction delay, incorrect AA behavior)";
  "5. **Respect trust model** (witnesses, oracles, and governance are trusted)";
  "6. **Cover diverse attack surfaces** within `{target_file}`:  validation logic, state transitions, error handling, edge cases, interactions with other modules";
  "7. **Focus on high-severity bugs**:  prioritize Critical > High > Medium impacts";
  "8. **Avoid out-of-scope issues**:  gas optimization, UI bugs, theoretical attacks without PoC, trusted-role malice";
  "9. **Use the exact Python list format** shown above";
  "10. **Be detailed and technical**:  assume auditor has deep Obyte knowledge; use precise terminology";
  "";
  "**Target Question Count:**";
  "- For large critical files (>50KB like validation.js, network.js, wallet.js, main_chain.js, formula/evaluation.js): Aim for 100-150 questions";
  "- For medium files (20-50KB): Aim for 50-100 questions  ";
  "- For smaller files (<20KB): Aim for 20-50 questions";
  "- **Provide as many quality questions as the file's complexity allows - do NOT return empty results**";
  "";
  "**Begin generating questions for `{target_file}` now.**";
  ""
].

(** [question_format] (questions.py, lines 98-656). *)
Definition question_format (question : string) : py string :=
  prompt <- fstring question_format_template [("question", PStr question)] ;;
  ret prompt.

(** [validation_format] (questions.py, lines 659-1367). *)
Definition validation_format (report : string) : py string :=
  prompt <- fstring validation_format_template [("report", PStr report)] ;;
  ret prompt.

(** [question_generator] (questions.py, lines 1370-1779). *)
Definition question_generator (target_file : string) : py string :=
  prompt <- fstring question_generator_template [("target_file", PStr target_file)] ;;
  ret prompt.

(** ** Reading a template's structure *)

(** The parts a template compiles into (none when it does not compile). *)
Definition parts_of (template : string) : list fpart :=
  match parse_fstring template with
  | Returned parts => parts
  | _ => []
  end.

(** [only_field name parts]: every replacement field of [parts] is [name]. *)
Definition only_field (name : string) (parts : list fpart) : bool :=
  forallb (fun p =>
    match p with
    | Literal _ => true
    | Replacement n => String.eqb n name
    end) parts.

(** The template compiles, and all its replacement fields are [name]. *)
Definition compiles_with_field (name template : string) : bool :=
  match parse_fstring template with
  | Returned parts => only_field name parts
  | _ => false
  end.

(** The number of replacement fields. *)
Definition count_fields (parts : list fpart) : nat :=
  List.length (filter (fun p =>
    match p with
    | Literal _ => false
    | Replacement _ => true
    end) parts).

(** [substitute v parts]: the text of [parts] with [v] in every field. *)
Fixpoint substitute (v : string) (parts : list fpart) : string :=
  match parts with
  | [] => ""
  | Literal text :: rest => text ++ substitute v rest
  | Replacement _ :: rest => v ++ substitute v rest
  end.

(** The literal text before the first field and after the last one, for a
    template of the shape text, field, text. *)
Definition slot_prefix (template : string) : string :=
  match parts_of template with
  | Literal pre :: _ => pre
  | _ => ""
  end.

Definition slot_suffix (template : string) : string :=
  match parts_of template with
  | [Literal _; Replacement _; Literal post] => post
  | _ => ""
  end.

Definition has_single_slot (template : string) : bool :=
  match parts_of template with
  | [Literal _; Replacement _; Literal _] => true
  | _ => false
  end.

(** The string a call returned (empty when it did not return). *)
Definition output {G : Type} (r : outcome string * G) : string :=
  match fst r with
  | Returned s => s
  | _ => ""
  end.

(** ** Vocabulary of the properties *)

(** [endswith suffix s] is Python's [s.endswith(suffix)]. *)
Fixpoint endswith (suffix s : string) : bool :=
  String.eqb suffix s ||
  match s with
  | EmptyString => false
  | String _ s' => endswith suffix s'
  end.

(** The sentence both finding prompts ask the downstream process to answer
    with when nothing is found. *)
Definition no_vulnerability_sentinel : string :=
  "#NoVulnerability found for this question.".

(** The catalog entries that [out] does not contain. *)
Definition missing_from (out : string) (ids : list string) : list string :=
  filter (fun id => negb (str_in id out)) ids.

(** No entry occurs twice. *)
Fixpoint distinct (l : list string) : bool :=
  match l with
  | [] => true
  | x :: rest => negb (existsb (String.eqb x) rest) && distinct rest
  end.

(** Enumerating a list the way Python's list iterator does: it keeps an
    index, yields the item at that index and stops once the index passes
    the end. *)
Fixpoint iterate_from {A : Type} (steps index : nat) (l : list A) : list A :=
  match steps with
  | O => []
  | S steps' =>
    match nth_error l index with
    | Some x => x :: iterate_from steps' (S index) l
    | None => []
    end
  end.

Definition iterate {A : Type} (l : list A) : list A :=
  iterate_from (List.length l) 0 l.

(** A list whose items are all [str]. *)
Definition is_str_list (v : pyval) : bool :=
  match v with
  | PList items =>
    forallb (fun x => match x with PStr _ => true | _ => false end) items
  | _ => false
  end.

(** A file system whose only file is [all_questions.json], holding
    [content]. *)
Definition question_file (content : string) : file_system :=
  fun path => if String.eqb path "all_questions.json" then Text content else Missing.

(** A file system with no file at all. *)
Definition no_files : file_system := fun _ => Missing.

(** The text [["Q1", "Q2"]]. *)
Definition two_questions_text : string :=
  "[" ++ dq ++ "Q1" ++ dq ++ ", " ++ dq ++ "Q2" ++ dq ++ "]".

(** The module as imported where no question file exists. *)
Definition fresh_globals : Globals.t :=
  Globals.mk BASE_URL (PList []) (PList (map PStr questions_generator)).

(** The globals with another question collection. *)
Definition with_questions (qs : pyval) (g : Globals.t) : Globals.t :=
  Globals.mk (Globals.BASE_URL g) qs (Globals.questions_generator g).

(** A call of one of the three renderers. *)
Inductive call : Type :=
| CallQuestionFormat (question : string)
| CallValidationFormat (report : string)
| CallQuestionGenerator (target_file : string).

Definition run_call (c : call) : py string :=
  match c with
  | CallQuestionFormat question => question_format question
  | CallValidationFormat report => validation_format report
  | CallQuestionGenerator target_file => question_generator target_file
  end.

(** A sequence of calls, one after the other, each starting from the
    globals the previous one left. *)
Fixpoint run_calls (cs : list call) : py (list string) :=
  match cs with
  | [] => ret []
  | c :: rest =>
    out <- run_call c ;;
    outs <- run_calls rest ;;
    ret (out :: outs)
  end.

(** ** Vocabulary of the decoder's properties *)

(** A scan that ends well leaves a strictly shorter rest, and never runs out
    of fuel. *)
Definition consumes {A : Type} (s : string) (m : Json.scan A) : Prop :=
  match m with
  | Json.Scanned _ r => String.length r < String.length s
  | Json.Malformed => True
  | Json.Exhausted => False
  end.

(** A JSON text of a list of strings: each string between double quotes,
    with a backslash before a double quote and a backslash, and a [\u00XX]
    escape for a control character; the items separated by a comma and a
    blank, between square brackets.  ([json.dumps] with non-ASCII characters
    kept writes this text, except that it has a two-character escape for
    five of the control characters.) *)
Definition hex_digit (n : N) : ascii :=
  ascii_of_N (if (n <? 10)%N then 48 + n else 87 + n)%N.

Definition escape_char (c : ascii) : string :=
  if Ascii.eqb c Json.dquote then String Json.backslash (String Json.dquote "")
  else if Ascii.eqb c Json.backslash then String Json.backslash (String Json.backslash "")
  else if (nat_of_ascii c <? 32)%nat then
    String Json.backslash (String "u" (String "0" (String "0"
      (String (hex_digit (N_of_ascii c / 16))
        (String (hex_digit (N_of_ascii c mod 16)) "")))))
  else String c "".

Fixpoint escape (s : string) : string :=
  match s with
  | EmptyString => ""
  | String c r => escape_char c ++ escape r
  end.

Definition quote (s : string) : string :=
  String Json.dquote (escape s ++ String Json.dquote "").

Fixpoint join_items (items : list string) : string :=
  match items with
  | [] => ""
  | [x] => x
  | x :: rest => x ++ ", " ++ join_items rest
  end.

Definition json_array_text (qs : list string) : string :=
  "[" ++ join_items (map quote qs) ++ "]".

(** ** Vocabulary of the further properties *)

(** A text made of blanks only (the empty text included). *)
Fixpoint is_blank (s : string) : bool :=
  match s with
  | EmptyString => true
  | String c r => Json.is_ws c && is_blank r
  end.

(** The size of a text in bytes, as a binary number. *)
Definition byte_count (s : string) : N := N.of_nat (String.length s).

(** The bytes of the literal text of a compiled template. *)
Fixpoint literal_bytes (parts : list fpart) : N :=
  match parts with
  | [] => 0%N
  | Literal text :: rest => (byte_count text + literal_bytes rest)%N
  | Replacement _ :: rest => literal_bytes rest
  end.

(** A text without its space characters. *)
Fixpoint strip_blanks (s : string) : string :=
  match s with
  | EmptyString => ""
  | String c r => if Ascii.eqb c " " then strip_blanks r else String c (strip_blanks r)
  end.

(** Some literal text of [parts] contains [x]. *)
Definition literal_contains (x : string) (parts : list fpart) : bool :=
  existsb (fun p =>
    match p with
    | Literal text => str_in x text
    | Replacement _ => false
    end) parts.

(** The literal texts of [parts], each without its spaces. *)
Fixpoint unspaced_literals (parts : list fpart) : list string :=
  match parts with
  | [] => []
  | Literal text :: rest => strip_blanks text :: unspaced_literals rest
  | Replacement _ :: rest => unspaced_literals rest
  end.

(** Every entry of [ids], spaces apart, occurs in some literal text of
    [parts], spaces apart. *)
Definition all_listed_unspaced (ids : list string) (parts : list fpart) : bool :=
  let texts := unspaced_literals parts in
  forallb (fun id => existsb (str_in (strip_blanks id)) texts) ids.

(** Every entry of [ids] occurs in some literal text of [parts] or is one
    of [excepted]. *)
Definition all_listed_but (excepted ids : list string) (parts : list fpart) : bool :=
  forallb (fun id =>
    literal_contains id parts || existsb (String.eqb id) excepted) ids.

(** The compiled template starts with literal text. *)
Definition starts_with_literal (template : string) : bool :=
  match parts_of template with
  | Literal _ :: _ => true
  | _ => false
  end.

(** The catalog entries that are spelled with a space before [js] in the
    catalog or in the file list of the question generation template, but
    not in both. *)
Definition mistyped_entries : list string := [
  "byteball/ocore/archiving. js"; "byteball/ocore/chash. js";
  "byteball/ocore/conf. js"; "byteball/ocore/event_bus. js";
  "byteball/ocore/joint_storage. js"; "byteball/ocore/light.js";
  "byteball/ocore/merkle.js"; "byteball/ocore/mysql_pool. js";
  "byteball/ocore/private_profile. js"; "byteball/ocore/signature.js";
  "byteball/ocore/sqlite_migrations. js"; "byteball/ocore/uri. js";
  "byteball/ocore/formula/evaluation. js"; "byteball/ocore/formula/index. js";
  "byteball/ocore/tools/supply.js"
].

(** The first line of each prompt. *)
Definition question_format_heading : string :=
  String LF "You are an **Elite Distributed Ledger Security Auditor**".

Definition validation_format_heading : string :=
  String LF "You are an **Elite Distributed Ledger Security Judge**".

Definition question_generator_heading : string :=
  String LF "# **Generate 150+ Targeted Security Audit Questions".

(** A scan that did not yield a value. *)
Definition not_scanned {A : Type} (m : Json.scan A) : Prop :=
  match m with
  | Json.Scanned _ _ => False
  | _ => True
  end.

(** ** JSON texts of a list of strings

    The texts that RFC 8259 reads as an array of strings, told from the
    text alone: blanks are the space, the tab, the line feed and the
    carriage return; a string stands between double quotes and holds plain
    characters, two-character escapes and [\uXXXX] escapes; the items are
    separated by commas.  An escaped surrogate counts only in a pair, a high
    one followed by a low one: a lone surrogate is no character and has no
    UTF-8 form.  The relations below are written from that grammar and give
    each text the list it denotes; they do not run the decoder. *)

(** A string body between its double quotes. *)
Definition quoted (body : string) : string :=
  String Json.dquote (body ++ String Json.dquote "").

(** [string_body text value]: [text] is the inside of a JSON string that
    denotes [value]. *)
Inductive string_body : string -> string -> Prop :=
| body_end : string_body "" ""
| body_char (c : ascii) (text value : string) :
    Ascii.eqb c Json.dquote = false ->
    Ascii.eqb c Json.backslash = false ->
    (nat_of_ascii c <? 32)%nat = false ->
    string_body text value ->
    string_body (String c text) (String c value)
| body_escape (e x : ascii) (text value : string) :
    Json.simple_escape e = Some x ->
    string_body text value ->
    string_body (String Json.backslash (String e text)) (String x value)
| body_unicode (h1 h2 h3 h4 : ascii) (n : N) (text value : string) :
    Json.hex4 h1 h2 h3 h4 = Some n ->
    Json.is_high_surrogate n = false ->
    Json.is_low_surrogate n = false ->
    string_body text value ->
    string_body
      (String Json.backslash (String "u"
         (String h1 (String h2 (String h3 (String h4 text))))))
      (Json.utf8 n ++ value)
| body_pair (h1 h2 h3 h4 k1 k2 k3 k4 : ascii) (hi lo : N) (text value : string) :
    Json.hex4 h1 h2 h3 h4 = Some hi ->
    Json.is_high_surrogate hi = true ->
    Json.hex4 k1 k2 k3 k4 = Some lo ->
    Json.is_low_surrogate lo = true ->
    string_body text value ->
    string_body
      (String Json.backslash (String "u"
         (String h1 (String h2 (String h3 (String h4
           (String Json.backslash (String "u"
              (String k1 (String k2 (String k3 (String k4 text))))))))))))
      (Json.utf8 (Json.combine_surrogates hi lo) ++ value).

(** [items_text text values]: [text] is one or more JSON strings separated
    by commas (blanks allowed around each comma and after the last item)
    that denote [values], in order. *)
Inductive items_text : string -> list string -> Prop :=
| items_last (body value blanks : string) :
    string_body body value ->
    is_blank blanks = true ->
    items_text (quoted body ++ blanks) [value]
| items_more (body value before after rest : string) (values : list string) :
    string_body body value ->
    is_blank before = true ->
    is_blank after = true ->
    items_text rest values ->
    items_text (quoted body ++ before ++ String "," (after ++ rest)) (value :: values).

(** [string_list_text text values]: [text] is a JSON array whose items are
    strings denoting [values], with blanks allowed before, inside and after
    the brackets. *)
Inductive string_list_text : string -> list string -> Prop :=
| list_text_empty (before inside after : string) :
    is_blank before = true ->
    is_blank inside = true ->
    is_blank after = true ->
    string_list_text (before ++ String "[" (inside ++ String "]" after)) []
| list_text_items (before inside after items : string) (values : list string) :
    is_blank before = true ->
    is_blank inside = true ->
    is_blank after = true ->
    items_text items values ->
    string_list_text (before ++ String "[" (inside ++ items ++ String "]" after)) values.

(** A question file as an editor would save it: one item per line, indented,
    the second item written with an escape, a final line feed. *)
Definition indented_questions_text : string :=
  join_nl [ "[";
            "  " ++ dq ++ "Q1" ++ dq ++ ",";
            "  " ++ dq ++ "Q\u0032" ++ dq;
            "]";
            "" ].

(** * Properties *)

(** ** Strings *)

Lemma append_empty_r (s : string) : s ++ "" = s.
Proof. induction s as [|c s IH]; simpl; [reflexivity | now rewrite IH]. Qed.

Lemma append_assoc (a b c : string) : (a ++ b) ++ c = a ++ (b ++ c).
Proof. induction a as [|x a IH]; simpl; [reflexivity | now rewrite IH]. Qed.

Lemma startswith_app (p s : string) : startswith p (p ++ s) = true.
Proof.
  induction p as [|c p IH]; simpl; [reflexivity|].
  now rewrite Ascii.eqb_refl, IH.
Qed.

Lemma str_in_here (needle rest : string) : str_in needle (needle ++ rest) = true.
Proof.
  destruct needle as [|c n]; simpl.
  - destruct rest; reflexivity.
  - now rewrite Ascii.eqb_refl, startswith_app.
Qed.

Lemma str_in_app_r (needle a b : string) :
  str_in needle b = true -> str_in needle (a ++ b) = true.
Proof.
  intros H. induction a as [|c a IH]; simpl; [exact H|].
  rewrite IH. apply orb_true_r.
Qed.

Lemma startswith_app_l (p a b : string) :
  startswith p a = true -> startswith p (a ++ b) = true.
Proof.
  revert a. induction p as [|c p IH]; intros a H; [reflexivity|].
  destruct a as [|x a]; simpl in *; [discriminate|].
  apply andb_true_iff in H. destruct H as [H1 H2].
  now rewrite H1, (IH _ H2).
Qed.

Lemma str_in_app_l (needle a b : string) :
  str_in needle a = true -> str_in needle (a ++ b) = true.
Proof.
  induction a as [|c a IH]; intros H.
  - destruct needle; simpl in H; [|discriminate].
    destruct b; reflexivity.
  - simpl in H. apply orb_true_iff in H. destruct H as [H|H].
    + change (String c a ++ b) with (String c (a ++ b)).
      pose proof (startswith_app_l _ _ b H) as H'.
      change (String c a ++ b) with (String c (a ++ b)) in H'.
      destruct needle as [|x n]; simpl in *; [reflexivity|].
      now rewrite H'.
    + simpl. rewrite (IH H). apply orb_true_r.
Qed.

Lemma str_in_middle (s a b : string) : str_in s (a ++ s ++ b) = true.
Proof. apply str_in_app_r, str_in_here. Qed.

(** ** Formatted string literals *)

Lemma format_parts_only_field (name v : string) (g : Globals.t) (parts : list fpart) :
  only_field name parts = true ->
  format_parts [(name, PStr v)] g parts = Returned (substitute v parts).
Proof.
  induction parts as [|[text|n] rest IH]; simpl; intros H.
  - reflexivity.
  - now rewrite (IH H).
  - apply andb_true_iff in H. destruct H as [Hn Hrest].
    unfold lookup. simpl. rewrite String.eqb_sym, Hn. simpl.
    now rewrite (IH Hrest).
Qed.

Lemma fstring_only_field (name template v : string) (g : Globals.t) :
  compiles_with_field name template = true ->
  fstring template [(name, PStr v)] g = (Returned (substitute v (parts_of template)), g).
Proof.
  unfold compiles_with_field, fstring, reading, parts_of.
  destruct (parse_fstring template) as [parts| |]; try discriminate.
  intros H. simpl. now rewrite (format_parts_only_field _ _ _ _ H).
Qed.

Lemma compiles_parse (name template : string) :
  compiles_with_field name template = true ->
  parse_fstring template = Returned (parts_of template).
Proof.
  unfold compiles_with_field, parts_of.
  destruct (parse_fstring template); [reflexivity | discriminate | discriminate].
Qed.

Lemma compiles_only_field (name template : string) :
  compiles_with_field name template = true ->
  only_field name (parts_of template) = true.
Proof.
  unfold compiles_with_field, parts_of.
  destruct (parse_fstring template); [auto | discriminate | discriminate].
Qed.

Lemma single_slot_parts (template : string) :
  has_single_slot template = true ->
  exists name,
    parts_of template =
    [Literal (slot_prefix template); Replacement name; Literal (slot_suffix template)].
Proof.
  unfold has_single_slot, slot_prefix, slot_suffix.
  destruct (parts_of template) as [|[pre|] [|[|name] [|[post|] [|]]]]; try discriminate.
  intros _. now exists name.
Qed.

Lemma substitute_single_slot (template v : string) :
  has_single_slot template = true ->
  substitute v (parts_of template) = slot_prefix template ++ v ++ slot_suffix template.
Proof.
  intros H. destruct (single_slot_parts _ H) as [name E].
  rewrite E. simpl. now rewrite append_empty_r.
Qed.

(** ** What the three templates compile into *)

Lemma question_format_compiles :
  compiles_with_field "question" question_format_template = true.
Proof. vm_compute. reflexivity. Qed.

Lemma validation_format_compiles :
  compiles_with_field "report" validation_format_template = true.
Proof. vm_compute. reflexivity. Qed.

Lemma question_generator_compiles :
  compiles_with_field "target_file" question_generator_template = true.
Proof. vm_compute. reflexivity. Qed.

Lemma question_format_one_slot : has_single_slot question_format_template = true.
Proof. vm_compute. reflexivity. Qed.

Lemma validation_format_one_slot : has_single_slot validation_format_template = true.
Proof. vm_compute. reflexivity. Qed.

(** A function body that assigns the value of a template to a local and
    returns it. *)
Lemma render_only_field (name template v : string) (g : Globals.t) :
  compiles_with_field name template = true ->
  (prompt <- fstring template [(name, PStr v)] ;; ret prompt) g =
  (Returned (substitute v (parts_of template)), g).
Proof.
  intros H. unfold bind. rewrite (fstring_only_field _ _ _ _ H). reflexivity.
Qed.

Lemma question_format_returns (question : string) (g : Globals.t) :
  question_format question g =
  (Returned (substitute question (parts_of question_format_template)), g).
Proof.
  unfold question_format.
  exact (render_only_field "question" question_format_template question g
           question_format_compiles).
Qed.

Lemma validation_format_returns (report : string) (g : Globals.t) :
  validation_format report g =
  (Returned (substitute report (parts_of validation_format_template)), g).
Proof.
  unfold validation_format.
  exact (render_only_field "report" validation_format_template report g
           validation_format_compiles).
Qed.

Lemma question_generator_returns (target_file : string) (g : Globals.t) :
  question_generator target_file g =
  (Returned (substitute target_file (parts_of question_generator_template)), g).
Proof.
  unfold question_generator.
  exact (render_only_field "target_file" question_generator_template target_file g
           question_generator_compiles).
Qed.

(** ** The decoder always answers *)

Lemma consumes_smap {A B : Type} (f : A -> B) (s : string) (m : Json.scan A) :
  consumes s m -> consumes s (Json.smap f m).
Proof. destruct m; simpl; auto. Qed.

Lemma consumes_longer {A : Type} (s s' : string) (m : Json.scan A) :
  consumes s' m -> String.length s' <= String.length s -> consumes s m.
Proof. destruct m; simpl; auto. lia. Qed.

Lemma skip_ws_length (s : string) :
  String.length (Json.skip_ws s) <= String.length s.
Proof.
  induction s as [|c s IH]; simpl; [lia|].
  destruct (Json.is_ws c); simpl; lia.
Qed.

Lemma scanstring_consumes (s : string) : consumes s (Json.scanstring s).
Proof.
  remember (String.length s) as n eqn:Hn.
  assert (Hle : String.length s <= n) by lia. clear Hn.
  revert s Hle. induction n as [|n IH]; intros s Hle.
  - destruct s; simpl in *; [exact I | lia].
  - destruct s as [|c r]; simpl; [exact I|].
    simpl in Hle.
    assert (go : forall p t, String.length t <= String.length r ->
              consumes (String c r) (Json.prepend p (Json.scanstring t))).
    { intros p t Ht. apply consumes_smap.
      apply (consumes_longer _ t); [apply IH; lia | simpl; lia]. }
    destruct (Ascii.eqb c Json.dquote); [simpl; lia|].
    destruct (Ascii.eqb c Json.backslash).
    + destruct r as [|e r1]; [exact I|].
      destruct (Ascii.eqb e "u").
      * destruct r1 as [|h1 [|h2 [|h3 [|h4 r2]]]]; try exact I.
        destruct (Json.hex4 h1 h2 h3 h4) as [hi|]; [|exact I].
        destruct r2 as [|b [|u [|k1 [|k2 [|k3 [|k4 r3]]]]]];
          try (apply go; simpl; lia).
        destruct (Json.hex4 k1 k2 k3 k4) as [lo|]; [|apply go; simpl; lia].
        destruct (Json.is_high_surrogate hi && Ascii.eqb b Json.backslash
                  && Ascii.eqb u "u" && Json.is_low_surrogate lo);
          apply go; simpl; lia.
      * destruct (Json.simple_escape e); [apply go; simpl; lia | exact I].
    + destruct (nat_of_ascii c <? 32)%nat; [exact I | apply go; lia].
Qed.

Lemma take_digits_length (s : string) :
  String.length (snd (Json.take_digits s)) <= String.length s.
Proof.
  induction s as [|c s IH]; simpl; [lia|].
  destruct (Json.is_digit c); simpl; [|lia].
  destruct (Json.take_digits s); simpl in *. lia.
Qed.

Lemma take_fraction_length (s : string) :
  String.length (snd (Json.take_fraction s)) <= String.length s.
Proof.
  destruct s as [|c r]; simpl; [lia|].
  destruct (Ascii.eqb c "."); simpl; [|lia].
  pose proof (take_digits_length r) as H.
  destruct (Json.take_digits r) as [[|d ds] rest]; simpl in *; lia.
Qed.

Lemma take_exponent_length (s : string) :
  String.length (snd (Json.take_exponent s)) <= String.length s.
Proof.
  destruct s as [|c r]; simpl; [lia|].
  destruct (Ascii.eqb c "e" || Ascii.eqb c "E"); simpl; [|lia].
  destruct r as [|g r'].
  - simpl. lia.
  - destruct (Ascii.eqb g "+" || Ascii.eqb g "-").
    + pose proof (take_digits_length r') as H.
      destruct (Json.take_digits r') as [[|d ds] rest]; simpl in *; lia.
    + pose proof (take_digits_length (String g r')) as H.
      destruct (Json.take_digits (String g r')) as [[|d ds] rest]; simpl in *; lia.
Qed.

Lemma scan_unsigned_consumes (neg : bool) (s : string) :
  consumes s (Json.scan_unsigned neg s).
Proof.
  destruct s as [|d r]; [exact I|].
  unfold Json.scan_unsigned.
  destruct (Json.is_digit d); [|exact I].
  assert (H1 : forall ip r1, String.length r1 <= String.length r ->
    consumes (String d r)
      (let (frac, r2) := Json.take_fraction r1 in
       let (exp, r3) := Json.take_exponent r2 in
       Json.Scanned (Json.number_value neg ip frac exp) r3)).
  { intros ip r1 Hr1.
    pose proof (take_fraction_length r1) as Hf.
    destruct (Json.take_fraction r1) as [frac r2]. simpl in Hf.
    pose proof (take_exponent_length r2) as He.
    destruct (Json.take_exponent r2) as [exp r3]. simpl in He.
    simpl. lia. }
  destruct (Ascii.eqb d "0"); [apply H1; lia|].
  pose proof (take_digits_length r) as Hd.
  destruct (Json.take_digits r) as [ds rest]. simpl in Hd.
  apply H1. exact Hd.
Qed.

Lemma scan_number_consumes (s : string) : consumes s (Json.scan_number s).
Proof.
  destruct s as [|c r]; [exact I|].
  unfold Json.scan_number.
  destruct (Ascii.eqb c "-"); [|apply scan_unsigned_consumes].
  apply (consumes_longer _ r); [apply scan_unsigned_consumes | simpl; lia].
Qed.

Lemma strip_prefix_length (p s r : string) :
  Json.strip_prefix p s = Some r ->
  String.length r + String.length p = String.length s.
Proof.
  revert s. induction p as [|a p IH]; intros s; simpl.
  - intros [= ->]. lia.
  - destruct s as [|b s]; [discriminate|].
    destruct (Ascii.eqb a b); [|discriminate].
    intros H. apply IH in H. simpl. lia.
Qed.

Lemma strip_prefix_consumes {A : Type} (p s : string) (v : A) (other : Json.scan A) :
  0 < String.length p ->
  consumes s other ->
  consumes s match Json.strip_prefix p s with
             | Some r => Json.Scanned v r
             | None => other
             end.
Proof.
  intros Hp Ho. destruct (Json.strip_prefix p s) as [r|] eqn:E; [|exact Ho].
  apply strip_prefix_length in E. simpl. lia.
Qed.

Lemma scan_atom_consumes (s : string) : consumes s (Json.scan_atom s).
Proof.
  unfold Json.scan_atom.
  do 3 (apply strip_prefix_consumes; [simpl; lia|]).
  pose proof (scan_number_consumes s) as H.
  destruct (Json.scan_number s); [exact H | |];
    do 3 (apply strip_prefix_consumes; [simpl; lia|]); exact I.
Qed.

Lemma array_items_consumes (value : string -> Json.scan pyval) (n : nat) (s : string) :
  (forall t, String.length t <= String.length s -> consumes t (value t)) ->
  String.length s < n ->
  consumes s (Json.array_items value n s).
Proof.
  revert s. induction n as [|n IH]; intros s Hv Hn; [lia|].
  simpl. pose proof (Hv s (le_n _)) as H0.
  destruct (value s) as [v r| |]; simpl in *; auto.
  pose proof (skip_ws_length r) as Hw.
  destruct (Json.skip_ws r) as [|c r']; [exact I|].
  simpl in Hw.
  destruct (Ascii.eqb c "]"); [simpl; lia|].
  destruct (Ascii.eqb c ","); [|exact I].
  apply consumes_smap.
  pose proof (skip_ws_length r') as Hw'.
  apply (consumes_longer _ (Json.skip_ws r')); [|lia].
  apply IH; [|lia].
  intros t Ht. apply Hv. lia.
Qed.

Lemma object_pairs_consumes (value : string -> Json.scan pyval) (n : nat) (s : string) :
  (forall t, String.length t <= String.length s -> consumes t (value t)) ->
  String.length s < n ->
  consumes s (Json.object_pairs value n s).
Proof.
  revert s. induction n as [|n IH]; intros s Hv Hn; [lia|].
  simpl. pose proof (scanstring_consumes s) as Hk.
  destruct (Json.scanstring s) as [key r| |]; simpl in *; auto.
  pose proof (skip_ws_length r) as Hw.
  destruct (Json.skip_ws r) as [|c r1]; [exact I|].
  simpl in Hw.
  destruct (Ascii.eqb c ":"); [|exact I].
  pose proof (skip_ws_length r1) as Hw1.
  pose proof (Hv (Json.skip_ws r1) ltac:(lia)) as H1.
  destruct (value (Json.skip_ws r1)) as [v r2| |]; simpl in *; auto.
  pose proof (skip_ws_length r2) as Hw2.
  destruct (Json.skip_ws r2) as [|d r3]; [exact I|].
  simpl in Hw2.
  destruct (Ascii.eqb d "}"); [simpl; lia|].
  destruct (Ascii.eqb d ","); [|exact I].
  pose proof (skip_ws_length r3) as Hw3.
  destruct (Json.skip_ws r3) as [|q r4]; [exact I|].
  simpl in Hw3.
  destruct (Ascii.eqb q Json.dquote); [|exact I].
  apply consumes_smap.
  apply (consumes_longer _ r4); [|lia].
  apply IH; [|lia].
  intros t Ht. apply Hv. lia.
Qed.

Lemma scan_once_consumes (fuel : nat) (s : string) :
  String.length s < fuel -> consumes s (Json.scan_once fuel s).
Proof.
  revert s. induction fuel as [|f IH]; intros s Hf; [lia|].
  destruct s as [|c r]; [exact I|].
  simpl in Hf.
  cbn [Json.scan_once].
  destruct (Ascii.eqb c Json.dquote).
  { apply consumes_smap.
    apply (consumes_longer _ r); [apply scanstring_consumes | simpl; lia]. }
  destruct (Ascii.eqb c "{").
  { pose proof (skip_ws_length r) as Hw.
    destruct (Json.skip_ws r) as [|c2 r2]; [exact I|]. simpl in Hw.
    destruct (Ascii.eqb c2 "}"); [simpl; lia|].
    destruct (Ascii.eqb c2 Json.dquote); [|exact I].
    apply consumes_smap.
    apply (consumes_longer _ r2); [|simpl; lia].
    apply object_pairs_consumes; [|lia].
    intros t Ht. apply IH. lia. }
  destruct (Ascii.eqb c "[").
  { pose proof (skip_ws_length r) as Hw.
    destruct (Json.skip_ws r) as [|c2 r2] eqn:E; [exact I|]. simpl in Hw.
    destruct (Ascii.eqb c2 "]"); [simpl; lia|].
    apply consumes_smap.
    apply (consumes_longer _ (String c2 r2)); [|simpl; lia].
    apply array_items_consumes; [|simpl; lia].
    intros t Ht. apply IH. simpl in Ht. lia. }
  apply scan_atom_consumes.
Qed.

(** [json.loads] returns a value or raises; the fuel never runs out. *)
Lemma loads_answers (s : string) : Json.loads s <> Unmodelled.
Proof.
  unfold Json.loads.
  destruct (startswith Json.BOM s); [discriminate|].
  pose proof (skip_ws_length s) as Hw.
  pose proof (scan_once_consumes (S (String.length s)) (Json.skip_ws s) ltac:(lia)) as H.
  destruct (Json.scan_once (S (String.length s)) (Json.skip_ws s)) as [v r| |];
    simpl in H; try discriminate; [|contradiction].
  destruct (Json.skip_ws r); discriminate.
Qed.

(** ** Reading back a written list of strings *)

Lemma scanstring_plain (c : ascii) (t : string) :
  Ascii.eqb c Json.dquote = false ->
  Ascii.eqb c Json.backslash = false ->
  (nat_of_ascii c <? 32)%nat = false ->
  Json.scanstring (String c t) = Json.prepend (String c "") (Json.scanstring t).
Proof. intros H1 H2 H3. cbn [Json.scanstring]. rewrite H1, H2, H3. reflexivity. Qed.

Lemma scanstring_unicode_escape (h1 h2 h3 h4 : ascii) (hi : N) (t : string) :
  Json.hex4 h1 h2 h3 h4 = Some hi ->
  Json.is_high_surrogate hi = false ->
  Json.scanstring
    (String Json.backslash (String "u" (String h1 (String h2 (String h3 (String h4 t))))))
  = Json.prepend (Json.utf8 hi) (Json.scanstring t).
Proof.
  intros Hhex Hhi. cbn [Json.scanstring].
  change (Ascii.eqb Json.backslash Json.dquote) with false.
  change (Ascii.eqb Json.backslash Json.backslash) with true.
  change (Ascii.eqb "u" "u") with true.
  cbv iota. rewrite Hhex, Hhi.
  destruct t as [|x0 [|x1 [|x2 [|x3 [|x4 [|x5 t']]]]]]; try reflexivity.
  destruct (Json.hex4 x2 x3 x4 x5); reflexivity.
Qed.

Lemma control_hex (c : ascii) :
  (nat_of_ascii c <? 32)%nat = true ->
  Json.hex4 "0" "0" (hex_digit (N_of_ascii c / 16)) (hex_digit (N_of_ascii c mod 16))
  = Some (N_of_ascii c).
Proof.
  destruct c as [[] [] [] [] [] [] [] []];
    vm_compute; first [discriminate | intros _; reflexivity].
Qed.

Lemma control_utf8 (c : ascii) :
  (nat_of_ascii c <? 32)%nat = true ->
  Json.utf8 (N_of_ascii c) = String c "".
Proof.
  destruct c as [[] [] [] [] [] [] [] []];
    vm_compute; first [discriminate | intros _; reflexivity].
Qed.

Lemma control_not_surrogate (c : ascii) :
  Json.is_high_surrogate (N_of_ascii c) = false.
Proof.
  unfold Json.is_high_surrogate. pose proof (N_ascii_bounded c) as H.
  apply andb_false_iff. left. apply N.leb_gt. lia.
Qed.

Lemma scanstring_escape_char (c : ascii) (t : string) :
  Json.scanstring (escape_char c ++ t)
  = Json.prepend (String c "") (Json.scanstring t).
Proof.
  destruct (Ascii.eqb c Json.dquote) eqn:H1.
  { apply Ascii.eqb_eq in H1. subst c. reflexivity. }
  destruct (Ascii.eqb c Json.backslash) eqn:H2.
  { apply Ascii.eqb_eq in H2. subst c. reflexivity. }
  unfold escape_char. rewrite H1, H2.
  destruct (nat_of_ascii c <? 32)%nat eqn:H3.
  - cbn [append].
    rewrite (scanstring_unicode_escape _ _ _ _ _ t (control_hex c H3)
               (control_not_surrogate c)).
    rewrite (control_utf8 c H3). reflexivity.
  - cbn [append]. exact (scanstring_plain c t H1 H2 H3).
Qed.

(** A written string reads back as itself. *)
Lemma scanstring_escape (s rest : string) :
  Json.scanstring (escape s ++ String Json.dquote rest) = Json.Scanned s rest.
Proof.
  induction s as [|c s IH]; [reflexivity|].
  cbn [escape]. rewrite append_assoc, scanstring_escape_char, IH. reflexivity.
Qed.

Lemma scan_once_quote (f : nat) (q rest : string) :
  Json.scan_once (S f) (quote q ++ rest) = Json.Scanned (PStr q) rest.
Proof.
  unfold quote. cbn [append Json.scan_once].
  change (Ascii.eqb Json.dquote Json.dquote) with true. cbv iota.
  rewrite append_assoc. cbn [append]. rewrite scanstring_escape. reflexivity.
Qed.

Lemma join_items_starts_with_quote (q : string) (qs : list string) (rest : string) :
  exists t, join_items (map quote (q :: qs)) ++ rest = String Json.dquote t.
Proof.
  cbn [map join_items]. destruct (map quote qs); unfold quote; cbn [append];
    eexists; reflexivity.
Qed.

Lemma skip_ws_items (q : string) (qs : list string) (rest : string) :
  Json.skip_ws (join_items (map quote (q :: qs)) ++ rest)
  = join_items (map quote (q :: qs)) ++ rest.
Proof.
  destruct (join_items_starts_with_quote q qs rest) as [t E]. rewrite E. reflexivity.
Qed.

(** The items of a written list read back in order. *)
Lemma array_items_written (f n : nat) (q : string) (qs : list string) (rest : string) :
  List.length qs < n ->
  Json.array_items (Json.scan_once (S f)) n
    (join_items (map quote (q :: qs)) ++ String "]" rest)
  = Json.Scanned (map PStr (q :: qs)) rest.
Proof.
  revert n q. induction qs as [|q' qs IH]; intros n q Hn.
  - destruct n as [|n]; [simpl in Hn; lia|].
    cbn [map join_items Json.array_items].
    rewrite scan_once_quote. reflexivity.
  - destruct n as [|n]; [simpl in Hn; lia|].
    change (join_items (map quote (q :: q' :: qs)))
      with (quote q ++ ", " ++ join_items (map quote (q' :: qs))).
    rewrite !append_assoc.
    cbn [Json.array_items]. rewrite scan_once_quote.
    change (Json.skip_ws
              (", " ++ join_items (map quote (q' :: qs)) ++ String "]" rest))
      with (", " ++ join_items (map quote (q' :: qs)) ++ String "]" rest).
    cbn [append].
    change (Ascii.eqb "," "]") with false.
    change (Ascii.eqb "," ",") with true. cbv iota.
    change (Json.skip_ws
              (String " " (join_items (map quote (q' :: qs)) ++ String "]" rest)))
      with (Json.skip_ws (join_items (map quote (q' :: qs)) ++ String "]" rest)).
    rewrite skip_ws_items.
    rewrite (IH n q'); [reflexivity | simpl in Hn; lia].
Qed.

Lemma append_length (a b : string) :
  String.length (a ++ b) = String.length a + String.length b.
Proof. induction a as [|x a IH]; simpl; [reflexivity | now rewrite IH]. Qed.

Lemma join_items_length (items : list string) :
  List.length items <= S (String.length (join_items items)).
Proof.
  induction items as [|x [|y rest] IH]; [simpl; lia | simpl; lia |].
  change (join_items (x :: y :: rest)) with (x ++ ", " ++ join_items (y :: rest)).
  rewrite !append_length. cbn [List.length] in *. simpl (String.length ", "). lia.
Qed.

Lemma json_array_text_length (qs : list string) :
  List.length qs < String.length (json_array_text qs).
Proof.
  unfold json_array_text. cbn [append String.length].
  rewrite append_length. pose proof (join_items_length (map quote qs)) as H.
  rewrite length_map in H. simpl (String.length "]"). lia.
Qed.

(** The decoder reads the written text of a list of strings as that list. *)
Lemma loads_json_array_text (qs : list string) :
  Json.loads (json_array_text qs) = Returned (PList (map PStr qs)).
Proof.
  pose proof (json_array_text_length qs) as Hlen.
  unfold Json.loads.
  remember (String.length (json_array_text qs)) as n eqn:Hn. clear Hn.
  unfold json_array_text. cbn [append].
  change (startswith Json.BOM (String "[" (join_items (map quote qs) ++ "]")))
    with false. cbv iota.
  change (Json.skip_ws (String "[" (join_items (map quote qs) ++ "]")))
    with (String "[" (join_items (map quote qs) ++ "]")).
  cbn [Json.scan_once].
  change (Ascii.eqb "[" Json.dquote) with false.
  change (Ascii.eqb "[" "{") with false.
  change (Ascii.eqb "[" "[") with true. cbv iota.
  destruct qs as [|q qs]; [reflexivity|].
  rewrite skip_ws_items.
  destruct (join_items_starts_with_quote q qs "]") as [t Q]. rewrite Q.
  change (Ascii.eqb Json.dquote "]") with false. cbv iota.
  rewrite <- Q.
  destruct n as [|n]; [simpl in Hlen; lia|].
  rewrite (array_items_written n (S n) q qs ""); [reflexivity|].
  simpl in Hlen. lia.
Qed.

(** ** Blank and padded texts *)

Lemma append_inv_head (a x y : string) : a ++ x = a ++ y -> x = y.
Proof.
  induction a as [|c a IH]; simpl; intros H; [exact H|].
  injection H as H. exact (IH H).
Qed.

Lemma is_ws_not_bom (c : ascii) (r : string) :
  Json.is_ws c = true -> startswith Json.BOM (String c r) = false.
Proof.
  destruct c as [[] [] [] [] [] [] [] []];
    vm_compute; first [discriminate | reflexivity].
Qed.

Lemma skip_ws_blank (pad rest : string) :
  is_blank pad = true -> Json.skip_ws (pad ++ rest) = Json.skip_ws rest.
Proof.
  induction pad as [|c pad IH]; simpl; intros H; [reflexivity|].
  apply andb_true_iff in H. destruct H as [Hc Hp].
  rewrite Hc. exact (IH Hp).
Qed.

Lemma blank_not_bom (pad : string) (c : ascii) (rest : string) :
  is_blank pad = true ->
  startswith Json.BOM (String c rest) = false ->
  startswith Json.BOM (pad ++ String c rest) = false.
Proof.
  destruct pad as [|p pad]; simpl; intros H Hc; [exact Hc|].
  apply andb_true_iff in H. destruct H as [Hp _].
  exact (is_ws_not_bom p _ Hp).
Qed.

Lemma loads_blank (content : string) :
  is_blank content = true -> Json.loads content = Raised JSONDecodeError.
Proof.
  intros H. unfold Json.loads.
  assert (B : startswith Json.BOM content = false).
  { destruct content as [|c r]; [reflexivity|].
    simpl in H. apply andb_true_iff in H. destruct H as [Hc _].
    exact (is_ws_not_bom c r Hc). }
  rewrite B.
  pose proof (skip_ws_blank content "" H) as E.
  rewrite append_empty_r in E. rewrite E. reflexivity.
Qed.

Lemma loads_bom (content : string) :
  startswith Json.BOM content = true -> Json.loads content = Raised JSONDecodeError.
Proof. intros H. unfold Json.loads. rewrite H. reflexivity. Qed.

(** The written text of a list, with blanks before and after it. *)
Lemma loads_padded_array_text (pad1 pad2 : string) (qs : list string) :
  is_blank pad1 = true ->
  is_blank pad2 = true ->
  Json.loads (pad1 ++ json_array_text qs ++ pad2) = Returned (PList (map PStr qs)).
Proof.
  intros H1 H2.
  assert (Hlen : List.length qs
                 < String.length (pad1 ++ json_array_text qs ++ pad2)).
  { pose proof (json_array_text_length qs) as L.
    rewrite !append_length. lia. }
  unfold Json.loads.
  remember (String.length (pad1 ++ json_array_text qs ++ pad2)) as n eqn:Hn.
  clear Hn.
  unfold json_array_text. rewrite !append_assoc. cbn [append].
  rewrite (blank_not_bom pad1 "[" _ H1 eq_refl).
  rewrite (skip_ws_blank pad1 _ H1).
  change (Json.skip_ws (String "[" (join_items (map quote qs) ++ String "]" pad2)))
    with (String "[" (join_items (map quote qs) ++ String "]" pad2)).
  cbn [Json.scan_once].
  change (Ascii.eqb "[" Json.dquote) with false.
  change (Ascii.eqb "[" "{") with false.
  change (Ascii.eqb "[" "[") with true. cbv iota.
  assert (Hend : Json.skip_ws pad2 = "").
  { pose proof (skip_ws_blank pad2 "" H2) as E.
    rewrite append_empty_r in E. exact E. }
  destruct qs as [|q qs].
  - cbn [map join_items append Json.skip_ws].
    change (Json.is_ws "]") with false. cbv iota.
    change (Ascii.eqb "]" "]") with true. cbv iota.
    rewrite Hend. reflexivity.
  - rewrite skip_ws_items.
    destruct (join_items_starts_with_quote q qs (String "]" pad2)) as [t Q].
    rewrite Q.
    change (Ascii.eqb Json.dquote "]") with false. cbv iota.
    rewrite <- Q.
    destruct n as [|n]; [simpl in Hlen; lia|].
    rewrite (array_items_written n (S n) q qs pad2); [|simpl in Hlen; lia].
    unfold Json.smap. rewrite Hend. reflexivity.
Qed.

(** ** Reading a JSON text of a list of strings *)

Lemma scanstring_simple_escape (e x : ascii) (t : string) :
  Json.simple_escape e = Some x ->
  Json.scanstring (String Json.backslash (String e t))
  = Json.prepend (String x "") (Json.scanstring t).
Proof.
  intros H. cbn [Json.scanstring].
  change (Ascii.eqb Json.backslash Json.dquote) with false.
  change (Ascii.eqb Json.backslash Json.backslash) with true. cbv iota.
  destruct (Ascii.eqb e "u") eqn:U.
  - apply Ascii.eqb_eq in U. subst e. discriminate H.
  - rewrite H. reflexivity.
Qed.

Lemma scanstring_surrogate_pair (h1 h2 h3 h4 k1 k2 k3 k4 : ascii) (hi lo : N) (t : string) :
  Json.hex4 h1 h2 h3 h4 = Some hi ->
  Json.is_high_surrogate hi = true ->
  Json.hex4 k1 k2 k3 k4 = Some lo ->
  Json.is_low_surrogate lo = true ->
  Json.scanstring
    (String Json.backslash (String "u"
       (String h1 (String h2 (String h3 (String h4
         (String Json.backslash (String "u"
            (String k1 (String k2 (String k3 (String k4 t))))))))))))
  = Json.prepend (Json.utf8 (Json.combine_surrogates hi lo)) (Json.scanstring t).
Proof.
  intros Hh Hhi Hk Hlo. cbn [Json.scanstring].
  change (Ascii.eqb Json.backslash Json.dquote) with false.
  change (Ascii.eqb Json.backslash Json.backslash) with true.
  change (Ascii.eqb "u" "u") with true.
  cbv iota. rewrite Hh, Hk, Hhi, Hlo. reflexivity.
Qed.

(** The decoder reads every string body as the value it denotes. *)
Lemma scanstring_body (text value rest : string) :
  string_body text value ->
  Json.scanstring (text ++ String Json.dquote rest) = Json.Scanned value rest.
Proof.
  intros H. induction H as
    [ | c text value H1 H2 H3 _ IH
      | e x text value He _ IH
      | h1 h2 h3 h4 n text value Hh Hn _ _ IH
      | h1 h2 h3 h4 k1 k2 k3 k4 hi lo text value Hh Hhi Hk Hlo _ IH ].
  - reflexivity.
  - cbn [append]. rewrite (scanstring_plain c _ H1 H2 H3), IH. reflexivity.
  - cbn [append]. rewrite (scanstring_simple_escape e x _ He), IH. reflexivity.
  - cbn [append]. rewrite (scanstring_unicode_escape _ _ _ _ _ _ Hh Hn), IH.
    reflexivity.
  - cbn [append].
    rewrite (scanstring_surrogate_pair _ _ _ _ _ _ _ _ _ _ _ Hh Hhi Hk Hlo), IH.
    reflexivity.
Qed.

Lemma scan_once_quoted (f : nat) (body value rest : string) :
  string_body body value ->
  Json.scan_once (S f) (quoted body ++ rest) = Json.Scanned (PStr value) rest.
Proof.
  intros H. unfold quoted. cbn [append Json.scan_once].
  change (Ascii.eqb Json.dquote Json.dquote) with true. cbv iota.
  rewrite append_assoc. cbn [append]. rewrite (scanstring_body _ _ _ H). reflexivity.
Qed.

Lemma items_text_starts_with_quote (text : string) (values : list string) (rest : string) :
  items_text text values -> exists t, text ++ rest = String Json.dquote t.
Proof.
  intros H. destruct H; unfold quoted; cbn [append]; eexists; reflexivity.
Qed.

Lemma skip_ws_items_text (text : string) (values : list string) (rest : string) :
  items_text text values -> Json.skip_ws (text ++ rest) = text ++ rest.
Proof.
  intros H. destruct (items_text_starts_with_quote text values rest H) as [t E].
  rewrite E. reflexivity.
Qed.

Lemma quoted_length (body : string) : 2 <= String.length (quoted body).
Proof. unfold quoted. cbn [String.length]. rewrite append_length. simpl. lia. Qed.

Lemma items_text_length (text : string) (values : list string) :
  items_text text values -> List.length values <= String.length text.
Proof.
  intros H. induction H as [body value blanks _ _
                           | body value before after rest values _ _ _ _ IH].
  - rewrite append_length. pose proof (quoted_length body). simpl. lia.
  - rewrite !append_length. cbn [String.length List.length].
    rewrite append_length. pose proof (quoted_length body). lia.
Qed.

(** The decoder reads the items in order. *)
Lemma array_items_text (f : nat) (text : string) (values : list string) :
  items_text text values ->
  forall (n : nat) (rest : string),
    List.length values <= n ->
    Json.array_items (Json.scan_once (S f)) n (text ++ String "]" rest)
    = Json.Scanned (map PStr values) rest.
Proof.
  intros H. induction H as [body value blanks Hb Hw
                           | body value before after more values Hb Hw1 Hw2 Hm IH];
    intros n rest Hn; (destruct n as [|n]; [simpl in Hn; lia|]).
  - rewrite append_assoc. cbn [Json.array_items].
    rewrite (scan_once_quoted f body value _ Hb).
    rewrite (skip_ws_blank blanks _ Hw).
    reflexivity.
  - rewrite !append_assoc. cbn [Json.array_items].
    rewrite (scan_once_quoted f body value _ Hb).
    rewrite (skip_ws_blank before _ Hw1).
    cbn [append].
    change (Json.skip_ws (String "," ((after ++ more) ++ String "]" rest)))
      with (String "," ((after ++ more) ++ String "]" rest)).
    change (Ascii.eqb "," "]") with false.
    change (Ascii.eqb "," ",") with true. cbv iota.
    rewrite append_assoc, (skip_ws_blank after _ Hw2).
    rewrite (skip_ws_items_text more values _ Hm).
    rewrite (IH n rest); [reflexivity | simpl in Hn; lia].
Qed.

(** The decoder reads every JSON text of a list of strings as that list. *)
Lemma loads_string_list_text (text : string) (values : list string) :
  string_list_text text values ->
  Json.loads text = Returned (PList (map PStr values)).
Proof.
  intros H. unfold Json.loads.
  destruct H as [before inside after H1 H2 H3
                | before inside after items values H1 H2 H3 Hi].
  - rewrite (blank_not_bom before "[" _ H1 eq_refl).
    rewrite (skip_ws_blank before _ H1).
    change (Json.skip_ws (String "[" (inside ++ String "]" after)))
      with (String "[" (inside ++ String "]" after)).
    cbn [Json.scan_once].
    change (Ascii.eqb "[" Json.dquote) with false.
    change (Ascii.eqb "[" "{") with false.
    change (Ascii.eqb "[" "[") with true. cbv iota.
    rewrite (skip_ws_blank inside _ H2).
    change (Json.skip_ws (String "]" after)) with (String "]" after).
    cbv iota. change (Ascii.eqb "]" "]") with true. cbv iota.
    pose proof (skip_ws_blank after "" H3) as E.
    rewrite append_empty_r in E. rewrite E. reflexivity.
  - assert (Hlen : List.length values
                   < String.length (before ++ String "[" (inside ++ items ++ String "]" after))).
    { pose proof (items_text_length items values Hi) as L.
      rewrite append_length. cbn [String.length]. rewrite !append_length. lia. }
    remember (String.length (before ++ String "[" (inside ++ items ++ String "]" after)))
      as n eqn:Hn. clear Hn.
    rewrite (blank_not_bom before "[" _ H1 eq_refl).
    rewrite (skip_ws_blank before _ H1).
    change (Json.skip_ws (String "[" (inside ++ items ++ String "]" after)))
      with (String "[" (inside ++ items ++ String "]" after)).
    cbn [Json.scan_once].
    change (Ascii.eqb "[" Json.dquote) with false.
    change (Ascii.eqb "[" "{") with false.
    change (Ascii.eqb "[" "[") with true. cbv iota.
    rewrite (skip_ws_blank inside _ H2).
    rewrite (skip_ws_items_text items values _ Hi).
    destruct (items_text_starts_with_quote items values (String "]" after) Hi) as [t Q].
    rewrite Q.
    change (Ascii.eqb Json.dquote "]") with false. cbv iota.
    rewrite <- Q.
    destruct n as [|n]; [lia|].
    rewrite (array_items_text n items values Hi (S n) after); [|lia].
    unfold Json.smap.
    pose proof (skip_ws_blank after "" H3) as E.
    rewrite append_empty_r in E. rewrite E. reflexivity.
Qed.

Lemma control_not_low_surrogate (c : ascii) :
  Json.is_low_surrogate (N_of_ascii c) = false.
Proof.
  unfold Json.is_low_surrogate. pose proof (N_ascii_bounded c) as H.
  apply andb_false_iff. left. apply N.leb_gt. lia.
Qed.

(** The written text of a list of strings is one of its JSON texts. *)
Lemma escape_body (s : string) : string_body (escape s) s.
Proof.
  induction s as [|c s IH]; [constructor|].
  cbn [escape]. unfold escape_char.
  destruct (Ascii.eqb c Json.dquote) eqn:H1.
  { apply Ascii.eqb_eq in H1. subst c. cbn [append].
    exact (body_escape Json.dquote Json.dquote _ _ eq_refl IH). }
  destruct (Ascii.eqb c Json.backslash) eqn:H2.
  { apply Ascii.eqb_eq in H2. subst c. cbn [append].
    exact (body_escape Json.backslash Json.backslash _ _ eq_refl IH). }
  destruct (nat_of_ascii c <? 32)%nat eqn:H3; cbn [append].
  - pose proof (body_unicode _ _ _ _ _ _ _ (control_hex c H3)
                  (control_not_surrogate c) (control_not_low_surrogate c) IH) as B.
    rewrite (control_utf8 c H3) in B. exact B.
  - exact (body_char c _ _ H1 H2 H3 IH).
Qed.

Lemma join_items_text (q : string) (qs : list string) :
  items_text (join_items (map quote (q :: qs))) (q :: qs).
Proof.
  revert q. induction qs as [|q' qs IH]; intros q.
  - cbn [map join_items].
    pose proof (items_last (escape q) q "" (escape_body q) eq_refl) as H.
    rewrite append_empty_r in H. exact H.
  - change (join_items (map quote (q :: q' :: qs)))
      with (quote q ++ ", " ++ join_items (map quote (q' :: qs))).
    exact (items_more (escape q) q "" " " _ _ (escape_body q) eq_refl eq_refl (IH q')).
Qed.

Lemma json_array_text_valid (qs : list string) :
  string_list_text (json_array_text qs) qs.
Proof.
  unfold json_array_text. destruct qs as [|q qs].
  - exact (list_text_empty "" "" "" eq_refl eq_refl eq_refl).
  - exact (list_text_items "" "" "" _ _ eq_refl eq_refl eq_refl (join_items_text q qs)).
Qed.

(** The indented file is a JSON text of the list of [Q1] and [Q2]. *)
Lemma indented_questions_text_valid :
  string_list_text indented_questions_text ["Q1"; "Q2"].
Proof.
  assert (plain : forall c text value,
             (negb (Ascii.eqb c Json.dquote) && negb (Ascii.eqb c Json.backslash)
                && negb (nat_of_ascii c <? 32)%nat)%bool = true ->
             string_body text value -> string_body (String c text) (String c value)).
  { intros c text value H B.
    apply andb_true_iff in H. destruct H as [H H3].
    apply andb_true_iff in H. destruct H as [H1 H2].
    apply negb_true_iff in H1, H2, H3.
    exact (body_char c text value H1 H2 H3 B). }
  assert (Q1 : string_body "Q1" "Q1").
  { exact (plain "Q"%char "1" "1" eq_refl (plain "1"%char "" "" eq_refl body_end)). }
  assert (Q2 : string_body "Q\u0032" "Q2").
  { exact (plain "Q"%char "\u0032" "2" eq_refl
             (body_unicode "0" "0" "3" "2" 50 "" "" eq_refl eq_refl eq_refl body_end)). }
  exact (list_text_items "" (String LF "  ") (String LF "") _ _
           eq_refl eq_refl eq_refl
           (items_more "Q1" "Q1" "" (String LF "  ") _ _ Q1 eq_refl eq_refl
              (items_last "Q\u0032" "Q2" (String LF "") Q2 eq_refl))).
Qed.

(** ** Shapes of the renderers' results *)

Lemma returned_output {G : Type} (r : outcome string * G) (x : string) (g : G) :
  r = (Returned x, g) -> r = (Returned (output r), g).
Proof. intros ->. reflexivity. Qed.

Lemma single_slot_parse (name template : string) :
  compiles_with_field name template = true ->
  has_single_slot template = true ->
  parse_fstring template =
  Returned [Literal (slot_prefix template); Replacement name;
            Literal (slot_suffix template)].
Proof.
  unfold compiles_with_field, has_single_slot, slot_prefix, slot_suffix, parts_of.
  destruct (parse_fstring template) as [parts| |]; try discriminate.
  destruct parts as [|[pre|] [|[|n] [|[post|] [|]]]]; try discriminate.
  simpl. rewrite andb_true_r. intros H _.
  apply String.eqb_eq in H. subst n. reflexivity.
Qed.

Lemma single_slot_render (name template v : string) (g : Globals.t) :
  compiles_with_field name template = true ->
  has_single_slot template = true ->
  (prompt <- fstring template [(name, PStr v)] ;; ret prompt) g =
  (Returned (slot_prefix template ++ v ++ slot_suffix template), g).
Proof.
  intros Hc Hs. rewrite (render_only_field _ _ _ _ Hc).
  rewrite (substitute_single_slot _ _ Hs). reflexivity.
Qed.

Lemma endswith_app (suffix s : string) :
  endswith suffix s = true -> exists head, s = head ++ suffix.
Proof.
  induction s as [|c s IH]; simpl; intros H;
    apply orb_true_iff in H; destruct H as [H|H].
  - apply String.eqb_eq in H. subst. now exists "".
  - discriminate.
  - apply String.eqb_eq in H. subst. now exists "".
  - destruct (IH H) as [head E]. exists (String c head). simpl. now rewrite <- E.
Qed.

Lemma question_format_fills_slot (question : string) (g : Globals.t) :
  question_format question g =
  (Returned (slot_prefix question_format_template ++ question
             ++ slot_suffix question_format_template), g).
Proof.
  unfold question_format.
  exact (single_slot_render "question" question_format_template question g
           question_format_compiles question_format_one_slot).
Qed.

Lemma validation_format_fills_slot (report : string) (g : Globals.t) :
  validation_format report g =
  (Returned (slot_prefix validation_format_template ++ report
             ++ slot_suffix validation_format_template), g).
Proof.
  unfold validation_format.
  exact (single_slot_render "report" validation_format_template report g
           validation_format_compiles validation_format_one_slot).
Qed.

Lemma question_format_slot_label :
  endswith "**Security Question (scope for this run):** "
    (slot_prefix question_format_template) = true.
Proof. vm_compute. reflexivity. Qed.

Lemma validation_format_slot_label :
  endswith ("**SECURITY CLAIM TO VALIDATE:**" ++ String LF "")
    (slot_prefix validation_format_template) = true.
Proof. vm_compute. reflexivity. Qed.

Lemma sentinel_after_slot :
  str_in no_vulnerability_sentinel (slot_suffix question_format_template) = true.
Proof. vm_compute. reflexivity. Qed.

Lemma question_generator_field_count :
  count_fields (parts_of question_generator_template) = 15.
Proof. vm_compute. reflexivity. Qed.

Lemma twice_same {A : Type} (m : py A) (a : A) (g : Globals.t) :
  (forall g', m g' = (Returned a, g')) ->
  (o1 <- m ;; o2 <- m ;; ret (o1, o2)) g = (Returned (a, a), g).
Proof. intros H. unfold bind. rewrite !H. reflexivity. Qed.

Lemma run_call_returns (c : call) (g : Globals.t) :
  exists out, run_call c g = (Returned out, g).
Proof.
  destruct c as [q|r|t]; unfold run_call.
  - exists (substitute q (parts_of question_format_template)).
    exact (question_format_returns q g).
  - exists (substitute r (parts_of validation_format_template)).
    exact (validation_format_returns r g).
  - exists (substitute t (parts_of question_generator_template)).
    exact (question_generator_returns t g).
Qed.

Lemma run_calls_returns (cs : list call) (g : Globals.t) :
  exists outs,
    run_calls cs g = (Returned outs, g) /\ List.length outs = List.length cs.
Proof.
  induction cs as [|c rest IH].
  - exists []. split; reflexivity.
  - destruct (run_call_returns c g) as [out Hc].
    destruct IH as [outs [Hrest Hlen]].
    exists (out :: outs). split.
    + cbn [run_calls]. unfold bind. rewrite Hc, Hrest. reflexivity.
    + simpl. now rewrite Hlen.
Qed.

(** ** The catalog *)

Lemma distinct_NoDup (l : list string) : distinct l = true -> NoDup l.
Proof.
  induction l as [|x rest IH]; simpl; intros H; [constructor|].
  apply andb_true_iff in H. destruct H as [Hx Hrest].
  constructor; [|exact (IH Hrest)].
  intros Hin. apply negb_true_iff in Hx.
  assert (E : existsb (String.eqb x) rest = true).
  { apply existsb_exists. exists x. split; [exact Hin | apply String.eqb_refl]. }
  rewrite E in Hx. discriminate.
Qed.

Lemma iterate_from_suffix {A : Type} (before after : list A) :
  iterate_from (List.length after) (List.length before) (before ++ after) = after.
Proof.
  revert before. induction after as [|x after IH]; intros before; [reflexivity|].
  cbn [List.length iterate_from].
  rewrite nth_error_app2 by lia. rewrite Nat.sub_diag. cbn [nth_error].
  f_equal.
  specialize (IH (before ++ [x])%list).
  rewrite <- app_assoc, length_app in IH. cbn [List.length app] in IH.
  rewrite Nat.add_1_r in IH. exact IH.
Qed.

Lemma iterate_all {A : Type} (l : list A) : iterate l = l.
Proof. exact (iterate_from_suffix [] l). Qed.

(** ** The loader *)

Lemma get_questions_returns (fs : file_system) :
  exists v, get_questions fs = Returned v.
Proof.
  unfold get_questions, json_load, read_text.
  destruct (fs "all_questions.json") as [| | |content]; simpl;
    try (now exists (PList [])).
  pose proof (loads_answers content) as H.
  destruct (Json.loads content) as [v|e|]; simpl.
  - now exists v.
  - now exists (PList []).
  - contradiction.
Qed.

(** * The claims *)

(** C1 (evaluation at a failing input).  The claim asks the question
    generation prompt to contain every identifier of the subject catalog
    verbatim.  For the target file [byteball/ocore/validation.js] the call
    returns, and fifteen of the seventy-seven catalog identifiers do not
    occur in what it returns: the file list written into the template and the
    catalog differ by a blank before [js] in those entries. *)
Theorem question_generator_misses_catalog_entries :
  exists out : string,
    question_generator "byteball/ocore/validation.js" fresh_globals
      = (Returned out, fresh_globals)
    /\ missing_from out questions_generator =
       ["byteball/ocore/archiving. js"; "byteball/ocore/chash. js";
        "byteball/ocore/conf. js"; "byteball/ocore/event_bus. js";
        "byteball/ocore/joint_storage. js"; "byteball/ocore/light.js";
        "byteball/ocore/merkle.js"; "byteball/ocore/mysql_pool. js";
        "byteball/ocore/private_profile. js"; "byteball/ocore/signature.js";
        "byteball/ocore/sqlite_migrations. js"; "byteball/ocore/uri. js";
        "byteball/ocore/formula/evaluation. js"; "byteball/ocore/formula/index. js";
        "byteball/ocore/tools/supply.js"].
Proof.
  exists (output (question_generator "byteball/ocore/validation.js" fresh_globals)).
  split.
  - exact (returned_output _ _ _
             (question_generator_returns "byteball/ocore/validation.js" fresh_globals)).
  - vm_compute. reflexivity.
Qed.

(** C2 (counterexample).  A question file that holds valid JSON which is not
    a sequence of strings does not make the loader return the empty list:
    for the text [[1, 2]] it returns the list of the two integers, and for
    the text [42] it returns the integer, which is no sequence at all. *)
Lemma get_questions_keeps_other_json :
  Json.loads "[1, 2]" = Returned (PList [PInt 1; PInt 2])
  /\ is_str_list (PList [PInt 1; PInt 2]) = false
  /\ get_questions (question_file "[1, 2]") = Returned (PList [PInt 1; PInt 2])
  /\ get_questions (question_file "42") = Returned (PInt 42).
Proof. repeat split; vm_compute; reflexivity. Qed.

(** C2 (amended).  Whatever the state of [all_questions.json], the loader
    returns a value and raises nothing.  It returns the empty list when the
    file is missing, cannot be read, is no text, or holds a text outside the
    grammar of [json.load].  For the rest the loader follows [json.load],
    whatever that call does with the text: it returns the empty list when
    the call raises (also at a limit of the interpreter, with
    [RecursionError] or [ValueError]), and when the call returns a value it
    returns that value as it is, of whatever shape. *)
Theorem get_questions_fail_open :
  forall fs : file_system,
    (exists v, get_questions fs = Returned v)
    /\ (fs "all_questions.json" = Missing \/ fs "all_questions.json" = Unreadable
        \/ fs "all_questions.json" = Undecodable ->
        get_questions fs = Returned (PList []))
    /\ (forall content e,
          fs "all_questions.json" = Text content ->
          Json.loads content = Raised e ->
          get_questions fs = Returned (PList []))
    /\ get_questions fs = get_questions_with Json.loads fs
    /\ forall load : string -> outcome pyval,
         (forall e, get_questions_with load fs <> Raised e)
         /\ (fs "all_questions.json" = Missing \/ fs "all_questions.json" = Unreadable
             \/ fs "all_questions.json" = Undecodable ->
             get_questions_with load fs = Returned (PList []))
         /\ (forall content e,
               fs "all_questions.json" = Text content ->
               load content = Raised e ->
               get_questions_with load fs = Returned (PList []))
         /\ (forall content v,
               fs "all_questions.json" = Text content ->
               load content = Returned v ->
               get_questions_with load fs = Returned v).
Proof.
  intros fs. split; [exact (get_questions_returns fs)|].
  split; [|split; [|split; [reflexivity|]]].
  - unfold get_questions, json_load, read_text.
    intros [H|[H|H]]; rewrite H; reflexivity.
  - unfold get_questions, json_load, read_text.
    intros content e H E. rewrite H. simpl. rewrite E. reflexivity.
  - intros load. unfold get_questions_with, json_load_with, read_text.
    split; [|split; [|split]].
    + intros e.
      destruct (fs "all_questions.json") as [| | |content]; simpl;
        try discriminate.
      destruct (load content) as [v|e'|]; simpl; discriminate.
    + intros [H|[H|H]]; rewrite H; reflexivity.
    + intros content e H E. rewrite H. simpl. rewrite E. reflexivity.
    + intros content v H E. rewrite H. simpl. rewrite E. reflexivity.
Qed.

(** C3.  If the text of [all_questions.json] is a JSON array of strings
    (told from the text alone: brackets, quoted items with their escapes,
    commas, blanks) that denotes the sequence [qs], the loader returns a
    list of the same length whose item at every index is the string of [qs]
    at that index. *)
Theorem get_questions_valid_sequence :
  forall (fs : file_system) (content : string) (qs : list string),
    fs "all_questions.json" = Text content ->
    string_list_text content qs ->
    exists items : list pyval,
      get_questions fs = Returned (PList items)
      /\ List.length items = List.length qs
      /\ forall i, nth_error items i = option_map PStr (nth_error qs i).
Proof.
  intros fs content qs H V. exists (map PStr qs). split; [|split].
  - unfold get_questions, json_load, read_text. rewrite H. simpl.
    rewrite (loads_string_list_text content qs V). reflexivity.
  - apply length_map.
  - intros i. apply nth_error_map.
Qed.

(** C3 (witness): the file holding [["Q1", "Q2"]]. *)
Lemma get_questions_valid_sequence_witness :
  question_file two_questions_text "all_questions.json" = Text two_questions_text
  /\ string_list_text two_questions_text ["Q1"; "Q2"]
  /\ exists items : list pyval,
       get_questions (question_file two_questions_text) = Returned (PList items)
       /\ List.length items = 2
       /\ forall i, nth_error items i = option_map PStr (nth_error ["Q1"; "Q2"] i).
Proof.
  split; [reflexivity|].
  split; [exact (json_array_text_valid ["Q1"; "Q2"])|].
  apply (get_questions_valid_sequence
           (question_file two_questions_text) two_questions_text ["Q1"; "Q2"]).
  - reflexivity.
  - exact (json_array_text_valid ["Q1"; "Q2"]).
Defined.

(** C4 (counterexample).  The finding prompt for the question [Obyte]
    contains that string at five places, not once: the scaffold text names
    the protocol four times outside the slot. *)
Lemma question_format_repeats_scaffold_word :
  exists out : string,
    question_format "Obyte" fresh_globals = (Returned out, fresh_globals)
    /\ List.length (find_all "Obyte" out) = 5.
Proof.
  exists (output (question_format "Obyte" fresh_globals)). split.
  - exact (returned_output _ _ _ (question_format_returns "Obyte" fresh_globals)).
  - vm_compute. reflexivity.
Qed.

(** C4 (amended).  The template of the finding prompt compiles into a fixed
    text, one replacement field named [question], and a fixed text; the
    first text ends with the label of the slot.  For every string [s] the
    renderer returns the first text, then [s] verbatim, then the second
    text, so the output outside the slot is the same for every input. *)
Theorem question_format_scaffold :
  exists pre post : string,
    parse_fstring question_format_template
      = Returned [Literal pre; Replacement "question"; Literal post]
    /\ (exists head, pre = head ++ "**Security Question (scope for this run):** ")
    /\ forall (s : string) (g : Globals.t),
         question_format s g = (Returned (pre ++ s ++ post), g).
Proof.
  exists (slot_prefix question_format_template), (slot_suffix question_format_template).
  split; [|split].
  - exact (single_slot_parse "question" question_format_template
             question_format_compiles question_format_one_slot).
  - exact (endswith_app _ _ question_format_slot_label).
  - exact question_format_fills_slot.
Qed.

(** C5.  For every string [s] the finding prompt contains [s] and contains
    the sentence [#NoVulnerability found for this question.]; in particular
    so does the prompt for [Can MCI ever decrease along a path?]. *)
Theorem question_format_has_sentinel :
  (forall (s : string) (g : Globals.t), exists out : string,
      question_format s g = (Returned out, g)
      /\ str_in s out = true
      /\ str_in no_vulnerability_sentinel out = true)
  /\ (forall g : Globals.t, exists out : string,
      question_format "Can MCI ever decrease along a path?" g = (Returned out, g)
      /\ str_in "Can MCI ever decrease along a path?" out = true
      /\ str_in "#NoVulnerability found for this question." out = true).
Proof.
  assert (general : forall (s : string) (g : Globals.t), exists out : string,
      question_format s g = (Returned out, g)
      /\ str_in s out = true
      /\ str_in no_vulnerability_sentinel out = true).
  { intros s g.
    exists (slot_prefix question_format_template ++ s
            ++ slot_suffix question_format_template).
    split; [exact (question_format_fills_slot s g)|]. split.
    - exact (str_in_middle s _ _).
    - exact (str_in_app_r _ _ _ (str_in_app_r _ _ _ sentinel_after_slot)). }
  split; [exact general|].
  intros g. exact (general "Can MCI ever decrease along a path?" g).
Qed.

(** C6.  The template of the validation prompt compiles into a fixed text,
    one replacement field named [report], and a fixed text; the first text
    ends with the line that labels the slot.  For every report the renderer
    returns the first text, then the report verbatim, then the second text:
    the output outside the slot is the same for every report. *)
Theorem validation_format_scaffold :
  exists pre post : string,
    parse_fstring validation_format_template
      = Returned [Literal pre; Replacement "report"; Literal post]
    /\ (exists head, pre = head ++ "**SECURITY CLAIM TO VALIDATE:**" ++ String LF "")
    /\ forall (report : string) (g : Globals.t),
         validation_format report g = (Returned (pre ++ report ++ post), g).
Proof.
  exists (slot_prefix validation_format_template),
         (slot_suffix validation_format_template).
  split; [|split].
  - exact (single_slot_parse "report" validation_format_template
             validation_format_compiles validation_format_one_slot).
  - exact (endswith_app _ _ validation_format_slot_label).
  - exact validation_format_fills_slot.
Qed.

(** C7.  For every string [s] and every module state the validation
    renderer returns a string and raises nothing; it returns the same
    string from every other state, and two calls in a row return that
    string twice. *)
Theorem validation_format_total_deterministic :
  forall (s : string) (g : Globals.t), exists out : string,
    validation_format s g = (Returned out, g)
    /\ (forall g', validation_format s g' = (Returned out, g'))
    /\ (o1 <- validation_format s ;; o2 <- validation_format s ;; ret (o1, o2)) g
       = (Returned (out, out), g).
Proof.
  intros s g. exists (substitute s (parts_of validation_format_template)).
  split; [exact (validation_format_returns s g)|]. split.
  - exact (validation_format_returns s).
  - exact (twice_same (validation_format s) _ g (validation_format_returns s)).
Qed.

(** C8.  The subject catalog holds seventy-seven identifiers, no identifier
    twice; enumerating it yields the identifiers in the declared order, from
    [byteball/ocore/aa_addresses.js] to [byteball/ocore/tools/viewkv.js],
    and the imported module binds [questions_generator] to that list,
    whatever the file system. *)
Theorem questions_generator_distinct_ordered :
  NoDup questions_generator
  /\ List.length questions_generator = 77
  /\ iterate questions_generator = questions_generator
  /\ hd_error (iterate questions_generator) = Some "byteball/ocore/aa_addresses.js"
  /\ last (iterate questions_generator) "" = "byteball/ocore/tools/viewkv.js"
  /\ forall fs : file_system, exists g : Globals.t,
       import_module fs = Returned g
       /\ Globals.questions_generator g = PList (map PStr questions_generator).
Proof.
  split; [|split; [|split; [|split; [|split]]]].
  - apply distinct_NoDup. vm_compute. reflexivity.
  - reflexivity.
  - apply iterate_all.
  - rewrite iterate_all. reflexivity.
  - rewrite iterate_all. reflexivity.
  - intros fs. destruct (get_questions_returns fs) as [qs E].
    exists (Globals.mk BASE_URL qs (PList (map PStr questions_generator))).
    unfold import_module, questions. rewrite E. split; reflexivity.
Qed.

(** C9.  For every input string and any two values of the module-level
    question collection, each of the three renderers returns the same
    string under both. *)
Theorem renderers_ignore_questions :
  forall (s : string) (g : Globals.t) (qs1 qs2 : pyval),
    (exists out,
        question_format s (with_questions qs1 g) = (Returned out, with_questions qs1 g)
        /\ question_format s (with_questions qs2 g) = (Returned out, with_questions qs2 g))
    /\ (exists out,
        validation_format s (with_questions qs1 g) = (Returned out, with_questions qs1 g)
        /\ validation_format s (with_questions qs2 g) = (Returned out, with_questions qs2 g))
    /\ (exists out,
        question_generator s (with_questions qs1 g) = (Returned out, with_questions qs1 g)
        /\ question_generator s (with_questions qs2 g) = (Returned out, with_questions qs2 g)).
Proof.
  intros s g qs1 qs2. split; [|split].
  - exists (substitute s (parts_of question_format_template)).
    split; exact (question_format_returns s _).
  - exists (substitute s (parts_of validation_format_template)).
    split; exact (validation_format_returns s _).
  - exists (substitute s (parts_of question_generator_template)).
    split; exact (question_generator_returns s _).
Qed.

(** C10.  Any sequence of renderer calls, with any arguments, returns one
    string per call and leaves the module state as it was: [BASE_URL], the
    question collection and the catalog are the same after as before. *)
Theorem renderers_leave_globals :
  forall (cs : list call) (g : Globals.t), exists outs : list string,
    run_calls cs g = (Returned outs, g)
    /\ List.length outs = List.length cs
    /\ Globals.BASE_URL (snd (run_calls cs g)) = Globals.BASE_URL g
    /\ Globals.questions (snd (run_calls cs g)) = Globals.questions g
    /\ Globals.questions_generator (snd (run_calls cs g)) = Globals.questions_generator g.
Proof.
  intros cs g. destruct (run_calls_returns cs g) as [outs [H Hlen]].
  exists outs. rewrite H. simpl. repeat split; assumption.
Qed.

(** * Further properties *)

(** The question generation prompt has fifteen replacement fields, all of
    them [target_file], and the renderer returns the template's text with
    the target file in each of them. *)
Theorem question_generator_fills_every_field :
  exists parts : list fpart,
    parse_fstring question_generator_template = Returned parts
    /\ only_field "target_file" parts = true
    /\ count_fields parts = 15
    /\ forall (t : string) (g : Globals.t),
         question_generator t g = (Returned (substitute t parts), g).
Proof.
  exists (parts_of question_generator_template).
  split; [exact (compiles_parse _ _ question_generator_compiles)|].
  split; [exact (compiles_only_field _ _ question_generator_compiles)|].
  split; [exact question_generator_field_count|].
  exact question_generator_returns.
Qed.

(** Whatever list of strings is written to [all_questions.json] as JSON
    text, the loader returns that list. *)
Theorem get_questions_reads_written_list :
  forall qs : list string,
    get_questions (question_file (json_array_text qs))
    = Returned (PList (map PStr qs)).
Proof.
  intros qs. unfold get_questions, json_load, read_text, question_file.
  rewrite String.eqb_refl. cbn [obind].
  rewrite loads_json_array_text. reflexivity.
Qed.

(** Where the question file is absent, or empty, the loader returns the
    empty list. *)
Theorem get_questions_absent_or_empty :
  get_questions no_files = Returned (PList [])
  /\ get_questions (question_file "") = Returned (PList []).
Proof. split; vm_compute; reflexivity. Qed.

(** The decoder on sample texts: blanks around values, numbers, escapes in
    strings, an escaped surrogate pair, a repeated key, and texts it
    refuses. *)
Example loads_samples :
  Json.loads " [ -0.5e3 , null, true, 17 ] "
    = Returned (PList [PFloat "-0.5e3"; PNone; PBool true; PInt 17])
  /\ Json.loads (dq ++ "aé\n" ++ dq) = Returned (PStr ("aé" ++ String LF ""))
  /\ Json.loads (dq ++ "\ud83d\ude00 \u00e9" ++ dq) = Returned (PStr "😀 é")
  /\ Json.loads ("{" ++ dq ++ "a" ++ dq ++ ": 1, " ++ dq ++ "b" ++ dq ++ ": [], "
                 ++ dq ++ "a" ++ dq ++ ": 3}")
     = Returned (PDict [("a", PInt 3); ("b", PList [])])
  /\ Json.loads "[1,]" = Raised JSONDecodeError
  /\ Json.loads "01" = Raised JSONDecodeError
  /\ Json.loads "[1, 2" = Raised JSONDecodeError
  /\ Json.loads (dq ++ "open") = Raised JSONDecodeError.
Proof. repeat split; vm_compute; reflexivity. Qed.

(** * The loader on blank, padded and truncated files *)

(** ** A list text cut short *)

Lemma cons_eq_app (c : ascii) (s p r : string) :
  String c s = p ++ r ->
  (p = "" /\ r = String c s) \/ exists p', p = String c p' /\ s = p' ++ r.
Proof.
  destruct p as [|x p]; simpl; intros H.
  - left. split; [reflexivity | now symmetry].
  - right. injection H as -> H. now exists p.
Qed.

Lemma app_eq_app (p r a b : string) :
  p ++ r = a ++ b ->
  (exists x, a = p ++ x /\ r = x ++ b) \/ (exists y, p = a ++ y /\ b = y ++ r).
Proof.
  revert a. induction p as [|c p IH]; intros a H.
  - left. exists a. split; [reflexivity | exact H].
  - destruct a as [|d a].
    + right. exists (String c p). split; [reflexivity | now symmetry].
    + simpl in H. injection H as -> H.
      destruct (IH a H) as [[x [E1 E2]]|[y [E1 E2]]].
      * left. exists x. split; [simpl; now rewrite E1 | exact E2].
      * right. exists y. split; [simpl; now rewrite E1 | exact E2].
Qed.

Lemma not_scanned_smap {A B : Type} (f : A -> B) (m : Json.scan A) :
  not_scanned m -> not_scanned (Json.smap f m).
Proof. destruct m; simpl; auto. Qed.

Lemma scanstring_empty : Json.scanstring "" = Json.Malformed.
Proof. reflexivity. Qed.

(** A string body cut inside one written character is refused. *)
Lemma scanstring_cut_char (c : ascii) (e r : string) :
  escape_char c = e ++ r -> Json.scanstring e = Json.Malformed.
Proof.
  intros H.
  destruct r as [|x r'].
  { rewrite append_empty_r in H. subst e.
    pose proof (scanstring_escape_char c "") as E.
    rewrite append_empty_r in E. rewrite E. reflexivity. }
  revert H. unfold escape_char.
  destruct (Ascii.eqb c Json.dquote) eqn:H1;
    [|destruct (Ascii.eqb c Json.backslash) eqn:H2;
      [|destruct (nat_of_ascii c <? 32)%nat eqn:H3]];
    intros H;
    repeat match goal with
    | H : String _ _ = ?p ++ _ |- _ =>
      apply cons_eq_app in H; destruct H as [[-> _]|[? [-> H]]]; [reflexivity|]
    | H : EmptyString = ?p ++ String _ _ |- _ =>
      destruct p; discriminate H
    end.
Qed.

(** A string body cut before its closing quote is refused. *)
Lemma scanstring_cut (q e r : string) :
  escape q = e ++ r -> Json.scanstring e = Json.Malformed.
Proof.
  revert e. induction q as [|c q IH]; intros e H.
  - destruct e; [reflexivity | discriminate H].
  - cbn [escape] in H. symmetry in H.
    destruct (app_eq_app _ _ _ _ H) as [[x [E1 E2]]|[y [E1 E2]]].
    + exact (scanstring_cut_char c e x E1).
    + subst e. rewrite scanstring_escape_char, (IH y E2). reflexivity.
Qed.

Lemma scan_once_cut_quote (f : nat) (q p x : string) :
  x <> "" -> quote q = p ++ x ->
  not_scanned (Json.scan_once (S f) (Json.skip_ws p)).
Proof.
  intros Hx H. unfold quote in H.
  apply cons_eq_app in H. destruct H as [[-> _]|[e [-> H]]]; [exact I|].
  change (Json.skip_ws (String Json.dquote e)) with (String Json.dquote e).
  cbn [Json.scan_once].
  change (Ascii.eqb Json.dquote Json.dquote) with true. cbv iota.
  symmetry in H.
  destruct (app_eq_app _ _ _ _ H) as [[y [E1 E2]]|[y [E1 E2]]].
  - rewrite (scanstring_cut q e y E1). exact I.
  - apply cons_eq_app in E2. destruct E2 as [[-> _]|[y' [-> E2]]].
    + rewrite append_empty_r in E1. subst e.
      rewrite (scanstring_cut q (escape q) "" (eq_sym (append_empty_r _))). exact I.
    + destruct y'; [|discriminate E2]. simpl in E2. subst x. contradiction.
Qed.

Lemma skip_ws_quote_app (q rest : string) :
  Json.skip_ws (quote q ++ rest) = quote q ++ rest.
Proof. reflexivity. Qed.

Lemma skip_ws_quote_text (q : string) :
  Json.skip_ws (quote q) = quote q ++ "".
Proof. rewrite append_empty_r. reflexivity. Qed.

(** The items of a written list, cut anywhere before the end, do not read
    back. *)
Lemma array_items_cut (f : nat) (qs : list string) :
  forall (q : string) (n : nat) (p r : string),
    r <> "" ->
    p ++ r = join_items (map quote (q :: qs)) ++ "]" ->
    not_scanned (Json.array_items (Json.scan_once (S f)) n (Json.skip_ws p)).
Proof.
  induction qs as [|q' qs IH]; intros q n p r Hr H;
    (destruct n as [|n]; [exact I|]); cbn [Json.array_items].
  - cbn [map join_items] in H.
    destruct (app_eq_app _ _ _ _ H) as [[x [E1 E2]]|[y [E1 E2]]].
    + destruct x as [|c x].
      * rewrite append_empty_r in E1. subst p. simpl in E2. subst r.
        rewrite skip_ws_quote_text, (scan_once_quote f q "").
        reflexivity.
      * pose proof (scan_once_cut_quote f q p (String c x) ltac:(discriminate) E1) as N.
        destruct (Json.scan_once (S f) (Json.skip_ws p)); [contradiction | exact I | exact I].
    + apply cons_eq_app in E2. destruct E2 as [[-> _]|[y' [-> E2]]].
      * rewrite append_empty_r in E1. subst p.
        rewrite skip_ws_quote_text, (scan_once_quote f q ""). reflexivity.
      * destruct y'; [|discriminate E2]. simpl in E2. subst r. contradiction.
  - change (join_items (map quote (q :: q' :: qs)))
      with (quote q ++ ", " ++ join_items (map quote (q' :: qs))) in H.
    rewrite !append_assoc in H.
    destruct (app_eq_app _ _ _ _ H) as [[x [E1 E2]]|[y [E1 E2]]].
    + destruct x as [|c x].
      * rewrite append_empty_r in E1. subst p.
        rewrite skip_ws_quote_text, (scan_once_quote f q ""). reflexivity.
      * pose proof (scan_once_cut_quote f q p (String c x) ltac:(discriminate) E1) as N.
        destruct (Json.scan_once (S f) (Json.skip_ws p)); [contradiction | exact I | exact I].
    + subst p. rewrite skip_ws_quote_app, scan_once_quote.
      cbn [append] in E2.
      apply cons_eq_app in E2. destruct E2 as [[-> _]|[y1 [-> E2]]]; [exact I|].
      change (Json.skip_ws (String "," y1)) with (String "," y1).
      change (Ascii.eqb "," "]") with false.
      change (Ascii.eqb "," ",") with true. cbv iota.
      apply not_scanned_smap.
      apply cons_eq_app in E2. destruct E2 as [[-> _]|[y2 [-> E2]]].
      * destruct n as [|n]; exact I.
      * change (Json.skip_ws (String " " y2)) with (Json.skip_ws y2).
        exact (IH q' n y2 r Hr (eq_sym E2)).
Qed.

(** The decoder refuses every text that is a written list cut short. *)
Lemma loads_cut (qs : list string) (p r : string) :
  r <> "" ->
  p ++ r = json_array_text qs ->
  Json.loads p = Raised JSONDecodeError.
Proof.
  intros Hr H. unfold json_array_text in H. cbn [append] in H. symmetry in H.
  apply cons_eq_app in H. destruct H as [[-> _]|[p' [-> H]]]; [reflexivity|].
  unfold Json.loads.
  change (startswith Json.BOM (String "[" p')) with false. cbv iota.
  change (Json.skip_ws (String "[" p')) with (String "[" p').
  remember (String.length (String "[" p')) as F eqn:HF.
  cbn [String.length] in HF.
  cbn [Json.scan_once].
  change (Ascii.eqb "[" Json.dquote) with false.
  change (Ascii.eqb "[" "{") with false.
  change (Ascii.eqb "[" "[") with true. cbv iota.
  destruct p' as [|c p''].
  { reflexivity. }
  assert (Hq : exists q qs', qs = q :: qs').
  { destruct qs as [|q qs']; [|now exists q, qs'].
    cbn [map join_items append] in H.
    injection H as _ H.
    destruct p''; [simpl in H; subst r; contradiction | discriminate H]. }
  destruct Hq as [q [qs' ->]].
  destruct (join_items_starts_with_quote q qs' "]") as [t Q].
  assert (Hc : c = Json.dquote).
  { rewrite Q in H. simpl in H. injection H as H _. now symmetry. }
  subst c.
  change (Json.skip_ws (String Json.dquote p'')) with (String Json.dquote p'').
  change (Ascii.eqb Json.dquote "]") with false. cbv iota.
  subst F.
  pose proof (array_items_cut (String.length (String Json.dquote p'')) qs' q
                (S (String.length (String Json.dquote p'')))
                (String Json.dquote p'') r Hr (eq_sym H)) as N.
  change (Json.skip_ws (String Json.dquote p'')) with (String Json.dquote p'') in N.
  pose proof (array_items_consumes
                (Json.scan_once (S (String.length (String Json.dquote p''))))
                (S (String.length (String Json.dquote p'')))
                (String Json.dquote p'')) as C.
  assert (C' : consumes (String Json.dquote p'')
                 (Json.array_items
                    (Json.scan_once (S (String.length (String Json.dquote p''))))
                    (S (String.length (String Json.dquote p'')))
                    (String Json.dquote p''))).
  { apply C; [|lia]. intros u Hu. apply scan_once_consumes. lia. }
  clear C.
  destruct (Json.array_items
              (Json.scan_once (S (String.length (String Json.dquote p''))))
              (S (String.length (String Json.dquote p'')))
              (String Json.dquote p'')); [contradiction | reflexivity | contradiction].
Qed.

Lemma get_questions_of_text (fs : file_system) (content : string) :
  fs "all_questions.json" = Text content ->
  get_questions fs = try_except (Json.loads content) (Returned (PList [])).
Proof.
  intros H. unfold get_questions, json_load, read_text. rewrite H. reflexivity.
Qed.

(** A question file that holds only blanks (an empty file, a lone newline),
    or that starts with a byte order mark, makes the loader return the empty
    list. *)
Theorem get_questions_blank_or_marked_file :
  forall (fs : file_system) (content : string),
    fs "all_questions.json" = Text content ->
    is_blank content = true \/ startswith Json.BOM content = true ->
    get_questions fs = Returned (PList []).
Proof.
  intros fs content H [B|B]; rewrite (get_questions_of_text fs content H).
  - rewrite (loads_blank content B). reflexivity.
  - rewrite (loads_bom content B). reflexivity.
Qed.

Lemma get_questions_blank_or_marked_file_witness :
  question_file (String LF "") "all_questions.json" = Text (String LF "")
  /\ (is_blank (String LF "") = true \/ startswith Json.BOM (String LF "") = true)
  /\ get_questions (question_file (String LF "")) = Returned (PList []).
Proof.
  split; [reflexivity|]. split; [left; reflexivity|].
  apply (get_questions_blank_or_marked_file (question_file (String LF "")) (String LF "")).
  - reflexivity.
  - left. reflexivity.
Defined.

(** Blanks before and after the written text of a list of strings (a final
    newline, an indentation) do not change what the loader returns: it
    returns that list. *)
Theorem get_questions_reads_padded_list :
  forall (fs : file_system) (pad1 pad2 : string) (qs : list string),
    fs "all_questions.json" = Text (pad1 ++ json_array_text qs ++ pad2) ->
    is_blank pad1 = true ->
    is_blank pad2 = true ->
    get_questions fs = Returned (PList (map PStr qs)).
Proof.
  intros fs pad1 pad2 qs H H1 H2.
  rewrite (get_questions_of_text fs _ H).
  rewrite (loads_padded_array_text pad1 pad2 qs H1 H2). reflexivity.
Qed.

Lemma get_questions_reads_padded_list_witness :
  question_file ("  " ++ json_array_text ["Q1"; "Q2"] ++ String LF "")
    "all_questions.json"
  = Text ("  " ++ json_array_text ["Q1"; "Q2"] ++ String LF "")
  /\ is_blank "  " = true
  /\ is_blank (String LF "") = true
  /\ get_questions (question_file ("  " ++ json_array_text ["Q1"; "Q2"] ++ String LF ""))
     = Returned (PList (map PStr ["Q1"; "Q2"])).
Proof.
  split; [reflexivity|]. split; [reflexivity|]. split; [reflexivity|].
  apply (get_questions_reads_padded_list
           (question_file ("  " ++ json_array_text ["Q1"; "Q2"] ++ String LF ""))
           "  " (String LF "") ["Q1"; "Q2"]); reflexivity.
Defined.

(** A question file that holds the written text of a list of strings cut
    short anywhere before its end makes the loader return the empty list:
    no part of a partly written list is returned. *)
Theorem get_questions_truncated_list :
  forall (fs : file_system) (qs : list string) (kept lost : string),
    fs "all_questions.json" = Text kept ->
    lost <> "" ->
    kept ++ lost = json_array_text qs ->
    get_questions fs = Returned (PList []).
Proof.
  intros fs qs kept lost H Hl E.
  rewrite (get_questions_of_text fs kept H).
  rewrite (loads_cut qs kept lost Hl E). reflexivity.
Qed.

Lemma get_questions_truncated_list_witness :
  question_file ("[" ++ dq ++ "Q1" ++ dq ++ ", " ++ dq ++ "Q2") "all_questions.json"
  = Text ("[" ++ dq ++ "Q1" ++ dq ++ ", " ++ dq ++ "Q2")
  /\ dq ++ "]" <> ""
  /\ ("[" ++ dq ++ "Q1" ++ dq ++ ", " ++ dq ++ "Q2") ++ dq ++ "]"
     = json_array_text ["Q1"; "Q2"]
  /\ get_questions (question_file ("[" ++ dq ++ "Q1" ++ dq ++ ", " ++ dq ++ "Q2"))
     = Returned (PList []).
Proof.
  split; [reflexivity|]. split; [discriminate|]. split; [reflexivity|].
  apply (get_questions_truncated_list
           (question_file ("[" ++ dq ++ "Q1" ++ dq ++ ", " ++ dq ++ "Q2"))
           ["Q1"; "Q2"]
           ("[" ++ dq ++ "Q1" ++ dq ++ ", " ++ dq ++ "Q2") (dq ++ "]")).
  - reflexivity.
  - discriminate.
  - reflexivity.
Defined.

(** * The renderers: sizes, slot offsets, injectivity, headings *)

Lemma byte_count_app (a b : string) :
  byte_count (a ++ b) = (byte_count a + byte_count b)%N.
Proof. unfold byte_count. rewrite append_length. lia. Qed.

Lemma count_fields_literal (text : string) (rest : list fpart) :
  count_fields (Literal text :: rest) = count_fields rest.
Proof. reflexivity. Qed.

Lemma count_fields_replacement (name : string) (rest : list fpart) :
  count_fields (Replacement name :: rest) = S (count_fields rest).
Proof. reflexivity. Qed.

Lemma substitute_bytes (v : string) (parts : list fpart) :
  byte_count (substitute v parts)
  = (literal_bytes parts + N.of_nat (count_fields parts) * byte_count v)%N.
Proof.
  induction parts as [|[text|name] rest IH].
  - reflexivity.
  - cbn [substitute literal_bytes].
    rewrite byte_count_app, IH, count_fields_literal. lia.
  - cbn [substitute literal_bytes].
    rewrite byte_count_app, IH, count_fields_replacement. nia.
Qed.

Lemma size_formula (parts : list fpart) (v : string) (k : N) (n : nat) :
  literal_bytes parts = k ->
  count_fields parts = n ->
  byte_count (substitute v parts) = (k + N.of_nat n * byte_count v)%N.
Proof. intros <- <-. apply substitute_bytes. Qed.

Lemma question_format_literal_bytes :
  literal_bytes (parts_of question_format_template) = 25563%N.
Proof. vm_compute. reflexivity. Qed.

Lemma validation_format_literal_bytes :
  literal_bytes (parts_of validation_format_template) = 35116%N.
Proof. vm_compute. reflexivity. Qed.

Lemma question_generator_literal_bytes :
  literal_bytes (parts_of question_generator_template) = 25302%N.
Proof. vm_compute. reflexivity. Qed.

Lemma question_format_field_count :
  count_fields (parts_of question_format_template) = 1.
Proof. vm_compute. reflexivity. Qed.

Lemma validation_format_field_count :
  count_fields (parts_of validation_format_template) = 1.
Proof. vm_compute. reflexivity. Qed.

Lemma sized (x b : N) (n : nat) (k total : N) :
  x = (k + N.of_nat n * b)%N -> (k + N.of_nat n * b)%N = total -> x = total.
Proof. intros -> <-. reflexivity. Qed.

(** Each prompt is its fixed text plus the argument once per field: the
    finding prompt is 25563 bytes longer than the question, the validation
    prompt 35116 bytes longer than the report, and the question generation
    prompt takes 25302 bytes plus fifteen times the target file. *)
Theorem prompt_sizes :
  forall (s : string) (g : Globals.t),
    (exists out, question_format s g = (Returned out, g)
                 /\ byte_count out = (25563 + byte_count s)%N)
    /\ (exists out, validation_format s g = (Returned out, g)
                    /\ byte_count out = (35116 + byte_count s)%N)
    /\ (exists out, question_generator s g = (Returned out, g)
                    /\ byte_count out = (25302 + 15 * byte_count s)%N).
Proof.
  intros s g.
  assert (one : forall b : N, (25563 + N.of_nat 1 * b = 25563 + b)%N) by (intros; lia).
  assert (one' : forall b : N, (35116 + N.of_nat 1 * b = 35116 + b)%N) by (intros; lia).
  assert (many : forall b : N, (25302 + N.of_nat 15 * b = 25302 + 15 * b)%N)
    by (intros; lia).
  split; [|split].
  - exists (substitute s (parts_of question_format_template)).
    split; [exact (question_format_returns s g)|].
    exact (sized _ _ _ _ _
             (size_formula (parts_of question_format_template) s 25563 1
                question_format_literal_bytes question_format_field_count)
             (one (byte_count s))).
  - exists (substitute s (parts_of validation_format_template)).
    split; [exact (validation_format_returns s g)|].
    exact (sized _ _ _ _ _
             (size_formula (parts_of validation_format_template) s 35116 1
                validation_format_literal_bytes validation_format_field_count)
             (one' (byte_count s))).
  - exists (substitute s (parts_of question_generator_template)).
    split; [exact (question_generator_returns s g)|].
    exact (sized _ _ _ _ _
             (size_formula (parts_of question_generator_template) s 25302 15
                question_generator_literal_bytes question_generator_field_count)
             (many (byte_count s))).
Qed.

Lemma app_same_length (a b x y : string) :
  a ++ x = b ++ y -> String.length a = String.length b -> a = b /\ x = y.
Proof.
  revert b. induction a as [|c a IH]; intros [|d b] H L; simpl in *; try discriminate.
  - now split.
  - injection H as -> H. injection L as L.
    destruct (IH b H L) as [-> ->]. now split.
Qed.

Lemma substitute_injective (parts : list fpart) (v w : string) :
  0 < count_fields parts ->
  substitute v parts = substitute w parts ->
  v = w.
Proof.
  intros Hc H.
  assert (L : String.length v = String.length w).
  { pose proof (substitute_bytes v parts) as Bv.
    pose proof (substitute_bytes w parts) as Bw.
    rewrite H in Bv. rewrite Bv in Bw. unfold byte_count in Bw. nia. }
  revert Hc H.
  induction parts as [|[text|name] rest IH]; cbn [substitute]; intros Hc H.
  - unfold count_fields in Hc. simpl in Hc. lia.
  - rewrite count_fields_literal in Hc.
    exact (IH Hc (append_inv_head _ _ _ H)).
  - exact (proj1 (app_same_length _ _ _ _ H L)).
Qed.

Lemma fst_returned_inj {A G : Type} (r1 r2 : outcome A * G) (a1 a2 : A) (g1 g2 : G) :
  r1 = (Returned a1, g1) -> r2 = (Returned a2, g2) -> fst r1 = fst r2 -> a1 = a2.
Proof. intros -> -> H. simpl in H. now injection H. Qed.

Lemma positive_count (n k : nat) : n = S k -> 0 < n.
Proof. lia. Qed.

(** Each renderer is injective: two calls that return the same prompt were
    given the same argument, whatever the module states. *)
Theorem renderers_injective :
  forall (s1 s2 : string) (g1 g2 : Globals.t),
    (fst (question_format s1 g1) = fst (question_format s2 g2) -> s1 = s2)
    /\ (fst (validation_format s1 g1) = fst (validation_format s2 g2) -> s1 = s2)
    /\ (fst (question_generator s1 g1) = fst (question_generator s2 g2) -> s1 = s2).
Proof.
  intros s1 s2 g1 g2. split; [|split]; intros H.
  - exact (substitute_injective (parts_of question_format_template) s1 s2
             (positive_count _ 0 question_format_field_count)
             (fst_returned_inj _ _ _ _ _ _
                (question_format_returns s1 g1) (question_format_returns s2 g2) H)).
  - exact (substitute_injective (parts_of validation_format_template) s1 s2
             (positive_count _ 0 validation_format_field_count)
             (fst_returned_inj _ _ _ _ _ _
                (validation_format_returns s1 g1) (validation_format_returns s2 g2) H)).
  - exact (substitute_injective (parts_of question_generator_template) s1 s2
             (positive_count _ 14 question_generator_field_count)
             (fst_returned_inj _ _ _ _ _ _
                (question_generator_returns s1 g1) (question_generator_returns s2 g2) H)).
Qed.

(** ** Where the argument stands *)

Lemma substring_whole (v post : string) :
  substring 0 (String.length v) (v ++ post) = v.
Proof. induction v as [|c v IH]; simpl; [destruct post; reflexivity | now rewrite IH]. Qed.

Lemma substring_slot (pre v post : string) :
  substring (String.length pre) (String.length v) (pre ++ v ++ post) = v.
Proof. induction pre as [|c pre IH]; simpl; [apply substring_whole | exact IH]. Qed.

Lemma substring_slot_at (pre v post : string) (k : nat) :
  String.length pre = k ->
  substring k (String.length v) (pre ++ v ++ post) = v.
Proof. intros <-. apply substring_slot. Qed.

Lemma question_format_slot_offset :
  String.length (slot_prefix question_format_template) = 585.
Proof. vm_compute. reflexivity. Qed.

Lemma validation_format_slot_offset :
  String.length (slot_prefix validation_format_template) = 416.
Proof. vm_compute. reflexivity. Qed.

(** The question stands at byte 585 of the finding prompt and the report at
    byte 416 of the validation prompt, whatever their length and content:
    the argument is read back from the prompt by its offset and length. *)
Theorem slot_offsets :
  forall (s : string) (g : Globals.t),
    (exists out, question_format s g = (Returned out, g)
                 /\ substring 585 (String.length s) out = s)
    /\ (exists out, validation_format s g = (Returned out, g)
                    /\ substring 416 (String.length s) out = s).
Proof.
  intros s g. split.
  - exists (slot_prefix question_format_template ++ s
            ++ slot_suffix question_format_template).
    split; [exact (question_format_fills_slot s g)|].
    exact (substring_slot_at _ s _ 585 question_format_slot_offset).
  - exists (slot_prefix validation_format_template ++ s
            ++ slot_suffix validation_format_template).
    split; [exact (validation_format_fills_slot s g)|].
    exact (substring_slot_at _ s _ 416 validation_format_slot_offset).
Qed.

(** ** The validation prompt and the sentinel *)

Lemma sentinel_after_report :
  str_in no_vulnerability_sentinel (slot_suffix validation_format_template) = true.
Proof. vm_compute. reflexivity. Qed.

(** For every report the validation prompt contains the report and the
    sentence [#NoVulnerability found for this question.], the same sentence
    the finding prompt asks for. *)
Theorem validation_format_has_sentinel :
  forall (report : string) (g : Globals.t), exists out : string,
    validation_format report g = (Returned out, g)
    /\ str_in report out = true
    /\ str_in no_vulnerability_sentinel out = true.
Proof.
  intros report g.
  exists (slot_prefix validation_format_template ++ report
          ++ slot_suffix validation_format_template).
  split; [exact (validation_format_fills_slot report g)|]. split.
  - exact (str_in_middle report _ _).
  - exact (str_in_app_r _ _ _ (str_in_app_r _ _ _ sentinel_after_report)).
Qed.

(** ** The first line of each prompt *)

Lemma startswith_app_false (h a b : string) :
  startswith h a = false ->
  String.length h <= String.length a ->
  startswith h (a ++ b) = false.
Proof.
  revert a. induction h as [|c h IH]; intros a H L; [discriminate H|].
  destruct a as [|d a]; simpl in *; [lia|].
  destruct (Ascii.eqb c d); [|reflexivity].
  simpl in *. apply IH; [exact H | lia].
Qed.

Lemma output_starts (template v h : string) :
  starts_with_literal template = true ->
  startswith h (slot_prefix template) = true ->
  startswith h (substitute v (parts_of template)) = true.
Proof.
  unfold starts_with_literal, slot_prefix.
  destruct (parts_of template) as [|[pre|name] rest]; try discriminate.
  intros _ H. cbn [substitute]. exact (startswith_app_l _ _ _ H).
Qed.

Lemma output_starts_otherwise (template v h : string) :
  starts_with_literal template = true ->
  startswith h (slot_prefix template) = false ->
  (String.length h <=? String.length (slot_prefix template))%nat = true ->
  startswith h (substitute v (parts_of template)) = false.
Proof.
  unfold starts_with_literal, slot_prefix.
  destruct (parts_of template) as [|[pre|name] rest]; try discriminate.
  intros _ H L. cbn [substitute]. apply Nat.leb_le in L.
  exact (startswith_app_false _ _ _ H L).
Qed.

Lemma starts_differ (h x y : string) :
  startswith h x = true -> startswith h y = false -> x <> y.
Proof. intros Hx Hy E. subst y. rewrite Hx in Hy. discriminate. Qed.

Lemma question_format_starts_literal : starts_with_literal question_format_template = true.
Proof. vm_compute. reflexivity. Qed.

Lemma validation_format_starts_literal : starts_with_literal validation_format_template = true.
Proof. vm_compute. reflexivity. Qed.

Lemma question_generator_starts_literal : starts_with_literal question_generator_template = true.
Proof. vm_compute. reflexivity. Qed.

Lemma question_format_own_heading :
  startswith question_format_heading (slot_prefix question_format_template) = true.
Proof. vm_compute. reflexivity. Qed.

Lemma validation_format_own_heading :
  startswith validation_format_heading (slot_prefix validation_format_template) = true.
Proof. vm_compute. reflexivity. Qed.

Lemma question_generator_own_heading :
  startswith question_generator_heading (slot_prefix question_generator_template) = true.
Proof. vm_compute. reflexivity. Qed.

Lemma validation_format_other_heading :
  startswith question_format_heading (slot_prefix validation_format_template) = false
  /\ (String.length question_format_heading
      <=? String.length (slot_prefix validation_format_template))%nat = true.
Proof. split; vm_compute; reflexivity. Qed.

Lemma question_generator_other_headings :
  startswith question_format_heading (slot_prefix question_generator_template) = false
  /\ (String.length question_format_heading
      <=? String.length (slot_prefix question_generator_template))%nat = true
  /\ startswith validation_format_heading (slot_prefix question_generator_template) = false
  /\ (String.length validation_format_heading
      <=? String.length (slot_prefix question_generator_template))%nat = true.
Proof. repeat split; vm_compute; reflexivity. Qed.

(** Every prompt starts with the first line of its own kind, whatever the
    argument, so a finding prompt, a validation prompt and a question
    generation prompt are never the same string. *)
Theorem prompt_kinds_distinct :
  forall (a b c : string) (ga gb gc : Globals.t),
  exists oa ob oc : string,
    question_format a ga = (Returned oa, ga)
    /\ validation_format b gb = (Returned ob, gb)
    /\ question_generator c gc = (Returned oc, gc)
    /\ startswith question_format_heading oa = true
    /\ startswith validation_format_heading ob = true
    /\ startswith question_generator_heading oc = true
    /\ oa <> ob /\ oa <> oc /\ ob <> oc.
Proof.
  intros a b c ga gb gc.
  exists (substitute a (parts_of question_format_template)),
         (substitute b (parts_of validation_format_template)),
         (substitute c (parts_of question_generator_template)).
  pose proof (output_starts question_format_template a question_format_heading
                question_format_starts_literal question_format_own_heading) as Ha.
  pose proof (output_starts validation_format_template b validation_format_heading
                validation_format_starts_literal validation_format_own_heading) as Hb.
  pose proof (output_starts question_generator_template c question_generator_heading
                question_generator_starts_literal question_generator_own_heading) as Hc.
  pose proof (output_starts_otherwise validation_format_template b question_format_heading
                validation_format_starts_literal
                (proj1 validation_format_other_heading)
                (proj2 validation_format_other_heading)) as Hab.
  pose proof (output_starts_otherwise question_generator_template c question_format_heading
                question_generator_starts_literal
                (proj1 question_generator_other_headings)
                (proj1 (proj2 question_generator_other_headings))) as Hac.
  pose proof (output_starts_otherwise question_generator_template c validation_format_heading
                question_generator_starts_literal
                (proj1 (proj2 (proj2 question_generator_other_headings)))
                (proj2 (proj2 (proj2 question_generator_other_headings)))) as Hbc.
  split; [exact (question_format_returns a ga)|].
  split; [exact (validation_format_returns b gb)|].
  split; [exact (question_generator_returns c gc)|].
  split; [exact Ha|]. split; [exact Hb|]. split; [exact Hc|].
  split; [exact (starts_differ _ _ _ Ha Hab)|].
  split; [exact (starts_differ _ _ _ Ha Hac) | exact (starts_differ _ _ _ Hb Hbc)].
Qed.

(** ** The catalog and the file list of the question generation prompt *)

Lemma strip_blanks_app (a b : string) :
  strip_blanks (a ++ b) = strip_blanks a ++ strip_blanks b.
Proof.
  induction a as [|c a IH]; simpl; [reflexivity|].
  destruct (Ascii.eqb c " "); simpl; now rewrite IH.
Qed.

Lemma literal_in_substitute (x v : string) (parts : list fpart) :
  literal_contains x parts = true -> str_in x (substitute v parts) = true.
Proof.
  unfold literal_contains.
  induction parts as [|[text|name] rest IH]; cbn [existsb substitute]; intros H.
  - discriminate.
  - apply orb_true_iff in H. destruct H as [H|H].
    + exact (str_in_app_l _ _ _ H).
    + exact (str_in_app_r _ _ _ (IH H)).
  - simpl in H. exact (str_in_app_r _ _ _ (IH H)).
Qed.

Lemma unspaced_in_substitute (x v : string) (parts : list fpart) :
  existsb (str_in x) (unspaced_literals parts) = true ->
  str_in x (strip_blanks (substitute v parts)) = true.
Proof.
  induction parts as [|[text|name] rest IH];
    cbn [unspaced_literals existsb substitute]; intros H.
  - discriminate.
  - rewrite strip_blanks_app. apply orb_true_iff in H. destruct H as [H|H].
    + exact (str_in_app_l _ _ _ H).
    + exact (str_in_app_r _ _ _ (IH H)).
  - rewrite strip_blanks_app. exact (str_in_app_r _ _ _ (IH H)).
Qed.

Lemma catalog_listed_unspaced :
  all_listed_unspaced questions_generator (parts_of question_generator_template) = true.
Proof. vm_compute. reflexivity. Qed.

Lemma catalog_listed_but_mistyped :
  all_listed_but mistyped_entries questions_generator
    (parts_of question_generator_template) = true.
Proof. vm_compute. reflexivity. Qed.

Lemma listed_unspaced (ids : list string) (parts : list fpart) (v id : string) :
  all_listed_unspaced ids parts = true ->
  In id ids ->
  str_in (strip_blanks id) (strip_blanks (substitute v parts)) = true.
Proof.
  unfold all_listed_unspaced. cbv zeta. intros H Hin.
  rewrite forallb_forall in H.
  exact (unspaced_in_substitute _ v parts (H id Hin)).
Qed.

Lemma listed_but (excepted ids : list string) (parts : list fpart) (v id : string) :
  all_listed_but excepted ids parts = true ->
  In id ids ->
  In id excepted \/ str_in id (substitute v parts) = true.
Proof.
  unfold all_listed_but. intros H Hin.
  rewrite forallb_forall in H. specialize (H id Hin).
  apply orb_true_iff in H. destruct H as [H|H].
  - right. exact (literal_in_substitute id v parts H).
  - left. apply existsb_exists in H. destruct H as [y [Hy E]].
    apply String.eqb_eq in E. now subst y.
Qed.

(** For every target file, the question generation prompt names every
    catalog entry once spaces are left out of both, and names verbatim every
    catalog entry other than the fifteen that are spelled with a space
    before [js] on one side only. *)
Theorem question_generator_lists_catalog_unspaced :
  forall (t : string) (g : Globals.t), exists out : string,
    question_generator t g = (Returned out, g)
    /\ forall id : string, In id questions_generator ->
         str_in (strip_blanks id) (strip_blanks out) = true
         /\ (In id mistyped_entries \/ str_in id out = true).
Proof.
  intros t g. exists (substitute t (parts_of question_generator_template)).
  split; [exact (question_generator_returns t g)|].
  intros id Hin. split.
  - exact (listed_unspaced questions_generator (parts_of question_generator_template)
             t id catalog_listed_unspaced Hin).
  - exact (listed_but mistyped_entries questions_generator
             (parts_of question_generator_template) t id
             catalog_listed_but_mistyped Hin).
Qed.

(** * Importing the module and rendering *)

(** Whatever the state of the question file (absent, unreadable, corrupt or
    well formed), importing the module returns: it binds [BASE_URL] to the
    constant of line 3, [questions] to what [get_questions] returns and
    [questions_generator] to the catalog; and every sequence of renderer
    calls made afterwards returns one prompt per call.  A broken question
    file never stands in the way of a prompt. *)
Theorem prompts_render_whatever_the_question_file :
  forall (fs : file_system) (cs : list call),
  exists (g : Globals.t) (outs : list string),
    import_module fs = Returned g
    /\ Globals.BASE_URL g = "https://deepwiki.com/byteball/ocore"
    /\ get_questions fs = Returned (Globals.questions g)
    /\ Globals.questions_generator g = PList (map PStr questions_generator)
    /\ run_calls cs g = (Returned outs, g)
    /\ List.length outs = List.length cs.
Proof.
  intros fs cs. destruct (get_questions_returns fs) as [qs E].
  destruct (run_calls_returns cs
              (Globals.mk BASE_URL qs (PList (map PStr questions_generator))))
    as [outs [Hr Hl]].
  exists (Globals.mk BASE_URL qs (PList (map PStr questions_generator))), outs.
  split; [unfold import_module, questions; rewrite E; reflexivity|].
  split; [reflexivity|]. split; [exact E|]. split; [reflexivity|].
  split; [exact Hr | exact Hl].
Qed.
